(** * TickSnap: the payment-registration core, embedded and verified

    A shallow embedding of [src/sheet.py] (identifier codec, credit lookup,
    credit loader, log-row allocation, log write), of the payment
    workflow [generate_and_send_receipt] of [src/main_logic.py] with the
    two conversation handlers that lead to it, and of the list of
    authorized users of [src/config.py], followed by the properties the
    specification states about them and by further properties of the
    code.

    Conventions of the embedding.
    - Python [int] is [Z]; Python [float] is the IEEE 754 binary64 type
      [PrimFloat.float], with the same rounding as CPython.  [int(s)] and
      [str(n)] are embedded for numerals of at most 4300 digits, CPython's
      default limit.
    - Python [str] is [string].  [Py.strip], [Py.lower] and [Py.upper] are
      the methods of [str] on ASCII texts.  The credit lookup, whose cells
      hold names, is embedded for any [lower] and [strip] and its
      properties are proved for all of them; the names without [_with] are
      its instances at [Py.lower] and [Py.strip].
    - A call that can raise returns [result A = exn + A].
    - The spreadsheet is a finite map from (row, column) to cell text.
      [get_values] returns the fetched rows without the empty rows and
      cells at the end, every row padded with empty texts to the longest.
    - A call of the remote service either raises or answers: the
      functions named [_on] take the exception, if any, that each call
      raises ([faults]); an [update] that raises leaves the sheet as it is.
      The names without [_on] are the instances for a service that answers
      every call (the specification's "assumed reliable per call").  A
      missing connection is modelled apart, because the code tests for it.
      The ticket renderer and the chat transport are external too: their
      calls are recorded as effects and taken to succeed.
    - One workflow runs at a time: no other writer touches the sheet
      between two calls. *)

From Stdlib Require Import ZArith String Ascii List Bool Lia Sorted.
From Stdlib Require Import PrimFloat FloatOps SpecFloat.
From Stdlib Require DecimalString DecimalPos.
From stdpp Require Import gmap.
Import ListNotations.

Local Open Scope string_scope.
Local Open Scope Z_scope.

(** ** Exceptions and results *)

Inductive exn : Type :=
| ValueError (msg : string)
| IndexError
| OverflowError
| APIError
| ConnectionError (msg : string)
| RuntimeError (msg : string).

Definition result (A : Type) : Type := (exn + A)%type.

Definition Ok {A : Type} (a : A) : result A := inr a.
Definition Raise {A : Type} (e : exn) : result A := inl e.

Definition rbind {A B : Type} (m : result A) (k : A -> result B) : result B :=
  match m with
  | inl e => inl e
  | inr a => k a
  end.

Declare Scope py_scope.
Delimit Scope py_scope with py.
Notation "'let*' x ':=' m 'in' k" := (rbind m (fun x => k))
  (at level 10, x name, m at level 100, k at level 200) : py_scope.
Local Open Scope py_scope.

(** ** Python built-ins used by the program *)

Module Py.

Definition chars (s : string) : list ascii := list_ascii_of_string s.
Definition text (l : list ascii) : string := string_of_list_ascii l.

(** [str.isspace] on ASCII: TAB, LF, VT, FF, CR, FS, GS, RS, US, SPACE. *)
Definition is_space (c : ascii) : bool :=
  let n := N_of_ascii c in
  ((9 <=? n) && (n <=? 13) || (28 <=? n) && (n <=? 32))%N.

Definition is_digit (c : ascii) : bool :=
  let n := N_of_ascii c in ((48 <=? n) && (n <=? 57))%N.

Definition is_upper (c : ascii) : bool :=
  let n := N_of_ascii c in ((65 <=? n) && (n <=? 90))%N.

Definition is_lower (c : ascii) : bool :=
  let n := N_of_ascii c in ((97 <=? n) && (n <=? 122))%N.

Definition is_alpha (c : ascii) : bool := is_upper c || is_lower c.

(** [ord(c)] *)
Definition ord (c : ascii) : Z := Z.of_N (N_of_ascii c).

Definition digit_value (c : ascii) : Z := ord c - 48.

Fixpoint lstrip_chars (l : list ascii) : list ascii :=
  match l with
  | c :: l' => if is_space c then lstrip_chars l' else l
  | [] => []
  end.

(** [s.strip()] *)
Definition strip (s : string) : string :=
  text (rev (lstrip_chars (rev (lstrip_chars (chars s))))).

Definition lower_char (c : ascii) : ascii :=
  if is_upper c then ascii_of_N (N_of_ascii c + 32) else c.

Definition upper_char (c : ascii) : ascii :=
  if is_lower c then ascii_of_N (N_of_ascii c - 32) else c.

(** [s.lower()] and [s.upper()] *)
Definition lower (s : string) : string := text (map lower_char (chars s)).
Definition upper (s : string) : string := text (map upper_char (chars s)).

(** [s.replace(old, new)] for a one-character [old]. *)
Fixpoint replace (old : ascii) (new : string) (s : string) : string :=
  match s with
  | EmptyString => EmptyString
  | String c s' =>
      if Ascii.eqb c old then new ++ replace old new s'
      else String c (replace old new s')
  end.

(** [s.split(sep)[0]] for a one-character [sep]: the text before the
    first separator (the whole text when there is none). *)
Fixpoint split_head (sep : ascii) (s : string) : string :=
  match s with
  | EmptyString => EmptyString
  | String c s' =>
      if Ascii.eqb c sep then EmptyString else String c (split_head sep s')
  end.

(** [sys.get_int_max_str_digits()]: by default CPython's [int(s)] and
    [str(n)] raise [ValueError] beyond this number of digits.  [str] and
    [parse_int] below are the conversions within the limit; a property
    that depends on longer numerals states the limit. *)
Definition int_max_str_digits : Z := 4300.

(** [str(n)] for an [int]. *)
Definition str (n : Z) : string :=
  DecimalString.NilZero.string_of_int (Z.to_int n).

Fixpoint zeros (n : nat) : string :=
  match n with
  | O => EmptyString
  | S n' => String "0" (zeros n')
  end.

(** [format(n, "0<w>d")]: sign-aware zero padding to a minimum width. *)
Definition format_0d (w : nat) (n : Z) : string :=
  let sign := if n <? 0 then "-" else "" in
  let digits := str (Z.abs n) in
  sign ++ zeros (w - String.length sign - String.length digits) ++ digits.

(** A digit part of Python's numeric grammar: [digit (["_"] digit)*].
    [seen] says that the previous character was a digit. *)
Fixpoint digitpart (acc : Z) (seen : bool) (l : list ascii) : option Z :=
  match l with
  | [] => if seen then Some acc else None
  | c :: l' =>
      if is_digit c then digitpart (10 * acc + digit_value c) true l'
      else if Ascii.eqb c "_" then
             if seen then digitpart acc false l' else None
           else None
  end.

(** [int(s)], base 10: surrounding white space, an optional sign, one
    digit part.  [None] stands for [ValueError]. *)
Definition parse_int (s : string) : option Z :=
  match chars (strip s) with
  | "+"%char :: l => digitpart 0 false l
  | "-"%char :: l => option_map Z.opp (digitpart 0 false l)
  | l => digitpart 0 false l
  end.

(** Python list indexing [l[i]], negative indices counting from the end. *)
Definition index {A : Type} (l : list A) (i : Z) : result A :=
  let n := Z.of_nat (List.length l) in
  let j := if i <? 0 then i + n else i in
  if (0 <=? j) && (j <? n) then
    match nth_error l (Z.to_nat j) with
    | Some a => Ok a
    | None => Raise IndexError
    end
  else Raise IndexError.

(** [len(l)] *)
Definition len {A : Type} (l : list A) : Z := Z.of_nat (List.length l).

(** *** Floating point: [float] is IEEE 754 binary64 *)

(** The binary64 nearest to [m * 10^e] (ties to even), as CPython's
    [float(str)] computes it.  For a negative [e] the quotient is taken
    with 64 guard bits and a sticky bit, which rounds like the exact
    quotient. *)
Definition round_decimal (neg : bool) (m : positive) (e : Z) : spec_float :=
  if 0 <=? e then binary_normalize prec emax
                    (if neg then - (Zpos m * 10 ^ e) else Zpos m * 10 ^ e)
                    0 neg
  else
    let d := 10 ^ (- e) in
    let s := 64 + Z.log2_up d in
    let n := Z.shiftl (Zpos m) s in
    let sticky := if n mod d =? 0 then 0 else 1 in
    binary_normalize prec emax
      (if neg then - (2 * (n / d) + sticky) else 2 * (n / d) + sticky)
      (- (s + 1)) neg.

Definition float_of_decimal (neg : bool) (m : Z) (e : Z) : float :=
  match m with
  | Zpos p => SF2Prim (round_decimal neg p e)
  | _ => SF2Prim (S754_zero neg)
  end.

(** The text before the first character satisfying [p], and the text
    after that character when there is one. *)
Fixpoint break_at (p : ascii -> bool) (l : list ascii)
  : list ascii * option (list ascii) :=
  match l with
  | [] => ([], None)
  | c :: l' =>
      if p c then ([], Some l')
      else let '(a, b) := break_at p l' in (c :: a, b)
  end.

Definition is_exp_mark (c : ascii) : bool :=
  Ascii.eqb c "e" || Ascii.eqb c "E".

Definition signed_digitpart (l : list ascii) : option Z :=
  match l with
  | "+"%char :: r => digitpart 0 false r
  | "-"%char :: r => option_map Z.opp (digitpart 0 false r)
  | _ => digitpart 0 false l
  end.

(** The mantissa [digitpart ["." [digitpart]] | "." digitpart] as an
    integer and the number of digits after the point. *)
Definition mantissa (l : list ascii) : option (Z * Z) :=
  match break_at (Ascii.eqb ".") l with
  | (ip, None) => option_map (fun v => (v, 0)) (digitpart 0 false ip)
  | (ip, Some fp) =>
      let k := len (List.filter is_digit fp) in
      match ip, fp with
      | [], [] => None
      | _ :: _, [] => option_map (fun v => (v, 0)) (digitpart 0 false ip)
      | [], _ :: _ => option_map (fun v => (v, k)) (digitpart 0 false fp)
      | _ :: _, _ :: _ =>
          match digitpart 0 false ip with
          | Some v => option_map (fun w => (w, k)) (digitpart v false fp)
          | None => None
          end
      end
  end.

(** [float(s)]: surrounding white space, an optional sign, then [inf],
    [infinity], [nan] (any letter case) or a decimal number with an
    optional exponent.  [None] stands for [ValueError]. *)
Definition parse_float (s : string) : option float :=
  let l := chars (strip s) in
  let '(neg, body) :=
    match l with
    | "+"%char :: r => (false, r)
    | "-"%char :: r => (true, r)
    | _ => (false, l)
    end in
  let word := lower (text body) in
  if String.eqb word "inf" || String.eqb word "infinity" then
    Some (SF2Prim (S754_infinity neg))
  else if String.eqb word "nan" then Some (SF2Prim S754_nan)
  else
    let '(mant, ex) := break_at is_exp_mark body in
    match mantissa mant,
          match ex with
          | None => Some 0
          | Some r => signed_digitpart r
          end
    with
    | Some (m, k), Some e => Some (float_of_decimal neg m (e - k))
    | _, _ => None
    end.

(** [float(n)] for an [int], as done by [x * n] with [x] a float: the
    nearest binary64, and [OverflowError] when that is not finite. *)
Definition float_of_int (n : Z) : result float :=
  match binary_normalize prec emax n 0 false with
  | S754_infinity _ => Raise OverflowError
  | f => Ok (SF2Prim f)
  end.

(** [x * n] for a float [x] and an int [n]. *)
Definition mul_float_int (x : float) (n : Z) : result float :=
  let* y := float_of_int n in Ok (PrimFloat.mul x y).

(** [x <= 0] for a float [x]. *)
Definition float_le_0 (x : float) : bool := PrimFloat.leb x PrimFloat.zero.

(** The nearest integer to [n / d] ([d > 0]), ties to even. *)
Definition div_half_even (n d : Z) : Z :=
  let q := n / d in
  let r := n mod d in
  match 2 * r ?= d with
  | Lt => q
  | Gt => q + 1
  | Eq => if Z.even q then q else q + 1
  end.

(** [format(x, ".2f")] *)
Definition format_2f (x : float) : string :=
  match Prim2SF x with
  | S754_nan => "nan"
  | S754_infinity s => if s then "-inf" else "inf"
  | S754_zero s => if s then "-0.00" else "0.00"
  | S754_finite s m e =>
      let h := if 0 <=? e then Zpos m * 100 * 2 ^ e
               else div_half_even (Zpos m * 100) (2 ^ (- e)) in
      (if s then "-" else "") ++ str (h / 100) ++ "." ++ format_0d 2 (h mod 100)
  end.

End Py.

(** ** Column constants ([src/sheet.py], lines 12-37) *)

Definition COL_MASTER_NOMBRE : string := "M".
Definition COL_MASTER_APELLIDO : string := "N".
Definition COL_MASTER_ARTICULO : string := "P".
Definition COL_MASTER_CODIGO : string := "Q".
Definition COL_MASTER_ID_ARTICULO : string := "R".
Definition COL_MASTER_COMERCIO : string := "S".
Definition COL_MASTER_DIRECCION : string := "T".
Definition COL_MASTER_TOTAL_CREDITO : string := "U".
Definition COL_MASTER_IMPORTE_CUOTA : string := "V".
Definition COL_MASTER_TOTAL_CUOTAS : string := "W".
Definition COL_MASTER_CUOTAS_ABONADAS : string := "X".

Definition COL_LOG_FECHA : string := "A".
Definition COL_LOG_ARTICULO : string := "D".
Definition COL_LOG_CANT_CUOTAS_PAGADAS : string := "I".

(** ** Identifier codec *)

(** One turn of the loop of [col_to_index]: the pair is [(index, power)]. *)
Definition col_step (st : Z * Z) (char_val : ascii) : Z * Z :=
  let '(index, power) := st in
  (index + (Py.ord char_val - Py.ord "A" + 1) * power, power * 26).

(** [col_to_index(col_letter)] *)
Definition col_to_index (col_letter : string) : Z :=
  let '(index, _) :=
    fold_left col_step (rev (Py.chars (Py.upper col_letter))) (0, 1) in
  index - 1.

(** Modelled from the spec: the inverse of the identifier codec ("converts a
    spreadsheet column letter to a zero-based numeric index and back",
    "base-26 ... 'A'=1..'Z'=26"), which the repository does not contain.
    [letters_of n] writes the one-based number [n] in bijective base 26;
    the fuel bounds the number of letters. *)
Fixpoint letters_of (fuel : nat) (n : Z) (acc : list ascii) : list ascii :=
  match fuel with
  | O => acc
  | S fuel' =>
      if n <=? 0 then acc
      else letters_of fuel' ((n - 1) / 26)
             (ascii_of_N (Z.to_N (65 + (n - 1) mod 26)) :: acc)
  end.

(** Modelled from the spec: [index_to_col], the base-26 encoding of a
    zero-based column index, absent from the repository. *)
Definition index_to_col (index : Z) : string :=
  Py.text (letters_of (Z.to_nat (index + 1)) (index + 1) []).

(** The column letters from A to ZZ: one or two upper-case letters. *)
Definition column_A_to_ZZ (s : string) : bool :=
  match Py.chars s with
  | [a] => Py.is_upper a
  | [a; b] => Py.is_upper a && Py.is_upper b
  | _ => false
  end.

(** ** The spreadsheet and the calls of the client library *)

(** Cell texts by (row, column): rows count from 1, columns from 0 (column
    A).  A cell that is not in the map is blank. *)
Record Sheet : Type := {
  cells : gmap (Z * Z) string;
  col_count : nat
}.

Definition cell (sh : Sheet) (r c : Z) : string :=
  match cells sh !! (r, c) with
  | Some v => v
  | None => ""
  end.

(** An A1 range [<left><top>:<right><bottom>]. *)
Record a1_range : Type := {
  left_col : string;
  top_row : Z;
  right_col : string;
  bottom_row : Z
}.

Module Gspread.

Definition is_blank (v : string) : bool := String.eqb v "".

Fixpoint drop_leading_blank (l : list string) : list string :=
  match l with
  | v :: l' => if is_blank v then drop_leading_blank l' else l
  | [] => []
  end.

(** The service omits the trailing blank cells of a row... *)
Definition trim_row (l : list string) : list string :=
  rev (drop_leading_blank (rev l)).

Fixpoint drop_leading_empty (l : list (list string)) : list (list string) :=
  match l with
  | [] :: l' => drop_leading_empty l'
  | _ => l
  end.

(** ...and the trailing empty rows of a range. *)
Definition trim_rows (l : list (list string)) : list (list string) :=
  rev (drop_leading_empty (rev l)).

(** The integers [a, a+1, ..., a+n-1]. *)
Definition zrange (a : Z) (n : nat) : list Z :=
  map (fun k => a + Z.of_nat k) (seq 0 n).

Definition row_cells (sh : Sheet) (r c1 c2 : Z) : list string :=
  trim_row (map (cell sh r) (zrange c1 (Z.to_nat (c2 - c1 + 1)))).

(** [sheet.get(range)]: the values as the service returns them, without
    the cells that trail blank in a row and without the rows that trail
    empty; the column letters of a range are read in A1 notation, which
    [col_of] stands for. *)
Definition get (col_of : string -> Z) (sh : Sheet) (rg : a1_range)
  : list (list string) :=
  trim_rows
    (map (fun r => row_cells sh r (col_of (left_col rg)) (col_of (right_col rg)))
         (zrange (top_row rg) (Z.to_nat (bottom_row rg - top_row rg + 1)))).

(** [gspread.utils.rightpad(row, max_len)] *)
Definition rightpad (row : list string) (max_len : nat) : list string :=
  (row ++ repeat "" (max_len - List.length row))%list.

(** [max(len(row) for row in L)] *)
Definition max_cols (L : list (list string)) : nat :=
  fold_right (fun row m => Nat.max (List.length row) m) 0%nat L.

(** [gspread.utils.fill_gaps(L)]: every row is padded with blank cells to
    the length of the longest row; no row is added. *)
Definition fill_gaps (L : list (list string)) : list (list string) :=
  map (fun row => rightpad row (max_cols L)) L.

(** [sheet.get_values(range)]: the values of [get], with the gaps
    filled. *)
Definition get_values (col_of : string -> Z) (sh : Sheet) (rg : a1_range)
  : list (list string) :=
  fill_gaps (get col_of sh rg).

(** [sheet.row_values(row)]: the cells of one row, trailing blanks
    omitted.  The service rejects a row number below 1. *)
Definition row_values (sh : Sheet) (row : Z) : result (list string) :=
  if row <? 1 then Raise APIError
  else Ok (row_cells sh row 0 (Z.of_nat (col_count sh) - 1)).

(** Writing the cells [values] into row [r] from column [c] on. *)
Fixpoint write_row (m : gmap (Z * Z) string) (r c : Z) (values : list string)
  : gmap (Z * Z) string :=
  match values with
  | [] => m
  | v :: values' => write_row (<[(r, c) := v]> m) r (c + 1) values'
  end.

Fixpoint write_rows (m : gmap (Z * Z) string) (r c : Z)
                    (values : list (list string)) : gmap (Z * Z) string :=
  match values with
  | [] => m
  | row :: values' => write_rows (write_row m r c row) (r + 1) c values'
  end.

(** [sheet.update(range, values, value_input_option='USER_ENTERED')]:
    the rows of [values] go to the rows of the range from its top-left
    cell.  The text kept in a cell is taken to be the text sent. *)
Definition update (col_of : string -> Z) (sh : Sheet) (rg : a1_range)
                  (values : list (list string)) : Sheet :=
  {| cells := write_rows (cells sh) (top_row rg) (col_of (left_col rg)) values;
     col_count := col_count sh |}.

(** A call that goes to the service: [fault] is the exception that the
    call raises when the service fails ([APIError], or any other), [None]
    when the call goes through with [outcome]. *)
Definition call {A : Type} (fault : option exn) (outcome : result A) : result A :=
  match fault with
  | Some e => Raise e
  | None => outcome
  end.

End Gspread.

(** ** Credit lookup: [find_client_credits] *)

(** The dictionary appended to [matches]. *)
Record credit_match : Type := {
  match_row_index : Z;
  match_articulo : string;
  match_id_articulo : string;
  match_codigo : string
}.

(** Column positions inside the fetched range, which starts at
    [COL_MASTER_NOMBRE]. *)
Definition base_col_index : Z := col_to_index COL_MASTER_NOMBRE.
Definition idx_nombre_rel : Z := col_to_index COL_MASTER_NOMBRE - base_col_index.
Definition idx_apellido_rel : Z := col_to_index COL_MASTER_APELLIDO - base_col_index.
Definition idx_articulo_rel : Z := col_to_index COL_MASTER_ARTICULO - base_col_index.
Definition idx_codigo_rel : Z := col_to_index COL_MASTER_CODIGO - base_col_index.
Definition idx_id_articulo_rel : Z :=
  col_to_index COL_MASTER_ID_ARTICULO - base_col_index.

(** [max(idx_nombre_rel, ..., idx_id_articulo_rel)] *)
Definition max_idx_rel : Z :=
  Z.max idx_nombre_rel
    (Z.max idx_apellido_rel
       (Z.max idx_articulo_rel (Z.max idx_codigo_rel idx_id_articulo_rel))).

(** [not s or s == "N/A" or s == ""] *)
Definition missing (s : string) : bool :=
  String.eqb s "" || String.eqb s "N/A" || String.eqb s "".

Definition skipped_warning (nombre_sheet apellido_sheet : string) (i : Z)
                           (what : string) : string :=
  "Client '" ++ nombre_sheet ++ " " ++ apellido_sheet
  ++ "' in master sheet row " ++ Py.str (i + 2) ++ " skipped: missing "
  ++ what ++ ".".

(** The lookup calls two methods of [str], [lower] and [strip], and it
    compares their results with [==] only.  It is embedded for any two
    functions in their place, so that what is proved of it does not depend
    on what the two do on a given text. *)
Section Lookup.

Variables lower strip : string -> string.

(** [row_values[idx].strip() if idx < len(row_values) else "N/A"] *)
Definition stripped_cell_or_na_with (row_values : list string) (idx : Z)
  : result string :=
  if idx <? Py.len row_values then
    let* v := Py.index row_values idx in Ok (strip v)
  else Ok "N/A".

(** The body of the [for] loop, for the row at position [i] of the fetched
    data.  The state is [matches] and the warnings logged so far. *)
Definition find_step_with (nombre_buscar apellido_buscar : string)
                          (st : list credit_match * list string)
                          (i : Z) (row_values : list string)
  : result (list credit_match * list string) :=
  let '(matches, warnings) := st in
  if Py.len row_values <=? max_idx_rel then Ok st
  else
    let* nombre_cell := Py.index row_values idx_nombre_rel in
    let nombre_sheet := strip nombre_cell in
    let* apellido_cell := Py.index row_values idx_apellido_rel in
    let apellido_sheet := strip apellido_cell in
    if String.eqb (lower nombre_sheet) (lower nombre_buscar)
       && String.eqb (lower apellido_sheet) (lower apellido_buscar)
    then
      let* articulo := stripped_cell_or_na_with row_values idx_articulo_rel in
      let* codigo := stripped_cell_or_na_with row_values idx_codigo_rel in
      let* id_articulo :=
        stripped_cell_or_na_with row_values idx_id_articulo_rel in
      if missing id_articulo then
        Ok (matches,
            (warnings ++ [skipped_warning nombre_sheet apellido_sheet i
                            "ID Articulo"])%list)
      else if missing codigo then
        Ok (matches,
            (warnings ++ [skipped_warning nombre_sheet apellido_sheet i
                            "Codigo Articulo"])%list)
      else
        Ok ((matches ++ [{| match_row_index := i + 2;
                            match_articulo := articulo;
                            match_id_articulo := id_articulo;
                            match_codigo := codigo |}])%list,
            warnings)
    else Ok st.

(** [for i, row_values in enumerate(all_data)], from position [i] on. *)
Fixpoint find_loop_with (nombre_buscar apellido_buscar : string) (i : Z)
                        (all_data : list (list string))
                        (st : list credit_match * list string)
  : result (list credit_match * list string) :=
  match all_data with
  | [] => Ok st
  | row_values :: rest =>
      let* st' := find_step_with nombre_buscar apellido_buscar st i row_values in
      find_loop_with nombre_buscar apellido_buscar (i + 1) rest st'
  end.

(** The scan of the fetched rows: the matches and the warnings logged. *)
Definition find_client_credits_scan_with (all_data : list (list string))
                                         (nombre_buscar apellido_buscar : string)
  : result (list credit_match * list string) :=
  find_loop_with nombre_buscar apellido_buscar 0 all_data ([], []).

(** [find_client_credits(nombre_buscar, apellido_buscar)]; [conn] is what
    [connect_to_sheet()] returns.  The result pairs the returned list
    with the warnings written to the logger. *)
Definition find_client_credits_with (conn : option Sheet)
                                    (nombre_buscar apellido_buscar : string)
  : result (list credit_match * list string) :=
  match conn with
  | None => Raise (ConnectionError "Google Sheet connection not available.")
  | Some sheet =>
      let range_to_read :=
        {| left_col := COL_MASTER_NOMBRE; top_row := 2;
           right_col := COL_MASTER_ID_ARTICULO; bottom_row := 500 |} in
      let all_data := Gspread.get_values col_to_index sheet range_to_read in
      find_client_credits_scan_with all_data nombre_buscar apellido_buscar
  end.

End Lookup.

(** The lookup on texts of ASCII characters, where [Py.lower] and
    [Py.strip] are [str.lower] and [str.strip]. *)
Definition stripped_cell_or_na : list string -> Z -> result string :=
  stripped_cell_or_na_with Py.strip.

Definition find_step : string -> string -> list credit_match * list string ->
                       Z -> list string ->
                       result (list credit_match * list string) :=
  find_step_with Py.lower Py.strip.

Definition find_loop : string -> string -> Z -> list (list string) ->
                       list credit_match * list string ->
                       result (list credit_match * list string) :=
  find_loop_with Py.lower Py.strip.

Definition find_client_credits_scan : list (list string) -> string -> string ->
                                      result (list credit_match * list string) :=
  find_client_credits_scan_with Py.lower Py.strip.

Definition find_client_credits : option Sheet -> string -> string ->
                                 result (list credit_match * list string) :=
  find_client_credits_with Py.lower Py.strip.

(** ** Credit loader: [get_credit_data] *)

Record credit : Type := {
  row_index : Z;
  nombre : string;
  apellido : string;
  articulo : string;
  codigo : string;
  id_articulo : string;
  local_comercial : string;
  direccion : string;
  total_credito : float;
  importe_cuota : float;
  total_cuotas : Z;
  cuotas_abonadas_antes : Z
}.

(** The [data_type] argument of [_get_cell_value]. *)
Inductive data_type : Type -> Type :=
| as_str : data_type string
| as_int : data_type Z
| as_float : data_type float.

(** The conversion of a non-empty stripped cell text; [None] stands for
    the [ValueError] that the helper catches. *)
Definition convert {A : Type} (t : data_type A) (val_str : string) : option A :=
  match t in data_type T return option T with
  | as_str => Some val_str
  | as_int =>
      let cleaned_val :=
        Py.split_head "," (Py.replace "." "" (Py.replace "$" "" val_str)) in
      Py.parse_int cleaned_val
  | as_float =>
      let cleaned_val :=
        Py.replace "," "." (Py.replace "." "" (Py.replace "$" "" val_str)) in
      Py.parse_float cleaned_val
  end.

(** [_get_cell_value(col_letter, default_val, data_type)] over the fetched
    [row_values]. *)
Definition _get_cell_value {A : Type} (row_values : list string)
                           (col_letter : string) (default_val : A)
                           (t : data_type A) : result A :=
  let cell_idx := col_to_index col_letter in
  if cell_idx <? Py.len row_values then
    let* v := Py.index row_values cell_idx in
    let val_str := Py.strip v in
    if String.eqb val_str "" then Ok default_val
    else match convert t val_str with
         | Some a => Ok a
         | None => Ok default_val
         end
  else Ok default_val.

(** The dictionary [credit] built from the row. *)
Definition parse_credit (row_index : Z) (row_values : list string)
  : result credit :=
  let* nombre := _get_cell_value row_values COL_MASTER_NOMBRE "N/A" as_str in
  let* apellido := _get_cell_value row_values COL_MASTER_APELLIDO "N/A" as_str in
  let* articulo := _get_cell_value row_values COL_MASTER_ARTICULO "N/A" as_str in
  let* codigo := _get_cell_value row_values COL_MASTER_CODIGO "N/A" as_str in
  let* id_articulo :=
    _get_cell_value row_values COL_MASTER_ID_ARTICULO "N/A" as_str in
  let* local_comercial :=
    _get_cell_value row_values COL_MASTER_COMERCIO "N/A" as_str in
  let* direccion := _get_cell_value row_values COL_MASTER_DIRECCION "N/A" as_str in
  let* total_credito :=
    _get_cell_value row_values COL_MASTER_TOTAL_CREDITO PrimFloat.zero as_float in
  let* importe_cuota :=
    _get_cell_value row_values COL_MASTER_IMPORTE_CUOTA PrimFloat.zero as_float in
  let* total_cuotas := _get_cell_value row_values COL_MASTER_TOTAL_CUOTAS 0 as_int in
  let* cuotas_abonadas_antes :=
    _get_cell_value row_values COL_MASTER_CUOTAS_ABONADAS 0 as_int in
  Ok {| row_index := row_index;
        nombre := nombre;
        apellido := apellido;
        articulo := articulo;
        codigo := codigo;
        id_articulo := id_articulo;
        local_comercial := local_comercial;
        direccion := direccion;
        total_credito := total_credito;
        importe_cuota := importe_cuota;
        total_cuotas := total_cuotas;
        cuotas_abonadas_antes := cuotas_abonadas_antes |}.

Definition invalid_msg (what : string) (row_index : Z) : string :=
  what ++ " for credit at master row " ++ Py.str row_index ++ ".".

(** "Critical data validation" *)
Definition validate_credit (c : credit) : result credit :=
  if String.eqb (id_articulo c) "" || String.eqb (id_articulo c) "N/A" then
    Raise (ValueError (invalid_msg "ID Articulo is missing or invalid"
                         (row_index c)))
  else if String.eqb (codigo c) "" || String.eqb (codigo c) "N/A" then
    Raise (ValueError (invalid_msg "Codigo Articulo is missing or invalid"
                         (row_index c)))
  else if Py.float_le_0 (importe_cuota c) then
    Raise (ValueError (invalid_msg "Importe Cuota is invalid (must be > 0)"
                         (row_index c)))
  else if total_cuotas c <=? 0 then
    Raise (ValueError (invalid_msg "Total Cuotas is invalid (must be > 0)"
                         (row_index c)))
  else Ok c.

(** The loader on the fetched row: everything after [sheet.row_values]. *)
Definition credit_of_row (row_index : Z) (row_values : list string)
  : result credit :=
  match row_values with
  | [] => Raise (ValueError ("No data found in master sheet at row "
                             ++ Py.str row_index))
  | _ :: _ =>
      let* c := parse_credit row_index row_values in validate_credit c
  end.

(** [get_credit_data(row_index)]; an [APIError] of the service is raised
    again as [ConnectionError], any other exception as it is.  [fault] is
    what the service does at the call [sheet.row_values]. *)
Definition get_credit_data_on (fault : option exn) (conn : option Sheet)
                              (row_index : Z) : result credit :=
  match conn with
  | None => Raise (ConnectionError "Google Sheet connection not available.")
  | Some sheet =>
      match (let* row_values :=
               Gspread.call fault (Gspread.row_values sheet row_index) in
             credit_of_row row_index row_values) with
      | inl APIError => Raise (ConnectionError "API Error getting credit data")
      | r => r
      end
  end.

(** The loader when the call goes through. *)
Definition get_credit_data : option Sheet -> Z -> result credit :=
  get_credit_data_on None.

(** ** Log-row allocation: [find_first_empty_log_row] *)

(** [all(not str(cell).strip() for cell in row_content)] *)
Definition row_is_empty (row_content : list string) : bool :=
  forallb (fun cell => String.eqb (Py.strip cell) "") row_content.

(** The [for] loop from position [i] on: [Some] is its [return]. *)
Fixpoint first_empty_from (i : Z) (log_table_preview : list (list string))
  : option Z :=
  match log_table_preview with
  | [] => None
  | row_content :: rest =>
      if row_is_empty row_content then Some (i + 2)
      else first_empty_from (i + 1) rest
  end.

(** The scan of the fetched log rows. *)
Definition first_empty_log_row_scan (log_table_preview : list (list string))
  : Z :=
  match first_empty_from 0 log_table_preview with
  | Some empty_row_index => empty_row_index
  | None => Py.len log_table_preview + 2
  end.

Definition log_range_to_check : a1_range :=
  {| left_col := COL_LOG_FECHA; top_row := 2;
     right_col := COL_LOG_ARTICULO; bottom_row := 1000 |}.

(** [find_first_empty_log_row()]; an [APIError] of the service is raised
    again as [ConnectionError], any other exception as it is.  [fault] is
    what the service does at the call [sheet.get_values]. *)
Definition find_first_empty_log_row_on (fault : option exn)
                                       (conn : option Sheet) : result Z :=
  match conn with
  | None => Raise (ConnectionError "Google Sheet connection not available.")
  | Some sheet =>
      match (let* log_table_preview :=
               Gspread.call fault
                 (Ok (Gspread.get_values col_to_index sheet log_range_to_check)) in
             Ok (first_empty_log_row_scan log_table_preview)) with
      | inl APIError => Raise (ConnectionError "API Error finding empty log row")
      | r => r
      end
  end.

(** The scan when the call goes through. *)
Definition find_first_empty_log_row : option Sheet -> result Z :=
  find_first_empty_log_row_on None.

(** ** Effects of the payment workflow *)

(** The values interpolated into [ticket_text_content]; the surrounding
    layout of the ticket is constant text. *)
Record ticket : Type := {
  ticket_fecha_hora : string;
  ticket_nombre : string;
  ticket_apellido : string;
  ticket_local_comercial : string;
  ticket_direccion : string;
  ticket_importe_cuota : float;
  ticket_cuotas_a_pagar : Z;
  ticket_articulo : string;
  ticket_codigo : string;
  rango_cuotas_pagadas_str : string;
  saldo_pagado_total_actualizado : float;
  ticket_total_credito : float;
  remito_number_str : string;
  total_monto_pago_actual : float;
  cobrador_name : string
}.

(** The messages the workflow answers with. *)
Inductive reply : Type :=
| CreditFullyPaid (articulo codigo nombre apellido : string) (total_cuotas : Z)
| PaymentExceedsRemaining (articulo codigo nombre apellido : string)
                          (cuotas_a_pagar cuotas_restantes : Z)
| PaymentRegistered (cuotas_a_pagar : Z) (articulo : string)
| DatabaseConnectionError
| SheetsApiError
| DataError (msg : string)
| UnexpectedCriticalError.

Inductive effect : Type :=
| RenderTicket (t : ticket)
    (** [generate_ticket_image(ticket_text_content)] *)
| SendPhoto (t : ticket)
    (** [context.bot.send_photo(...)] *)
| SheetUpdate (rg : a1_range) (values : list (list string))
    (** [sheet.update(range, values, ...)], when the call went through *)
| Reply (edited : bool) (msg : reply)
    (** [callback_query.edit_message_text] when [edited], else
        [bot.send_message] *).

(** What the workflow reads from its surroundings: whether
    [connect_to_sheet()] yields a sheet, the two readings of the clock,
    already formatted, and whether the update carries a callback query. *)
Record Env : Type := {
  connected : bool;
  fecha_log : string;
  fecha_hora_ticket : string;
  has_callback_query : bool
}.

(** What the workflow changes: the sheet, and the calls made so far. *)
Record State : Type := {
  sheet : Sheet;
  effects : list effect
}.

(** Computations that read and change the state and may raise. *)
Definition M (A : Type) : Type := State -> result A * State.

Definition retM {A : Type} (a : A) : M A := fun st => (Ok a, st).

Definition bindM {A B : Type} (m : M A) (k : A -> M B) : M B :=
  fun st =>
    match m st with
    | (inl e, st') => (inl e, st')
    | (inr a, st') => k a st'
    end.

Definition raiseM {A : Type} (e : exn) : M A := fun st => (Raise e, st).

(** A computation that leaves the state alone. *)
Definition lift_result {A : Type} (r : result A) : M A := fun st => (r, st).

(** [try: m  except Exception as e: h e] *)
Definition try_except {A : Type} (m : M A) (h : exn -> M A) : M A :=
  fun st =>
    match m st with
    | (inl e, st') => h e st'
    | (inr a, st') => (inr a, st')
    end.

Notation "'do' x <- m 'in' k" := (bindM m (fun x => k))
  (at level 10, x name, m at level 100, k at level 200, only parsing) : py_scope.

Definition emit (e : effect) : M unit :=
  fun st => (Ok tt, {| sheet := sheet st; effects := (effects st ++ [e])%list |}).

(** What [connect_to_sheet()] returns in a state: the sheet, or [None]. *)
Definition connection (env : Env) (st : State) : option Sheet :=
  if connected env then Some (sheet st) else None.

(** [connect_to_sheet()] *)
Definition connect_to_sheet (env : Env) : M (option Sheet) :=
  fun st => (Ok (connection env st), st).

(** A call of one of the reading functions of [sheet.py]. *)
Definition reading {A : Type} (env : Env) (f : option Sheet -> result A) : M A :=
  do conn <- connect_to_sheet env in lift_result (f conn).

(** [edit_message_text(msg)] if the update has a callback query, else
    [send_message(msg)]. *)
Definition answer (env : Env) (msg : reply) : M unit :=
  emit (Reply (has_callback_query env) msg).

(** ** The log write: [log_payment_and_update_credit] *)

Definition log_entry_data (env : Env) (credit_data : credit)
                          (cantidad_cuotas_pagadas : Z) : list string :=
  [ fecha_log env;
    nombre credit_data;
    apellido credit_data;
    articulo credit_data;
    id_articulo credit_data;
    local_comercial credit_data;
    direccion credit_data;
    Py.replace "." "," (Py.format_2f (importe_cuota credit_data));
    Py.str cantidad_cuotas_pagadas ].

Definition log_range_to_update (log_row_to_write : Z) : a1_range :=
  {| left_col := COL_LOG_FECHA; top_row := log_row_to_write;
     right_col := COL_LOG_CANT_CUOTAS_PAGADAS; bottom_row := log_row_to_write |}.

(** What the service does at each of the four calls that a run of the
    workflow makes to the sheet: [None] when the call goes through, the
    exception it raises otherwise. *)
Record faults : Type := {
  first_scan_fault : option exn;
    (** [get_values] in the [find_first_empty_log_row] of step 1 *)
  load_fault : option exn;
    (** [row_values] in [get_credit_data] *)
  log_scan_fault : option exn;
    (** [get_values] in the [find_first_empty_log_row] of the log write *)
  update_fault : option exn
    (** [update] in the log write *)
}.

(** A service that answers every call. *)
Definition no_faults : faults :=
  {| first_scan_fault := None; load_fault := None;
     log_scan_fault := None; update_fault := None |}.

(** [sheet.update(...)] on the connected sheet.  A call that fails leaves
    the sheet as it is. *)
Definition sheet_update (fault : option exn) (rg : a1_range)
                        (values : list (list string)) : M unit :=
  fun st =>
    match fault with
    | Some e => (Raise e, st)
    | None =>
        (Ok tt,
         {| sheet := Gspread.update col_to_index (sheet st) rg values;
            effects := (effects st ++ [SheetUpdate rg values])%list |})
    end.

(** [log_payment_and_update_credit(credit_data, cantidad_cuotas_pagadas)].
    [credit_data] is a loaded record, so the test that it is a non-empty
    dictionary passes.  Inside the [try], an [APIError] becomes a
    [ConnectionError] and any other exception a [RuntimeError]. *)
Definition log_payment_and_update_credit_on (f : faults) (env : Env)
                                            (credit_data : credit)
                                            (cantidad_cuotas_pagadas : Z)
  : M unit :=
  do conn <- connect_to_sheet env in
  match conn with
  | None => raiseM (ConnectionError "Google Sheet connection not available.")
  | Some _ =>
      if cantidad_cuotas_pagadas <=? 0 then
        raiseM (ValueError "Invalid cantidad_cuotas_pagadas provided.")
      else
        try_except
          (do log_row_to_write <-
             reading env (find_first_empty_log_row_on (log_scan_fault f)) in
           sheet_update (update_fault f)
                        (log_range_to_update log_row_to_write)
                        [log_entry_data env credit_data cantidad_cuotas_pagadas])
          (fun e =>
             match e with
             | APIError =>
                 raiseM (ConnectionError
                           "Google Sheets API Error during payment logging")
             | _ => raiseM (RuntimeError
                              "Unexpected error during payment logging")
             end)
  end.

(** The log write when the service answers every call. *)
Definition log_payment_and_update_credit : Env -> credit -> Z -> M unit :=
  log_payment_and_update_credit_on no_faults.

(** ** The payment workflow: [generate_and_send_receipt] *)

(** Step 3: the Remito number. *)
Definition remito_number (log_sheet_next_row : option Z) (c : credit) : string :=
  match log_sheet_next_row with
  | Some r =>
      if negb (r =? 0) && negb (String.eqb (id_articulo c) "")
         && negb (String.eqb (id_articulo c) "N/A")
      then
        match Py.parse_int (id_articulo c) with
        | Some n => Py.format_0d 3 n ++ "/" ++ Py.format_0d 4 r
        | None => "Error/Format"
        end
      else "N/A"
  | None => "N/A"
  end.

(** Step 5: the label of the installments paid. *)
Definition rango_cuotas (cuotas_abonadas_antes_sheet cuotas_a_pagar
                         total_cuotas_sheet : Z) : string :=
  let current_installment_start_num := cuotas_abonadas_antes_sheet + 1 in
  let current_installment_end_num := cuotas_abonadas_antes_sheet + cuotas_a_pagar in
  if cuotas_a_pagar =? 1 then
    Py.str current_installment_start_num ++ " of " ++ Py.str total_cuotas_sheet
  else
    Py.str current_installment_start_num ++ " to "
    ++ Py.str current_installment_end_num ++ " of " ++ Py.str total_cuotas_sheet.

(** Step 5: the values that the ticket text shows. *)
Definition ticket_data (env : Env) (credit : credit) (cuotas_a_pagar : Z)
                       (rango : string) (saldo : float) (remito : string)
                       (total_monto : float) : ticket :=
  {| ticket_fecha_hora := fecha_hora_ticket env;
     ticket_nombre := nombre credit;
     ticket_apellido := apellido credit;
     ticket_local_comercial := local_comercial credit;
     ticket_direccion := direccion credit;
     ticket_importe_cuota := importe_cuota credit;
     ticket_cuotas_a_pagar := cuotas_a_pagar;
     ticket_articulo := articulo credit;
     ticket_codigo := codigo credit;
     rango_cuotas_pagadas_str := rango;
     saldo_pagado_total_actualizado := saldo;
     ticket_total_credito := total_credito credit;
     remito_number_str := remito;
     total_monto_pago_actual := total_monto;
     cobrador_name := "John" |}.

(** The body of the outer [try]. *)
Definition receipt_body_on (f : faults) (env : Env)
                           (master_sheet_row_index cuotas_a_pagar : Z)
  : M unit :=
  (* 1. next empty log row, for the Remito number; a failure is logged
        and the workflow goes on without it *)
  do log_sheet_next_row <-
    try_except (do r <- reading env
                          (find_first_empty_log_row_on (first_scan_fault f)) in
                retM (Some r))
               (fun _ => retM None) in
  (* 2. the credit *)
  do credit <- reading env
                 (fun conn => get_credit_data_on (load_fault f) conn
                                master_sheet_row_index) in
  (* 3. the Remito number *)
  let remito := remito_number log_sheet_next_row credit in
  (* 4. feasibility *)
  let total_cuotas_sheet := total_cuotas credit in
  let cuotas_abonadas_antes_sheet := cuotas_abonadas_antes credit in
  if total_cuotas_sheet <=? cuotas_abonadas_antes_sheet then
    answer env (CreditFullyPaid (articulo credit) (codigo credit)
                  (nombre credit) (apellido credit) total_cuotas_sheet)
  else
    let cuotas_restantes := total_cuotas_sheet - cuotas_abonadas_antes_sheet in
    if cuotas_restantes <? cuotas_a_pagar then
      answer env (PaymentExceedsRemaining (articulo credit) (codigo credit)
                    (nombre credit) (apellido credit)
                    cuotas_a_pagar cuotas_restantes)
    else
      (* 5. the data of the ticket *)
      let rango :=
        rango_cuotas cuotas_abonadas_antes_sheet cuotas_a_pagar total_cuotas_sheet in
      do saldo <- lift_result
                    (Py.mul_float_int (importe_cuota credit)
                       (cuotas_abonadas_antes_sheet + cuotas_a_pagar)) in
      do total_monto <- lift_result
                          (Py.mul_float_int (importe_cuota credit) cuotas_a_pagar) in
      let ticket_text_content :=
        ticket_data env credit cuotas_a_pagar rango saldo remito total_monto in
      (* 6. the ticket image, sent as a photo *)
      do _ <- emit (RenderTicket ticket_text_content) in
      do _ <- emit (SendPhoto ticket_text_content) in
      (* 7. the log entry *)
      do _ <- log_payment_and_update_credit_on f env credit cuotas_a_pagar in
      answer env (PaymentRegistered cuotas_a_pagar (articulo credit)).

(** [generate_and_send_receipt(update, context, master_sheet_row_index,
    cuotas_a_pagar)]: every exception of the body ends in a message. *)
Definition generate_and_send_receipt_on (f : faults) (env : Env)
                                        (master_sheet_row_index cuotas_a_pagar : Z)
  : M unit :=
  try_except (receipt_body_on f env master_sheet_row_index cuotas_a_pagar)
    (fun e =>
       match e with
       | ConnectionError _ => answer env DatabaseConnectionError
       | APIError => answer env SheetsApiError
       | ValueError msg => answer env (DataError msg)
       | _ => answer env UnexpectedCriticalError
       end).


(** The workflow when the service answers every call. *)
Definition receipt_body : Env -> Z -> Z -> M unit :=
  receipt_body_on no_faults.

Definition generate_and_send_receipt : Env -> Z -> Z -> M unit :=
  generate_and_send_receipt_on no_faults.

Definition run_workflow (env : Env) (master_sheet_row_index cuotas_a_pagar : Z)
                        (st : State) : State :=
  snd (generate_and_send_receipt env master_sheet_row_index cuotas_a_pagar st).

(** ** More Python built-ins: splitting *)

Module PyStr.

(** [s.split(sep)] for a one-character [sep]: every part, the empty ones
    too; the empty text gives one empty part. *)
Fixpoint split (sep : ascii) (s : string) : list string :=
  match s with
  | EmptyString => [EmptyString]
  | String c s' =>
      if Ascii.eqb c sep then EmptyString :: split sep s'
      else match split sep s' with
           | part :: parts => String c part :: parts
           | [] => [String c EmptyString]
           end
  end.

(** [s.split(sep, maxsplit)] for a one-character [sep]: at most
    [maxsplit] cuts, from the left; the last part keeps its separators. *)
Fixpoint split_max (sep : ascii) (s : string) (maxsplit : nat) {struct s}
  : list string :=
  match maxsplit with
  | O => [s]
  | S fewer =>
      match s with
      | EmptyString => [EmptyString]
      | String c s' =>
          if Ascii.eqb c sep then EmptyString :: split_max sep s' fewer
          else match split_max sep s' maxsplit with
               | part :: parts => String c part :: parts
               | [] => [String c EmptyString]
               end
      end
  end.

(** The longest prefix without white space, and what follows it. *)
Fixpoint take_word (l : list ascii) : list ascii * list ascii :=
  match l with
  | [] => ([], [])
  | c :: l' =>
      if Py.is_space c then ([], l)
      else let '(word, rest) := take_word l' in (c :: word, rest)
  end.

(** [s.split(maxsplit=n)], splitting at runs of white space: at most [n]
    words, then what is left from its first character that is no white
    space up to the end of the text. *)
Fixpoint split_whitespace_chars (maxsplit : nat) (l : list ascii)
  : list (list ascii) :=
  match Py.lstrip_chars l with
  | [] => []
  | c :: rest =>
      match maxsplit with
      | O => [c :: rest]
      | S fewer =>
          let '(word, after) := take_word (c :: rest) in
          word :: split_whitespace_chars fewer after
      end
  end.

Definition split_whitespace (s : string) (maxsplit : nat) : list string :=
  map Py.text (split_whitespace_chars maxsplit (Py.chars s)).

End PyStr.

(** ** Authorized users ([src/config.py], lines 33-42; [is_allowed_user]) *)

(** [[int(uid.strip()) for uid in parts]]: [None] stands for the
    [ValueError] of the first part that is no integer. *)
Fixpoint int_of_each (parts : list string) : option (list Z) :=
  match parts with
  | [] => Some []
  | uid :: parts' =>
      match Py.parse_int (Py.strip uid) with
      | None => None
      | Some n =>
          match int_of_each parts' with
          | None => None
          | Some l => Some (n :: l)
          end
      end
  end.

(** [ALLOWED_USER_IDS], from the value of the environment variable of
    that name ([None] when it is not set).  The list stays empty when the
    variable is unset or empty, and when the comprehension raises. *)
Definition ALLOWED_USER_IDS (ALLOWED_USER_IDS_STR : option string) : list Z :=
  match ALLOWED_USER_IDS_STR with
  | None => []
  | Some s =>
      if String.eqb s "" then []
      else match int_of_each (PyStr.split "," s) with
           | Some ids => ids
           | None => []
           end
  end.

(** [user.id in ALLOWED_USER_IDS] *)
Fixpoint id_in (id : Z) (ids : list Z) : bool :=
  match ids with
  | [] => false
  | x :: ids' => (x =? id) || id_in id ids'
  end.

(** [is_allowed_user(update)]; [user] is the id of
    [update.effective_user], [None] when the update has no user. *)
Definition is_allowed_user (allowed : list Z) (user : option Z) : bool :=
  match user with
  | None => false
  | Some id => id_in id allowed
  end.

(** ** The conversation handlers of [src/main_logic.py] *)

(** An inline keyboard button. *)
Record button : Type := {
  button_label : string;
  callback_data : string
}.

(** [f"select_{row_index}_{num_cuotas}_{codigo}"] *)
Definition selection_data (row_index num_cuotas : Z) (codigo : string) : string :=
  "select_" ++ Py.str row_index ++ "_" ++ Py.str num_cuotas ++ "_" ++ codigo.

(** The button of one match. *)
Definition button_of (num_cuotas : Z) (credit_match : credit_match) : button :=
  {| button_label :=
       match_articulo credit_match ++ " (Code: " ++ match_codigo credit_match ++ ")";
     callback_data :=
       selection_data (match_row_index credit_match) num_cuotas
         (match_codigo credit_match) |}.

(** How [process_payment_request] ends. *)
Inductive request_outcome : Type :=
| Ignored
    (** returns without an answer: user not allowed, or not three parts *)
| InvalidInstallments
    (** "'Number of Installments' must be a whole number greater than 0." *)
| NoActiveCredits (nombre apellido : string)
| SelectItem (nombre apellido : string) (num_cuotas : Z) (buttons : list button)
| SearchConnectionError
| SearchApiError
| SearchUnexpectedError.

(** [process_payment_request(update, context)]: [user] and [text] are the
    user id and the message text of the update, [conn] is what
    [connect_to_sheet()] returns. *)
Definition process_payment_request (allowed : list Z) (conn : option Sheet)
                                   (user : option Z) (text : string)
  : request_outcome :=
  if negb (is_allowed_user allowed user) then Ignored
  else
    let user_message := Py.strip text in
    match PyStr.split_whitespace user_message 2 with
    | [nombre; apellido; cuotas_str] =>
        match Py.parse_int cuotas_str with
        | None => InvalidInstallments
        | Some num_cuotas =>
            if num_cuotas <=? 0 then InvalidInstallments
            else
              match find_client_credits conn nombre apellido with
              | inr ([], _) => NoActiveCredits nombre apellido
              | inr (client_credits, _) =>
                  SelectItem nombre apellido num_cuotas
                    (map (button_of num_cuotas) client_credits)
              | inl (ConnectionError _) => SearchConnectionError
              | inl APIError => SearchApiError
              | inl _ => SearchUnexpectedError
              end
        end
    | _ => Ignored
    end.

(** The selection carried by a callback: the [try] block that unpacks
    [callback_data_str.split('_', 3)]. *)
Definition parse_selection (callback_data_str : string) : result (Z * Z * string) :=
  match PyStr.split_max "_" callback_data_str 3 with
  | [action; row_index_str; cuotas_a_pagar_str; item_code_str] =>
      if negb (String.eqb action "select") then
        Raise (ValueError "Invalid callback action.")
      else
        match Py.parse_int row_index_str with
        | None => Raise (ValueError "invalid literal for int()")
        | Some row_index =>
            match Py.parse_int cuotas_a_pagar_str with
            | None => Raise (ValueError "invalid literal for int()")
            | Some cuotas_a_pagar =>
                if negb ((1 <? row_index) && (0 <? cuotas_a_pagar)) then
                  Raise (ValueError
                    "Invalid row index or number of installments from callback.")
                else Ok (row_index, cuotas_a_pagar, item_code_str)
            end
        end
  | _ => Raise (ValueError "not enough values to unpack")
  end.

(** The messages that [handle_item_selection_callback] itself writes. *)
Inductive notice : Type :=
| AccessDenied
| InvalidSelectionData
| ProcessingPayment (item_code_str : string) (cuotas_a_pagar : Z)
| CriticalSelectionError.

(** The workflow called from the callback handler sees an update with a
    callback query. *)
Definition callback_env (env : Env) : Env :=
  {| connected := connected env;
     fecha_log := fecha_log env;
     fecha_hora_ticket := fecha_hora_ticket env;
     has_callback_query := true |}.

(** [handle_item_selection_callback(update, context)]: the notices it
    writes, in order, and the state it leaves. *)
Definition handle_item_selection_callback (allowed : list Z) (env : Env)
                                          (user : option Z)
                                          (callback_data_str : string)
                                          (st : State)
  : list notice * State :=
  if negb (is_allowed_user allowed user) then ([AccessDenied], st)
  else
    match parse_selection callback_data_str with
    | inl _ => ([InvalidSelectionData], st)
    | inr (row_index, cuotas_a_pagar, item_code_str) =>
        match generate_and_send_receipt (callback_env env) row_index
                cuotas_a_pagar st with
        | (inr _, st') =>
            ([ProcessingPayment item_code_str cuotas_a_pagar], st')
        | (inl _, st') =>
            ([ProcessingPayment item_code_str cuotas_a_pagar;
              CriticalSelectionError], st')
        end
    end.

(** * Vocabulary of the properties *)

(** ** Column letters *)

(** The weight of a character in [col_to_index]: ['A'] weighs 1, ['Z'] 26,
    whatever the letter case. *)
Definition letter_weight (c : ascii) : Z :=
  Py.ord (Py.upper_char c) - Py.ord "A" + 1.

(** The base-26 positional value of a text, first character most
    significant. *)
Fixpoint positional (l : list ascii) : Z :=
  match l with
  | [] => 0
  | c :: l' => letter_weight c * 26 ^ Z.of_nat (List.length l') + positional l'
  end.

Definition upper_letters : list ascii :=
  map (fun k => ascii_of_nat (65 + k)) (seq 0 26).

(** The check of C8 on one column letter. *)
Definition round_trip_ok (s : string) : bool :=
  String.eqb (index_to_col (col_to_index s)) s
  && (0 <=? col_to_index s) && (col_to_index s <=? 701).

(** ** Rows of the master table *)

(** The cell at position [j] of a fetched row; a cell the row does not
    reach is blank. *)
Definition cell_at (row : list string) (j : nat) : string := nth j row "".

(** A stripped identifying field that is neither empty nor the sentinel. *)
Definition present (s : string) : bool :=
  negb (String.eqb s "") && negb (String.eqb s "N/A").

(** [enumerate(all_data)], counting from [i]. *)
Fixpoint enumerate_from {A : Type} (i : Z) (l : list A) : list (Z * A) :=
  match l with
  | [] => []
  | x :: l' => (i, x) :: enumerate_from (i + 1) l'
  end.

(** What the lookup returns, said row by row; [lower] and [strip] stand
    for the two methods of [str], as in the lookup. *)
Section LookupVocabulary.

Variables lower strip : string -> string.

(** Equality up to letter case: equal after [lower]. *)
Definition same_up_to_case (s t : string) : bool :=
  String.eqb (lower s) (lower t).

(** The stripped stored names equal the query names, as given, up to
    letter case. *)
Definition names_match (nombre_buscar apellido_buscar : string)
                       (row : list string) : bool :=
  same_up_to_case (strip (cell_at row 0)) nombre_buscar
  && same_up_to_case (strip (cell_at row 1)) apellido_buscar.

(** The rows that [find_client_credits] returns: they reach the
    identifier column, their names match, and their stripped identifier
    and code are present. *)
Definition row_survives (nombre_buscar apellido_buscar : string)
                        (row : list string) : bool :=
  negb (Py.len row <=? 5)
  && names_match nombre_buscar apellido_buscar row
  && present (strip (cell_at row 5))
  && present (strip (cell_at row 4)).

(** The projection of the row at position [i] of the fetched data. *)
Definition project (i : Z) (row : list string) : credit_match :=
  {| match_row_index := i + 2;
     match_articulo := strip (cell_at row 3);
     match_id_articulo := strip (cell_at row 5);
     match_codigo := strip (cell_at row 4) |}.

Definition surviving_matches (all_data : list (list string))
                             (nombre_buscar apellido_buscar : string)
  : list credit_match :=
  map (fun p => project (fst p) (snd p))
      (List.filter (fun p => row_survives nombre_buscar apellido_buscar (snd p))
              (enumerate_from 0 all_data)).

(** The warning, if any, that the row at position [i] produces. *)
Definition row_warnings (nombre_buscar apellido_buscar : string)
                        (i : Z) (row : list string) : list string :=
  if Py.len row <=? 5 then []
  else if names_match nombre_buscar apellido_buscar row then
    if negb (present (strip (cell_at row 5))) then
      [skipped_warning (strip (cell_at row 0)) (strip (cell_at row 1)) i
         "ID Articulo"]
    else if negb (present (strip (cell_at row 4))) then
      [skipped_warning (strip (cell_at row 0)) (strip (cell_at row 1)) i
         "Codigo Articulo"]
    else []
  else [].

Definition expected_warnings (all_data : list (list string))
                             (nombre_buscar apellido_buscar : string)
  : list string :=
  concat (map (fun p => row_warnings nombre_buscar apellido_buscar (fst p) (snd p))
              (enumerate_from 0 all_data)).

(** The reading of C6 as it is worded: the query names are stripped too,
    and a code or identifier cell counts as soon as it is not empty. *)
Definition claimed_row_survives (nombre_buscar apellido_buscar : string)
                                (row : list string) : bool :=
  same_up_to_case (strip (cell_at row 0)) (strip nombre_buscar)
  && same_up_to_case (strip (cell_at row 1)) (strip apellido_buscar)
  && negb (String.eqb (cell_at row 4) "")
  && negb (String.eqb (cell_at row 5) "").

Definition claimed_matches (all_data : list (list string))
                           (nombre_buscar apellido_buscar : string)
  : list credit_match :=
  map (fun p => project (fst p) (snd p))
      (List.filter (fun p => claimed_row_survives nombre_buscar apellido_buscar (snd p))
              (enumerate_from 0 all_data)).

End LookupVocabulary.

Definition master_range_to_read : a1_range :=
  {| left_col := COL_MASTER_NOMBRE; top_row := 2;
     right_col := COL_MASTER_ID_ARTICULO; bottom_row := 500 |}.

(** Fetched data on which C6 fails as worded. *)
Definition lookup_counterexample_data : list (list string) :=
  [ ["John"; "Doe"; ""; "Fridge"; "C1"; "7"];
    ["Jane"; "Roe"; ""; "Oven"; "N/A"; "8"] ].

(** A short row read as an empty one. *)
Definition blank_if_short (row : list string) : list string :=
  if Py.len row <=? idx_id_articulo_rel then [] else row.

(** ** Fields of a credit record *)

(** What [_get_cell_value] yields for the cell at position [j] of the row:
    the default for a blank or missing cell and for a text that does not
    convert, the converted value otherwise. *)
Definition field_value {A : Type} (row_values : list string) (j : nat)
                       (default_val : A) (t : data_type A) : A :=
  let val_str := Py.strip (cell_at row_values j) in
  if String.eqb val_str "" then default_val
  else match convert t val_str with
       | Some a => a
       | None => default_val
       end.

(** The record that the loader builds from a row, field by field. *)
Definition parsed_credit (ri : Z) (rv : list string) : credit :=
  {| row_index := ri;
     nombre := field_value rv 12 "N/A" as_str;
     apellido := field_value rv 13 "N/A" as_str;
     articulo := field_value rv 15 "N/A" as_str;
     codigo := field_value rv 16 "N/A" as_str;
     id_articulo := field_value rv 17 "N/A" as_str;
     local_comercial := field_value rv 18 "N/A" as_str;
     direccion := field_value rv 19 "N/A" as_str;
     total_credito := field_value rv 20 PrimFloat.zero as_float;
     importe_cuota := field_value rv 21 PrimFloat.zero as_float;
     total_cuotas := field_value rv 22 0 as_int;
     cuotas_abonadas_antes := field_value rv 23 0 as_int |}.

(** The four conditions of the "critical data validation". *)
Definition critical_invalid (c : credit) : Prop :=
  id_articulo c = "" \/ id_articulo c = "N/A"
  \/ codigo c = "" \/ codigo c = "N/A"
  \/ Py.float_le_0 (importe_cuota c) = true
  \/ total_cuotas c <= 0.

(** A master row with a readable identity, amount and count, whose
    installments-paid cell and total-credit cell do not convert. *)
Definition row_with_unparsable_cells : list string :=
  [ ""; ""; ""; ""; ""; ""; ""; ""; ""; ""; ""; "";
    "Ana"; "Diaz"; ""; "Heladera"; "H-1"; "7"; "Casa"; "Calle 1";
    "n/d"; "1.500,00"; "12"; "tres" ].

(** ** Log rows, writes and effects *)

(** The next log row of a sheet: the scan of the range A2:D1000. *)
Definition next_log_row (sh : Sheet) : Z :=
  first_empty_log_row_scan (Gspread.get_values col_to_index sh log_range_to_check).

(** The [sheet.update] calls among the effects. *)
Definition sheet_updates (l : list effect) : list (a1_range * list (list string)) :=
  flat_map (fun e => match e with
                     | SheetUpdate rg values => [(rg, values)]
                     | _ => []
                     end) l.

(** The [generate_ticket_image] calls among the effects. *)
Definition rendered_tickets (l : list effect) : list ticket :=
  flat_map (fun e => match e with
                     | RenderTicket t => [t]
                     | _ => []
                     end) l.

(** A run that writes nothing: the same sheet, and no [sheet.update]
    among the new effects. *)
Definition no_write (st st' : State) : Prop :=
  sheet st' = sheet st
  /\ exists new, effects st' = (effects st ++ new)%list /\ sheet_updates new = [].

(** A run whose one write is the log entry, at the next log row. *)
Definition one_log_write (env : Env) (cuotas : Z) (st st' : State) : Prop :=
  exists (c : credit) (new : list effect),
    sheet st' = Gspread.update col_to_index (sheet st)
                  (log_range_to_update (next_log_row (sheet st)))
                  [log_entry_data env c cuotas]
    /\ effects st' = (effects st ++ new)%list
    /\ sheet_updates new
       = [(log_range_to_update (next_log_row (sheet st)),
           [log_entry_data env c cuotas])].

(** The ticket of an accepted payment. *)
Definition accepted_ticket (env : Env) (sh : Sheet) (c : credit) (cuotas : Z)
                           (fp fd : float) : ticket :=
  ticket_data env c cuotas
    (rango_cuotas (cuotas_abonadas_antes c) cuotas (total_cuotas c))
    (PrimFloat.mul (importe_cuota c) fp)
    (remito_number (Some (next_log_row sh)) c)
    (PrimFloat.mul (importe_cuota c) fd).

(** ** Sample data *)

(** A master row: client in M and N, item in P to R, merchant and address
    in S and T, amounts in U and V, counts in W and X. *)
Definition master_row (codigo_cell importe_cell total_cell abonadas_cell : string)
  : list string :=
  [ ""; ""; ""; ""; ""; ""; ""; ""; ""; ""; ""; "";
    "Ana"; "Diaz"; ""; "Heladera"; codigo_cell; "7"; "Casa"; "Calle 1";
    "18.000,00"; importe_cell; total_cell; abonadas_cell ].

(** A sheet with one log entry in row 2 and the given master row in
    row 5. *)
Definition sheet_with (row5 : list string) : Sheet :=
  {| cells :=
       Gspread.write_row
         (Gspread.write_row (empty : gmap (Z * Z) string) 5 0 row5)
         2 0 ["01/01/2025"; "Luis"; "Paz"; "Horno"];
     col_count := 26 |}.

Definition sample_env : Env :=
  {| connected := true;
     fecha_log := "02/01/2025";
     fecha_hora_ticket := "02/01/2025 - 10:00:00";
     has_callback_query := true |}.

Definition state_with (row5 : list string) : State :=
  {| sheet := sheet_with row5; effects := [] |}.

(** Total 12, paid 3, amount 1500.00: the example of the specification. *)
Definition sample_row : list string := master_row "H-1" "1.500,00" "12" "3".
Definition sample_state : State := state_with sample_row.
Definition sample_credit : credit := parsed_credit 5 sample_row.

(** Total 12, paid 12. *)
Definition paid_up_row : list string := master_row "H-1" "1.500,00" "12" "12".

(** Installment counts of about 400 digits, still written out in the
    cells: total 10^400, paid 10^400 - 1. *)
Definition huge_row : list string :=
  master_row "H-1" "1.500,00" (Py.str (10 ^ 400)) (Py.str (10 ^ 400 - 1)).

(** The cells A to D of a sheet row are blank after stripping. *)
Definition blank_A_to_D (sh : Sheet) (r : Z) : bool :=
  row_is_empty [cell sh r 0; cell sh r 1; cell sh r 2; cell sh r 3].

(** The rows 2 to 1000 of the columns A to D, before the trailing empty
    rows are dropped. *)
Definition log_rows (sh : Sheet) : list (list string) :=
  map (fun r => Gspread.row_cells sh r 0 3) (Gspread.zrange 2 (Z.to_nat 999)).

Definition three_digits (n : Z) : bool :=
  (String.length (Py.format_0d 3 n) =? 3)%nat.

Definition four_digits (n : Z) : bool :=
  (String.length (Py.format_0d 4 n) =? 4)%nat.

(** The sample row with an item identifier that is no integer. *)
Definition lettered_id_row : list string :=
  [ ""; ""; ""; ""; ""; ""; ""; ""; ""; ""; ""; "";
    "Ana"; "Diaz"; ""; "Heladera"; "H-1"; "A-7"; "Casa"; "Calle 1";
    "18.000,00"; "1.500,00"; "12"; "3" ].

(** ** Texts and numerals *)

(** [strip] on the characters of a text. *)
Definition strip_chars (l : list ascii) : list ascii :=
  rev (Py.lstrip_chars (rev (Py.lstrip_chars l))).

(** A text without white space. *)
Definition no_space (s : string) : Prop :=
  Forall (fun c => Py.is_space c = false) (Py.chars s).

(** The value of a decimal numeral read after the value [acc]. *)
Fixpoint uint_value (acc : Z) (d : Decimal.uint) : Z :=
  match d with
  | Decimal.Nil => acc
  | Decimal.D0 d' => uint_value (10 * acc + 0) d'
  | Decimal.D1 d' => uint_value (10 * acc + 1) d'
  | Decimal.D2 d' => uint_value (10 * acc + 2) d'
  | Decimal.D3 d' => uint_value (10 * acc + 3) d'
  | Decimal.D4 d' => uint_value (10 * acc + 4) d'
  | Decimal.D5 d' => uint_value (10 * acc + 5) d'
  | Decimal.D6 d' => uint_value (10 * acc + 6) d'
  | Decimal.D7 d' => uint_value (10 * acc + 7) d'
  | Decimal.D8 d' => uint_value (10 * acc + 8) d'
  | Decimal.D9 d' => uint_value (10 * acc + 9) d'
  end.

(** A character of the numeral of an integer: a digit or the sign. *)
Definition numeral_char (c : ascii) : bool :=
  Py.is_digit c || Ascii.eqb c "-".

(** [sep.join(parts)] for a one-character [sep]. *)
Fixpoint join (sep : ascii) (parts : list string) : string :=
  match parts with
  | [] => EmptyString
  | [part] => part
  | part :: parts' => part ++ String sep (join sep parts')
  end.

(** The text has no character [sep]. *)
Definition free_of (sep : ascii) (s : string) : Prop :=
  Forall (fun c => Ascii.eqb c sep = false) (Py.chars s).

(** A text of white space only. *)
Definition all_space (s : string) : Prop :=
  Forall (fun c => Py.is_space c = true) (Py.chars s).

(** A text of letters only. *)
Definition letters (s : string) : Prop :=
  Forall (fun c => Py.is_alpha c = true) (Py.chars s).

(** A list of characters that begins with a character that is no white
    space. *)
Definition starts_word (l : list ascii) : Prop :=
  match l with
  | [] => False
  | c :: _ => Py.is_space c = false
  end.

(** ** More effects and sample data *)

(** The messages among the effects. *)
Definition replies (l : list effect) : list reply :=
  flat_map (fun e => match e with
                     | Reply _ msg => [msg]
                     | _ => []
                     end) l.


(** A service that answers every call but the [update] of the log write,
    which raises an [APIError]. *)
Definition update_fails : faults :=
  {| first_scan_fault := None; load_fault := None;
     log_scan_fault := None; update_fault := Some APIError |}.

(** The sample sheet with a text left over in F3, on the first free log
    row. *)
Definition sheet_with_leftover : Sheet :=
  {| cells := <[(3, 5) := "old"]> (cells (sheet_with sample_row));
     col_count := 26 |}.

(** * Properties *)

(** ** Identifier codec *)

Lemma chars_text (l : list ascii) : Py.chars (Py.text l) = l.
Proof. apply list_ascii_of_string_of_list_ascii. Qed.

Lemma text_chars (s : string) : Py.text (Py.chars s) = s.
Proof. apply string_of_list_ascii_of_string. Qed.

Lemma col_loop_positional (l : list ascii) :
  fold_left col_step (rev (map Py.upper_char l)) (0, 1)
  = (positional l, 26 ^ Z.of_nat (List.length l)).
Proof.
  induction l as [|c l IH]; [reflexivity|].
  cbn [map rev]. rewrite fold_left_app, IH. cbn [fold_left col_step positional].
  f_equal.
  - unfold letter_weight. lia.
  - cbn [List.length]. rewrite Nat2Z.inj_succ, Z.pow_succ_r by lia. lia.
Qed.

Lemma col_to_index_positional (s : string) :
  col_to_index s = positional (Py.chars s) - 1.
Proof.
  unfold col_to_index, Py.upper. rewrite chars_text, col_loop_positional.
  reflexivity.
Qed.

Lemma is_upper_in_letters (a : ascii) :
  Py.is_upper a = true -> In a upper_letters.
Proof.
  destruct a as [[] [] [] [] [] [] [] []]; cbv; intros H;
    first [ discriminate H | intuition congruence ].
Qed.

Lemma column_A_to_ZZ_cases (s : string) :
  column_A_to_ZZ s = true ->
  (exists a, In a upper_letters /\ s = Py.text [a])
  \/ (exists a b, In a upper_letters /\ In b upper_letters /\ s = Py.text [a; b]).
Proof.
  unfold column_A_to_ZZ. intros H. rewrite <- (text_chars s).
  destruct (Py.chars s) as [|a [|b [|c l]]]; try discriminate H.
  - left. exists a. split; [apply is_upper_in_letters, H | reflexivity].
  - right. apply andb_true_iff in H as [Ha Hb]. exists a, b.
    repeat split; auto using is_upper_in_letters.
Qed.

Lemma round_trip_one_letter :
  forallb (fun a => round_trip_ok (Py.text [a])) upper_letters = true.
Proof. vm_compute. reflexivity. Qed.

Lemma round_trip_two_letters :
  forallb (fun a => forallb (fun b => round_trip_ok (Py.text [a; b])) upper_letters)
          upper_letters = true.
Proof. vm_compute. reflexivity. Qed.

Lemma round_trip_indices :
  forallb (fun i => column_A_to_ZZ (index_to_col i)
                    && (col_to_index (index_to_col i) =? i))
          (Gspread.zrange 0 702) = true.
Proof. vm_compute. reflexivity. Qed.

Lemma in_zrange (a : Z) (n : nat) (i : Z) :
  a <= i < a + Z.of_nat n -> In i (Gspread.zrange a n).
Proof.
  intros H. unfold Gspread.zrange. apply in_map_iff.
  exists (Z.to_nat (i - a)). split; [lia|]. apply in_seq. lia.
Qed.

(** C8. For every column letter from A to ZZ, [col_to_index] is the
    base-26 positional value of the letters ('A'=1 .. 'Z'=26) shifted to a
    zero-based index: A gives 0, Z gives 25, AA gives 26, ZZ gives 701; the
    index lies in 0..701 and the base-26 encoding [index_to_col] gives the
    letter back.  The encoding is a two-sided inverse on that range. *)
Theorem col_to_index_round_trip :
  (col_to_index "A" = 0 /\ col_to_index "Z" = 25
   /\ col_to_index "AA" = 26 /\ col_to_index "AZ" = 51
   /\ col_to_index "ZZ" = 701)
  /\ (forall s : string,
        column_A_to_ZZ s = true ->
        col_to_index s = positional (Py.chars s) - 1
        /\ 0 <= col_to_index s <= 701
        /\ index_to_col (col_to_index s) = s)
  /\ (forall i : Z,
        0 <= i <= 701 ->
        column_A_to_ZZ (index_to_col i) = true
        /\ col_to_index (index_to_col i) = i).
Proof.
  split; [repeat split; reflexivity|]. split.
  - intros s Hs. split; [apply col_to_index_positional|].
    assert (R : round_trip_ok s = true).
    { destruct (column_A_to_ZZ_cases s Hs) as [(a & Ha & ->)|(a & b & Ha & Hb & ->)].
      - exact (proj1 (forallb_forall _ _) round_trip_one_letter a Ha).
      - pose proof (proj1 (forallb_forall _ _) round_trip_two_letters a Ha) as H.
        cbv beta in H.
        exact (proj1 (forallb_forall _ _) H b Hb). }
    unfold round_trip_ok in R.
    apply andb_true_iff in R as [R R3]. apply andb_true_iff in R as [R1 R2].
    apply String.eqb_eq in R1. split; [lia | exact R1].
  - intros i Hi.
    pose proof (proj1 (forallb_forall _ _) round_trip_indices i
                  (in_zrange 0 702 i ltac:(lia))) as H.
    cbv beta in H. apply andb_true_iff in H as [H1 H2]. split; [exact H1|lia].
Qed.

(** The round trip on the column AZ. *)
Lemma col_to_index_round_trip_witness :
  column_A_to_ZZ "AZ" = true
  /\ col_to_index "AZ" = 51 /\ index_to_col (col_to_index "AZ") = "AZ".
Proof.
  split; [reflexivity|].
  destruct (proj1 (proj2 col_to_index_round_trip) "AZ" eq_refl) as (_ & _ & H).
  split; [reflexivity | exact H].
Defined.

(** C9, as the code has it.  [col_to_index] validates nothing and never
    fails: for every text, the empty one and those with characters that
    are no letters included, it returns the base-26 positional sum of
    [ord(upper(c)) - ord('A') + 1] over the characters, minus 1; the empty
    text gives -1. *)
Theorem col_to_index_total :
  forall s : string,
    col_to_index s = positional (Py.chars s) - 1
    /\ col_to_index "" = -1.
Proof.
  intros s. split; [apply col_to_index_positional | reflexivity].
Qed.

(** C9 fails as stated: on the empty text and on texts with a digit the
    function returns a number. *)
Lemma col_to_index_returns_on_invalid :
  col_to_index "" = -1 /\ col_to_index "1" = -16 /\ col_to_index "A1" = 10.
Proof. repeat split; reflexivity. Qed.

(** ** Credit lookup *)

Lemma idx_rel_values :
  idx_nombre_rel = 0 /\ idx_apellido_rel = 1 /\ idx_articulo_rel = 3
  /\ idx_codigo_rel = 4 /\ idx_id_articulo_rel = 5 /\ max_idx_rel = 5.
Proof. repeat split; reflexivity. Qed.

Lemma index_in_range {A : Type} (l : list A) (i : nat) (d : A) :
  (i < List.length l)%nat -> Py.index l (Z.of_nat i) = Ok (nth i l d).
Proof.
  intros H. unfold Py.index.
  replace (Z.of_nat i <? 0) with false by (symmetry; apply Z.ltb_ge; lia).
  replace (0 <=? Z.of_nat i) with true by (symmetry; apply Z.leb_le; lia).
  replace (Z.of_nat i <? Z.of_nat (List.length l)) with true
    by (symmetry; apply Z.ltb_lt; lia).
  cbn [andb]. rewrite Nat2Z.id, (nth_error_nth' l d H). reflexivity.
Qed.

Lemma missing_present (s : string) : missing s = negb (present s).
Proof.
  unfold missing, present.
  destruct (String.eqb s ""), (String.eqb s "N/A"); reflexivity.
Qed.

Lemma enumerate_from_in {A : Type} (l : list A) :
  forall (i z : Z) (x : A),
    In (z, x) (enumerate_from i l)
    <-> exists k : nat, nth_error l k = Some x /\ z = i + Z.of_nat k.
Proof.
  induction l as [|y l IH]; intros i z x.
  - split; [intros []|]. intros ([|k] & Hk & _); discriminate Hk.
  - cbn [enumerate_from In]. rewrite IH. split.
    + intros [E|(k & Hk & ->)].
      * injection E as <- <-. exists 0%nat. split; [reflexivity|lia].
      * exists (S k). split; [exact Hk|lia].
    + intros ([|k] & Hk & ->).
      * left. cbn [nth_error] in Hk. injection Hk as ->. f_equal. lia.
      * right. exists k. split; [exact Hk|lia].
Qed.

Section LookupProperties.

Variables lower strip : string -> string.

Lemma stripped_cell_in_range (row : list string) (j : nat) :
  (j < List.length row)%nat ->
  stripped_cell_or_na_with strip row (Z.of_nat j) = Ok (strip (cell_at row j)).
Proof.
  intros H. unfold stripped_cell_or_na_with, Py.len.
  replace (Z.of_nat j <? Z.of_nat (List.length row)) with true
    by (symmetry; apply Z.ltb_lt; lia).
  rewrite (index_in_range row j "" H). reflexivity.
Qed.

(** A row that does not reach the identifier column leaves the state of
    the loop as it is, whatever the names. *)
Lemma find_step_short (n a : string) (st : list credit_match * list string)
                      (i : Z) (row : list string) :
  Py.len row <= max_idx_rel -> find_step_with lower strip n a st i row = Ok st.
Proof.
  intros H. unfold find_step_with. destruct st as [matches warnings].
  apply Z.leb_le in H. rewrite H. reflexivity.
Qed.

Lemma short_row_not_surviving (n a : string) (row : list string) :
  Py.len row <= 5 -> row_survives lower strip n a row = false.
Proof.
  intros H. unfold row_survives. apply Z.leb_le in H. rewrite H. reflexivity.
Qed.

(** One turn of the loop, in closed form. *)
Lemma find_step_spec (n a : string) (matches : list credit_match)
                     (warnings : list string) (i : Z) (row : list string) :
  find_step_with lower strip n a (matches, warnings) i row
  = Ok ((matches
         ++ (if row_survives lower strip n a row
             then [project strip i row] else []))%list,
        (warnings ++ row_warnings lower strip n a i row)%list).
Proof.
  destruct (Z.leb_spec (Py.len row) 5) as [Hs|Hl].
  - rewrite find_step_short by exact Hs.
    rewrite short_row_not_surviving by exact Hs. unfold row_warnings.
    apply Z.leb_le in Hs. rewrite Hs, !app_nil_r. reflexivity.
  - unfold find_step_with, row_warnings, row_survives, names_match,
      same_up_to_case.
    destruct idx_rel_values as (-> & -> & -> & -> & -> & ->).
    replace (Py.len row <=? 5) with false by (symmetry; apply Z.leb_gt; lia).
    unfold Py.len in Hl. cbn [negb andb].
    change 0 with (Z.of_nat 0). change 1 with (Z.of_nat 1).
    rewrite (index_in_range row 0 "") by lia. cbn [rbind Ok].
    rewrite (index_in_range row 1 "") by lia. cbn [rbind Ok].
    fold (cell_at row 0). fold (cell_at row 1).
    destruct (String.eqb (lower (strip (cell_at row 0))) (lower n)
              && String.eqb (lower (strip (cell_at row 1))) (lower a));
      [|rewrite !app_nil_r; reflexivity].
    change 3 with (Z.of_nat 3). change 4 with (Z.of_nat 4).
    change 5 with (Z.of_nat 5).
    rewrite !stripped_cell_in_range by lia. cbn [rbind Ok andb].
    rewrite !missing_present.
    destruct (present (strip (cell_at row 5))); cbn [negb andb];
      [|rewrite app_nil_r; reflexivity].
    destruct (present (strip (cell_at row 4))); cbn [negb];
      rewrite app_nil_r; reflexivity.
Qed.

Lemma find_loop_spec (n a : string) (all_data : list (list string)) :
  forall (i : Z) (matches : list credit_match) (warnings : list string),
    find_loop_with lower strip n a i all_data (matches, warnings)
    = Ok ((matches
           ++ map (fun p => project strip (fst p) (snd p))
                (List.filter (fun p => row_survives lower strip n a (snd p))
                   (enumerate_from i all_data)))%list,
          (warnings
           ++ concat (map (fun p => row_warnings lower strip n a (fst p) (snd p))
                        (enumerate_from i all_data)))%list).
Proof.
  induction all_data as [|row rest IH]; intros i matches warnings.
  - cbn. rewrite !app_nil_r. reflexivity.
  - cbn [find_loop_with]. rewrite find_step_spec. cbn [rbind Ok].
    rewrite IH. cbn [enumerate_from List.filter map concat fst snd].
    destruct (row_survives lower strip n a row); cbn [map app];
      rewrite <- !app_assoc; reflexivity.
Qed.

Lemma find_client_credits_scan_spec (all_data : list (list string))
                                    (n a : string) :
  find_client_credits_scan_with lower strip all_data n a
  = Ok (surviving_matches lower strip all_data n a,
        expected_warnings lower strip all_data n a).
Proof.
  unfold find_client_credits_scan_with. rewrite find_loop_spec. reflexivity.
Qed.

Lemma find_client_credits_connected (sh : Sheet) (n a : string) :
  find_client_credits_with lower strip (Some sh) n a
  = Ok (surviving_matches lower strip
          (Gspread.get_values col_to_index sh master_range_to_read) n a,
        expected_warnings lower strip
          (Gspread.get_values col_to_index sh master_range_to_read) n a).
Proof.
  unfold find_client_credits_with. cbv zeta.
  apply find_client_credits_scan_spec.
Qed.

Lemma surviving_from_sorted (n a : string) (all_data : list (list string)) :
  forall i : Z,
    let found :=
      map (fun p => project strip (fst p) (snd p))
        (List.filter (fun p => row_survives lower strip n a (snd p))
           (enumerate_from i all_data)) in
    Forall (fun m => i + 2 <= match_row_index m) found
    /\ StronglySorted Z.lt (map match_row_index found).
Proof.
  induction all_data as [|row rest IH]; intros i; cbn zeta.
  - split; constructor.
  - cbn [enumerate_from List.filter snd].
    destruct (IH (i + 1)) as [Hall Hsorted]. cbn zeta in Hall, Hsorted.
    assert (Hall' :
      Forall (fun m => i + 2 <= match_row_index m)
        (map (fun p => project strip (fst p) (snd p))
           (List.filter (fun p => row_survives lower strip n a (snd p))
              (enumerate_from (i + 1) rest)))).
    { eapply List.Forall_impl; [|exact Hall]. cbv beta. intros m Hm. lia. }
    destruct (row_survives lower strip n a row); [|split; assumption].
    cbn [map fst snd project match_row_index]. split.
    + constructor; [cbn; lia | exact Hall'].
    + constructor; [exact Hsorted|].
      apply List.Forall_map. eapply List.Forall_impl; [|exact Hall].
      cbv beta. intros m Hm. lia.
Qed.

(** The matches, row by row. *)
Lemma surviving_matches_iff (all_data : list (list string)) (n a : string)
                            (m : credit_match) :
  In m (surviving_matches lower strip all_data n a)
  <-> exists (k : nat) (row : list string),
        nth_error all_data k = Some row
        /\ row_survives lower strip n a row = true
        /\ m = project strip (Z.of_nat k) row.
Proof.
  unfold surviving_matches. rewrite in_map_iff. split.
  - intros ([z row] & <- & H). apply filter_In in H as [H Hs].
    apply enumerate_from_in in H as (k & Hk & ->).
    exists k, row. cbn [fst snd] in *. auto.
  - intros (k & row & Hk & Hs & ->). exists (Z.of_nat k, row).
    split; [reflexivity|]. apply filter_In. split; [|exact Hs].
    apply enumerate_from_in. exists k. split; [exact Hk|lia].
Qed.

Lemma row_survives_iff (n a : string) (row : list string) :
  row_survives lower strip n a row = true
  <-> 5 < Py.len row
      /\ lower (strip (cell_at row 0)) = lower n
      /\ lower (strip (cell_at row 1)) = lower a
      /\ present (strip (cell_at row 5)) = true
      /\ present (strip (cell_at row 4)) = true.
Proof.
  unfold row_survives, names_match, same_up_to_case.
  rewrite !andb_true_iff, negb_true_iff, Z.leb_gt, !String.eqb_eq.
  tauto.
Qed.

Lemma find_loop_blank_short (n a : string) (all_data : list (list string)) :
  forall (i : Z) (st : list credit_match * list string),
    find_loop_with lower strip n a i (map blank_if_short all_data) st
    = find_loop_with lower strip n a i all_data st.
Proof.
  induction all_data as [|row rest IH]; intros i st; [reflexivity|].
  cbn [map find_loop_with]. unfold blank_if_short at 1.
  destruct (Z.leb_spec (Py.len row) idx_id_articulo_rel) as [Hs|Hl].
  - rewrite (find_step_short n a st i row) by exact Hs.
    rewrite (find_step_short n a st i []) by (vm_compute; discriminate).
    cbn [rbind Ok]. apply IH.
  - destruct (find_step_with lower strip n a st i row) as [e|st'];
      [reflexivity|].
    cbn [rbind]. apply IH.
Qed.

End LookupProperties.

(** C6, as the code has it.  For every fetched master data and query
    names, [find_client_credits] returns exactly the rows that reach the
    identifier column, whose stripped first and last name cells equal the
    query names, taken as they are given, up to letter case (they are
    equal after [lower]), and whose stripped item identifier and item code
    cells are neither empty nor the sentinel "N/A"; each is projected to
    (row number, stripped description, stripped identifier, stripped
    code), in table order.  A matching row without code or identifier is
    skipped with a warning, never raised; the empty list is a normal
    result.  This holds whatever [str.lower] and [str.strip] do on a
    text: the statement is proved for any two functions in their place. *)
Theorem find_client_credits_exact :
  forall (lower strip : string -> string)
         (all_data : list (list string)) (nombre_buscar apellido_buscar : string),
    find_client_credits_scan_with lower strip all_data
      nombre_buscar apellido_buscar
    = Ok (surviving_matches lower strip all_data nombre_buscar apellido_buscar,
          expected_warnings lower strip all_data nombre_buscar apellido_buscar)
    /\ StronglySorted Z.lt
         (map match_row_index
            (surviving_matches lower strip all_data
               nombre_buscar apellido_buscar))
    /\ (forall m : credit_match,
          In m (surviving_matches lower strip all_data
                  nombre_buscar apellido_buscar)
          <-> exists (k : nat) (row : list string),
                nth_error all_data k = Some row
                /\ 5 < Py.len row
                /\ lower (strip (cell_at row 0)) = lower nombre_buscar
                /\ lower (strip (cell_at row 1)) = lower apellido_buscar
                /\ present (strip (cell_at row 5)) = true
                /\ present (strip (cell_at row 4)) = true
                /\ m = {| match_row_index := Z.of_nat k + 2;
                          match_articulo := strip (cell_at row 3);
                          match_id_articulo := strip (cell_at row 5);
                          match_codigo := strip (cell_at row 4) |})
    /\ (forall sh : Sheet,
          find_client_credits_with lower strip (Some sh)
            nombre_buscar apellido_buscar
          = Ok (surviving_matches lower strip
                  (Gspread.get_values col_to_index sh master_range_to_read)
                  nombre_buscar apellido_buscar,
                expected_warnings lower strip
                  (Gspread.get_values col_to_index sh master_range_to_read)
                  nombre_buscar apellido_buscar)).
Proof.
  intros lower strip all_data n a.
  split; [apply find_client_credits_scan_spec|]. split.
  { exact (proj2 (surviving_from_sorted lower strip n a all_data 0)). }
  split.
  { intros m. rewrite surviving_matches_iff. split.
    - intros (k & row & Hk & Hs & ->). exists k, row.
      apply row_survives_iff in Hs as (H1 & H2 & H3 & H4 & H5).
      repeat (split; [assumption|]). reflexivity.
    - intros (k & row & Hk & H1 & H2 & H3 & H4 & H5 & ->). exists k, row.
      split; [exact Hk|]. split; [|reflexivity].
      apply row_survives_iff. repeat (split; [assumption|]). assumption. }
  intros sh. apply find_client_credits_connected.
Qed.

(** C6 fails as stated.  A query name with a leading blank matches no
    row, although the stripped names agree; and a row whose code cell holds
    the sentinel "N/A" is skipped although the cell is not empty.  The
    texts are ASCII. *)
Lemma find_client_credits_not_as_claimed :
  (claimed_matches Py.lower Py.strip lookup_counterexample_data " john" "Doe"
   = [ {| match_row_index := 2; match_articulo := "Fridge";
          match_id_articulo := "7"; match_codigo := "C1" |} ]
   /\ find_client_credits_scan lookup_counterexample_data " john" "Doe"
      = Ok ([], []))
  /\ (claimed_matches Py.lower Py.strip lookup_counterexample_data "jane" "roe"
      = [ {| match_row_index := 3; match_articulo := "Oven";
             match_id_articulo := "8"; match_codigo := "N/A" |} ]
      /\ find_client_credits_scan lookup_counterexample_data "jane" "roe"
         = Ok ([], [ "Client 'Jane Roe' in master sheet row 3 skipped: missing Codigo Articulo." ])).
Proof. repeat split; vm_compute; reflexivity. Qed.

(** C10. [find_client_credits] is total on fetched data of any shape: the
    scan returns a list of matches (with the warnings logged) and never an
    [IndexError].  The identifier column is the furthest one read; a row
    that does not reach it leaves the loop state as it is, before any name
    is compared: it adds no match and no warning, and the scan gives what
    it gives with such rows emptied. *)
Theorem find_client_credits_total :
  (forall (all_data : list (list string)) (n a : string),
      exists matches warnings,
        find_client_credits_scan all_data n a = Ok (matches, warnings))
  /\ (forall (sh : Sheet) (n a : string),
        exists matches warnings,
          find_client_credits (Some sh) n a = Ok (matches, warnings))
  /\ max_idx_rel = idx_id_articulo_rel
  /\ (forall (n a : string) (st : list credit_match * list string)
             (i : Z) (row : list string),
        Py.len row <= idx_id_articulo_rel -> find_step n a st i row = Ok st)
  /\ (forall (all_data : list (list string)) (n a : string),
        find_client_credits_scan (map blank_if_short all_data) n a
        = find_client_credits_scan all_data n a).
Proof.
  split; [|split; [|split; [|split]]].
  - intros all_data n a. eexists _, _.
    apply (find_client_credits_scan_spec Py.lower Py.strip).
  - intros sh n a. eexists _, _.
    apply (find_client_credits_connected Py.lower Py.strip).
  - reflexivity.
  - intros n a st i row H. apply (find_step_short Py.lower Py.strip). exact H.
  - intros all_data n a. apply (find_loop_blank_short Py.lower Py.strip).
Qed.

(** A row of four cells is passed over, although its names match. *)
Lemma find_client_credits_total_witness :
  Py.len ["John"; "Doe"; ""; "Fridge"] <= idx_id_articulo_rel
  /\ find_step "john" "doe" ([], []) 0 ["John"; "Doe"; ""; "Fridge"] = Ok ([], []).
Proof.
  split; [vm_compute; discriminate|].
  apply (proj1 (proj2 (proj2 (proj2 find_client_credits_total)))).
  vm_compute. discriminate.
Defined.

(** ** Credit loader *)

Lemma strip_empty : Py.strip "" = "".
Proof. reflexivity. Qed.

Lemma get_cell_value_spec {A : Type} (rv : list string) (col : string)
                          (d : A) (t : data_type A) :
  0 <= col_to_index col ->
  _get_cell_value rv col d t
  = Ok (field_value rv (Z.to_nat (col_to_index col)) d t).
Proof.
  intros Hcol. unfold _get_cell_value, field_value, Py.len.
  destruct (Z.ltb_spec (col_to_index col) (Z.of_nat (List.length rv))) as [Hin|Hout].
  - rewrite <- (Z2Nat.id (col_to_index col)) at 1 by exact Hcol.
    rewrite (index_in_range rv (Z.to_nat (col_to_index col)) "") by lia.
    cbn [rbind Ok]. fold (cell_at rv (Z.to_nat (col_to_index col))).
    destruct (String.eqb (Py.strip (cell_at rv (Z.to_nat (col_to_index col)))) "");
      [reflexivity|].
    destruct (convert t (Py.strip (cell_at rv (Z.to_nat (col_to_index col)))));
      reflexivity.
  - unfold cell_at. rewrite (nth_overflow rv "") by lia.
    rewrite strip_empty. reflexivity.
Qed.

Lemma parse_credit_spec (ri : Z) (rv : list string) :
  parse_credit ri rv = Ok (parsed_credit ri rv).
Proof.
  unfold parse_credit.
  rewrite !get_cell_value_spec by (vm_compute; discriminate).
  reflexivity.
Qed.

Lemma validate_credit_spec (c : credit) :
  ((exists msg, validate_credit c = Raise (ValueError msg)) <-> critical_invalid c)
  /\ (critical_invalid c \/ validate_credit c = Ok c).
Proof.
  unfold validate_credit, critical_invalid.
  destruct (String.eqb_spec (id_articulo c) "") as [E1|N1].
  { cbn [orb]. split; [split; eauto|auto]. }
  destruct (String.eqb_spec (id_articulo c) "N/A") as [E2|N2].
  { cbn [orb]. split; [split; eauto|auto]. }
  destruct (String.eqb_spec (codigo c) "") as [E3|N3].
  { cbn [orb]. split; [split; eauto 6|auto]. }
  destruct (String.eqb_spec (codigo c) "N/A") as [E4|N4].
  { cbn [orb]. split; [split; eauto 6|auto 6]. }
  cbn [orb].
  destruct (Py.float_le_0 (importe_cuota c)) eqn:E5.
  { split; [split; eauto 7|auto 7]. }
  destruct (Z.leb_spec (total_cuotas c) 0) as [E6|N6].
  { split; [split; eauto 8|auto 8]. }
  split; [|right; reflexivity].
  split.
  - intros [msg H]. discriminate H.
  - intros [H|[H|[H|[H|[H|H]]]]]; try contradiction; try discriminate H. lia.
Qed.

Lemma credit_of_row_spec (ri : Z) (cell0 : string) (rest : list string) :
  credit_of_row ri (cell0 :: rest)
  = validate_credit (parsed_credit ri (cell0 :: rest)).
Proof.
  unfold credit_of_row. rewrite parse_credit_spec. reflexivity.
Qed.

(** The amount rule on the specification's example: "." is dropped as a
    thousands separator and "," becomes the decimal point. *)
Example amount_parsing :
  convert as_float "1.234,56" = Py.parse_float "1234.56"
  /\ option_map Py.format_2f (convert as_float "1.234,56") = Some "1234.56"
  /\ convert as_int "$ 1.200,50" = Some 1200.
Proof. repeat split; vm_compute; reflexivity. Qed.

(** C1. On a non-empty master row, the loader parses every field without
    raising, and then raises [ValueError] (the specification's
    [InvalidLedgerData]) exactly when the parsed item identifier is empty
    or "N/A", or the parsed item code is empty or "N/A", or the parsed
    per-installment amount is <= 0, or the parsed total installment count
    is <= 0; otherwise it returns the parsed record.  A non-empty cell that
    does not convert yields the default of its field: 0 for the
    installments-paid count, 0.0 for the total credit amount; a text field
    always converts, and is "N/A" when its cell is blank.  So only the
    four critical fields can abort the load. *)
Theorem get_credit_data_raises_iff :
  forall (ri : Z) (cell0 : string) (rest : list string),
    parse_credit ri (cell0 :: rest) = Ok (parsed_credit ri (cell0 :: rest))
    /\ ((exists msg, credit_of_row ri (cell0 :: rest) = Raise (ValueError msg))
        <-> critical_invalid (parsed_credit ri (cell0 :: rest)))
    /\ (critical_invalid (parsed_credit ri (cell0 :: rest))
        \/ credit_of_row ri (cell0 :: rest) = Ok (parsed_credit ri (cell0 :: rest)))
    /\ (forall (sh : Sheet),
          Gspread.row_values sh ri = Ok (cell0 :: rest) ->
          get_credit_data (Some sh) ri = credit_of_row ri (cell0 :: rest))
    /\ (forall (col : string) (A : Type) (d : A) (t : data_type A),
          0 <= col_to_index col ->
          Py.strip (cell_at (cell0 :: rest) (Z.to_nat (col_to_index col))) <> "" ->
          convert t (Py.strip (cell_at (cell0 :: rest) (Z.to_nat (col_to_index col))))
          = None ->
          _get_cell_value (cell0 :: rest) col d t = Ok d)
    /\ (Py.strip (cell_at (cell0 :: rest) 23) <> "" ->
        convert as_int (Py.strip (cell_at (cell0 :: rest) 23)) = None ->
        cuotas_abonadas_antes (parsed_credit ri (cell0 :: rest)) = 0)
    /\ (Py.strip (cell_at (cell0 :: rest) 20) <> "" ->
        convert as_float (Py.strip (cell_at (cell0 :: rest) 20)) = None ->
        total_credito (parsed_credit ri (cell0 :: rest)) = PrimFloat.zero)
    /\ (forall v : string, convert as_str v = Some v)
    /\ (forall j : nat,
          Py.strip (cell_at (cell0 :: rest) j) = "" ->
          field_value (cell0 :: rest) j "N/A" as_str = "N/A").
Proof.
  intros ri cell0 rest.
  split; [apply parse_credit_spec|].
  rewrite credit_of_row_spec.
  split; [apply validate_credit_spec|].
  split; [apply validate_credit_spec|].
  split.
  { intros sh H. unfold get_credit_data, get_credit_data_on, Gspread.call. rewrite H. cbn [rbind Ok].
    rewrite credit_of_row_spec.
    destruct (proj2 (validate_credit_spec (parsed_credit ri (cell0 :: rest))))
      as [Hbad|Hok].
    - apply (proj1 (validate_credit_spec _)) in Hbad as [msg ->]. reflexivity.
    - rewrite Hok. reflexivity. }
  split.
  { intros col A d t Hcol Hne Hconv. rewrite get_cell_value_spec by exact Hcol.
    unfold field_value. rewrite Hconv.
    destruct (String.eqb _ ""); reflexivity. }
  split.
  { intros Hne Hconv. cbn [cuotas_abonadas_antes parsed_credit].
    unfold field_value. rewrite Hconv. destruct (String.eqb _ ""); reflexivity. }
  split.
  { intros Hne Hconv. cbn [total_credito parsed_credit].
    unfold field_value. rewrite Hconv. destruct (String.eqb _ ""); reflexivity. }
  split; [reflexivity|].
  intros j H. unfold field_value. rewrite H. reflexivity.
Qed.

(** The installments-paid cell "tres" does not convert: the field is 0 and
    the row loads. *)
Lemma get_credit_data_raises_iff_witness :
  Py.strip (cell_at row_with_unparsable_cells 23) <> ""
  /\ convert as_int (Py.strip (cell_at row_with_unparsable_cells 23)) = None
  /\ cuotas_abonadas_antes (parsed_credit 5 row_with_unparsable_cells) = 0
  /\ credit_of_row 5 row_with_unparsable_cells
     = Ok (parsed_credit 5 row_with_unparsable_cells).
Proof.
  split; [vm_compute; discriminate|].
  split; [vm_compute; reflexivity|].
  split.
  - apply (proj1 (proj2 (proj2 (proj2 (proj2 (proj2
             (get_credit_data_raises_iff 5 "" (tl row_with_unparsable_cells)))))))).
    + vm_compute. discriminate.
    + vm_compute. reflexivity.
  - vm_compute. reflexivity.
Defined.

(** ** Log-row allocation *)

Lemma row_is_empty_iff (row : list string) :
  row_is_empty row = true <-> (forall cell, In cell row -> Py.strip cell = "").
Proof.
  unfold row_is_empty. rewrite forallb_forall. split.
  - intros H x Hx. apply String.eqb_eq, H, Hx.
  - intros H x Hx. apply String.eqb_eq, H, Hx.
Qed.

Lemma first_empty_from_spec (preview : list (list string)) :
  forall i : Z,
    match first_empty_from i preview with
    | Some r =>
        exists (k : nat) (row : list string),
          nth_error preview k = Some row
          /\ row_is_empty row = true
          /\ (forall (j : nat) (row' : list string),
                (j < k)%nat -> nth_error preview j = Some row' ->
                row_is_empty row' = false)
          /\ r = i + Z.of_nat k + 2
    | None => forall row, In row preview -> row_is_empty row = false
    end.
Proof.
  induction preview as [|row rest IH]; intros i; cbn [first_empty_from].
  - intros row [].
  - destruct (row_is_empty row) eqn:E.
    + exists 0%nat, row. repeat split; [exact E | intros j row' Hj; lia | lia].
    + specialize (IH (i + 1)).
      destruct (first_empty_from (i + 1) rest) as [r|].
      * destruct IH as (k & row0 & Hk & He & Hbefore & Hr).
        exists (S k), row0. repeat split; [exact Hk | exact He | | lia].
        intros [|j] row' Hj Hnth; cbn in Hnth.
        -- injection Hnth as <-. exact E.
        -- apply (Hbefore j row'); [lia | exact Hnth].
      * intros row' [<-|Hin]; [exact E | apply IH, Hin].
Qed.

Lemma first_empty_log_row_scan_ge_2 (preview : list (list string)) :
  2 <= first_empty_log_row_scan preview.
Proof.
  unfold first_empty_log_row_scan.
  pose proof (first_empty_from_spec preview 0) as H.
  destruct (first_empty_from 0 preview) as [r|].
  - destruct H as (k & row & _ & _ & _ & ->). lia.
  - unfold Py.len. lia.
Qed.

(** ** The spreadsheet: what a log write leaves alone *)

Lemma write_row_lookup_other (values : list string) :
  forall (m : gmap (Z * Z) string) (r c r' c' : Z),
    r' <> r \/ c' < c \/ c + Z.of_nat (List.length values) <= c' ->
    Gspread.write_row m r c values !! (r', c') = m !! (r', c').
Proof.
  induction values as [|v values IH]; intros m r c r' c' H; [reflexivity|].
  cbn [Gspread.write_row]. cbn [List.length] in H.
  rewrite IH by lia. apply lookup_insert_ne. intros E.
  injection E as -> ->. lia.
Qed.

Lemma log_write_frame (sh : Sheet) (r : Z) (entry : list string) (rr cc : Z) :
  List.length entry = 9%nat ->
  col_to_index COL_LOG_CANT_CUOTAS_PAGADAS < cc ->
  cell (Gspread.update col_to_index sh (log_range_to_update r) [entry]) rr cc
  = cell sh rr cc.
Proof.
  intros Hlen Hcc. unfold cell, Gspread.update.
  cbn [cells log_range_to_update top_row left_col Gspread.write_rows].
  rewrite write_row_lookup_other; [reflexivity|].
  right. right. rewrite Hlen.
  change (col_to_index COL_LOG_FECHA) with 0.
  change (col_to_index COL_LOG_CANT_CUOTAS_PAGADAS) with 8 in Hcc. lia.
Qed.

(** What a log write puts into the cells, and what it leaves alone. *)
Lemma write_row_lookup_in (values : list string) :
  forall (m : gmap (Z * Z) string) (r c : Z) (j : nat) (v : string),
    nth_error values j = Some v ->
    Gspread.write_row m r c values !! (r, c + Z.of_nat j) = Some v.
Proof.
  induction values as [|v0 values IH]; intros m r c j v H.
  - destruct j; discriminate H.
  - cbn [Gspread.write_row]. destruct j as [|j].
    + cbn [nth_error] in H. injection H as <-.
      rewrite write_row_lookup_other by lia.
      replace (c + Z.of_nat 0) with c by lia. apply lookup_insert_eq.
    + cbn [nth_error] in H.
      replace (c + Z.of_nat (S j)) with (c + 1 + Z.of_nat j) by lia.
      apply IH. exact H.
Qed.

Lemma log_write_read_back (sh : Sheet) (r : Z) (entry : list string) (j : nat) :
  (j < List.length entry)%nat ->
  cell (Gspread.update col_to_index sh (log_range_to_update r) [entry])
       r (Z.of_nat j)
  = nth j entry "".
Proof.
  intros Hj. unfold cell, Gspread.update.
  cbn [cells log_range_to_update top_row left_col Gspread.write_rows].
  change (col_to_index COL_LOG_FECHA) with 0.
  replace (Z.of_nat j) with (0 + Z.of_nat j) by lia.
  rewrite (write_row_lookup_in entry (cells sh) r 0 j (nth j entry ""))
    by (apply nth_error_nth'; exact Hj).
  reflexivity.
Qed.

Lemma log_write_other (sh : Sheet) (r : Z) (entry : list string) (rr cc : Z) :
  rr <> r \/ cc < 0 \/ Z.of_nat (List.length entry) <= cc ->
  cell (Gspread.update col_to_index sh (log_range_to_update r) [entry]) rr cc
  = cell sh rr cc.
Proof.
  intros H. unfold cell, Gspread.update.
  cbn [cells log_range_to_update top_row left_col Gspread.write_rows].
  change (col_to_index COL_LOG_FECHA) with 0.
  rewrite write_row_lookup_other by lia. reflexivity.
Qed.

(** ** The payment workflow *)

Ltac run_M :=
  cbv beta iota zeta
      delta [generate_and_send_receipt receipt_body log_payment_and_update_credit
             generate_and_send_receipt_on receipt_body_on
             log_payment_and_update_credit_on
             no_faults first_scan_fault load_fault log_scan_fault update_fault
             bindM retM raiseM lift_result try_except reading connect_to_sheet
             answer emit sheet_update Ok Raise];
  change (find_first_empty_log_row_on None) with find_first_empty_log_row;
  change (get_credit_data_on None) with get_credit_data;
  cbn [sheet effects].

Lemma validate_credit_ok (c' c : credit) :
  validate_credit c' = Ok c ->
  c = c'
  /\ String.eqb (id_articulo c) "" = false
  /\ String.eqb (id_articulo c) "N/A" = false
  /\ String.eqb (codigo c) "" = false
  /\ String.eqb (codigo c) "N/A" = false
  /\ Py.float_le_0 (importe_cuota c) = false
  /\ 0 < total_cuotas c.
Proof.
  unfold validate_credit.
  destruct (String.eqb (id_articulo c') "") eqn:E1; [discriminate|].
  destruct (String.eqb (id_articulo c') "N/A") eqn:E2; [discriminate|].
  destruct (String.eqb (codigo c') "") eqn:E3; [discriminate|].
  destruct (String.eqb (codigo c') "N/A") eqn:E4; [discriminate|].
  cbn [orb].
  destruct (Py.float_le_0 (importe_cuota c')) eqn:E5; [discriminate|].
  destruct (Z.leb_spec (total_cuotas c') 0) as [E6|E6]; [discriminate|].
  intros H. injection H as <-. repeat split; assumption.
Qed.

Lemma loaded_credit_valid (conn : option Sheet) (row : Z) (c : credit) :
  get_credit_data conn row = Ok c ->
  String.eqb (id_articulo c) "" = false
  /\ String.eqb (id_articulo c) "N/A" = false
  /\ String.eqb (codigo c) "" = false
  /\ String.eqb (codigo c) "N/A" = false
  /\ Py.float_le_0 (importe_cuota c) = false
  /\ 0 < total_cuotas c.
Proof.
  unfold get_credit_data, get_credit_data_on, Gspread.call. destruct conn as [sh|]; [|discriminate].
  destruct (Gspread.row_values sh row) as [e|rv]; cbn [rbind].
  { destruct e; discriminate. }
  destruct rv as [|cell0 rest].
  { cbn [credit_of_row]. discriminate. }
  rewrite credit_of_row_spec.
  destruct (validate_credit (parsed_credit row (cell0 :: rest))) as [e|c'] eqn:E.
  { destruct e; discriminate. }
  intros H. injection H as ->. apply (validate_credit_ok _ _ E).
Qed.

Lemma fully_paid_run (env : Env) (st : State) (row cuotas : Z) (c : credit) :
  get_credit_data (connection env st) row = Ok c ->
  total_cuotas c <= cuotas_abonadas_antes c ->
  generate_and_send_receipt env row cuotas st
  = (Ok tt,
     {| sheet := sheet st;
        effects :=
          (effects st
           ++ [Reply (has_callback_query env)
                 (CreditFullyPaid (articulo c) (codigo c) (nombre c)
                    (apellido c) (total_cuotas c))])%list |}).
Proof.
  intros Hload Hge. unfold Ok in Hload. run_M.
  apply Z.leb_le in Hge.
  destruct (find_first_empty_log_row (connection env st)) as [e|r]; run_M;
    rewrite Hload; run_M; rewrite Hge; reflexivity.
Qed.

Lemma exceeds_run (env : Env) (st : State) (row cuotas : Z) (c : credit) :
  get_credit_data (connection env st) row = Ok c ->
  cuotas_abonadas_antes c < total_cuotas c ->
  total_cuotas c - cuotas_abonadas_antes c < cuotas ->
  generate_and_send_receipt env row cuotas st
  = (Ok tt,
     {| sheet := sheet st;
        effects :=
          (effects st
           ++ [Reply (has_callback_query env)
                 (PaymentExceedsRemaining (articulo c) (codigo c) (nombre c)
                    (apellido c) cuotas
                    (total_cuotas c - cuotas_abonadas_antes c))])%list |}).
Proof.
  intros Hload Hlt Hex. unfold Ok in Hload. run_M.
  apply Z.leb_gt in Hlt. apply Z.ltb_lt in Hex.
  destruct (find_first_empty_log_row (connection env st)) as [e|r]; run_M;
    rewrite Hload; run_M; rewrite Hlt, Hex; reflexivity.
Qed.

Lemma accepted_run (env : Env) (st : State) (row cuotas : Z) (c : credit)
                   (fp fd : float) :
  get_credit_data (connection env st) row = Ok c ->
  0 < cuotas <= total_cuotas c - cuotas_abonadas_antes c ->
  Py.float_of_int (cuotas_abonadas_antes c + cuotas) = Ok fp ->
  Py.float_of_int cuotas = Ok fd ->
  generate_and_send_receipt env row cuotas st
  = (Ok tt,
     {| sheet := Gspread.update col_to_index (sheet st)
                   (log_range_to_update (next_log_row (sheet st)))
                   [log_entry_data env c cuotas];
        effects :=
          (effects st
           ++ [RenderTicket (accepted_ticket env (sheet st) c cuotas fp fd);
               SendPhoto (accepted_ticket env (sheet st) c cuotas fp fd);
               SheetUpdate (log_range_to_update (next_log_row (sheet st)))
                 [log_entry_data env c cuotas];
               Reply (has_callback_query env)
                 (PaymentRegistered cuotas (articulo c))])%list |}).
Proof.
  intros Hload [Hpos Hle] Hfp Hfd.
  unfold connection in Hload.
  destruct (connected env) eqn:Hconn; [|discriminate Hload].
  unfold Ok in Hload, Hfp, Hfd. run_M. unfold connection. rewrite Hconn.
  cbv beta iota delta [find_first_empty_log_row find_first_empty_log_row_on Gspread.call rbind]. run_M.
  rewrite Hload. run_M.
  replace (total_cuotas c <=? cuotas_abonadas_antes c) with false
    by (symmetry; apply Z.leb_gt; lia).
  replace (total_cuotas c - cuotas_abonadas_antes c <? cuotas) with false
    by (symmetry; apply Z.ltb_ge; lia).
  unfold Py.mul_float_int, rbind. rewrite Hfp, Hfd. run_M.
  replace (cuotas <=? 0) with false by (symmetry; apply Z.leb_gt; lia).
  cbv beta iota delta [find_first_empty_log_row find_first_empty_log_row_on Gspread.call rbind]. run_M.
  rewrite <- !app_assoc. cbn [app].
  unfold accepted_ticket, next_log_row. reflexivity.
Qed.

Ltac close_no_write :=
  left; split; [reflexivity|];
  cbn [effects]; rewrite <- ?app_assoc; cbn [app];
  eexists; split; [reflexivity|reflexivity].

Lemma workflow_cases (env : Env) (row cuotas : Z) (st : State) :
  no_write st (run_workflow env row cuotas st)
  \/ one_log_write env cuotas st (run_workflow env row cuotas st).
Proof.
  unfold run_workflow. run_M. unfold connection.
  destruct (connected env) eqn:Hconn.
  - cbv beta iota delta [find_first_empty_log_row find_first_empty_log_row_on Gspread.call rbind]. run_M.
    destruct (get_credit_data (Some (sheet st)) row) as [e|c] eqn:Hload.
    { destruct e; run_M; cbn [snd]; close_no_write. }
    run_M.
    destruct (total_cuotas c <=? cuotas_abonadas_antes c);
      [cbn [snd]; close_no_write|].
    destruct (total_cuotas c - cuotas_abonadas_antes c <? cuotas);
      [cbn [snd]; close_no_write|].
    destruct (Py.mul_float_int (importe_cuota c) (cuotas_abonadas_antes c + cuotas))
      as [e|saldo]; [destruct e; cbn [snd]; close_no_write|].
    destruct (Py.mul_float_int (importe_cuota c) cuotas)
      as [e|total_monto]; [destruct e; cbn [snd]; close_no_write|].
    run_M.
    destruct (cuotas <=? 0); [cbn [snd]; close_no_write|].
    cbv beta iota delta [find_first_empty_log_row find_first_empty_log_row_on Gspread.call rbind]. run_M. cbn [snd].
    right. exists c. eexists. cbn [sheet effects]. unfold next_log_row.
    split; [reflexivity|]. rewrite <- !app_assoc. cbn [app].
    split; reflexivity.
  - cbv beta iota delta [find_first_empty_log_row find_first_empty_log_row_on get_credit_data get_credit_data_on Gspread.call rbind]. run_M. cbn [snd].
    close_no_write.
Qed.

Lemma sheet_updates_app (l1 l2 : list effect) :
  sheet_updates (l1 ++ l2) = (sheet_updates l1 ++ sheet_updates l2)%list.
Proof. apply flat_map_app. Qed.

Lemma rendered_tickets_app (l1 l2 : list effect) :
  rendered_tickets (l1 ++ l2) = (rendered_tickets l1 ++ rendered_tickets l2)%list.
Proof. apply flat_map_app. Qed.

Lemma next_log_row_ge_2 (sh : Sheet) : 2 <= next_log_row sh.
Proof. unfold next_log_row. apply first_empty_log_row_scan_ge_2. Qed.

Lemma remito_of_loaded (conn : option Sheet) (row : Z) (c : credit) (sh : Sheet) :
  get_credit_data conn row = Ok c ->
  remito_number (Some (next_log_row sh)) c
  = match Py.parse_int (id_articulo c) with
    | Some n => Py.format_0d 3 n ++ "/" ++ Py.format_0d 4 (next_log_row sh)
    | None => "Error/Format"
    end.
Proof.
  intros Hload.
  destruct (loaded_credit_valid conn row c Hload) as (E1 & E2 & _).
  unfold remito_number. rewrite E1, E2.
  pose proof (next_log_row_ge_2 sh) as Hge.
  replace (next_log_row sh =? 0) with false by (symmetry; apply Z.eqb_neq; lia).
  reflexivity.
Qed.

(** ** C2: a payment above the remaining count *)

(** C2. For every loaded credit record with fewer installments paid than
    the total, and every request above the remaining count, the workflow
    answers with the "payment exceeds remaining" message and does nothing
    else: the sheet is the same, and the run adds no [sheet.update] call and
    no [generate_ticket_image] call. *)
Theorem payment_exceeding_remaining_rejected :
  forall (env : Env) (st : State) (row cuotas : Z) (c : credit),
    get_credit_data (connection env st) row = Ok c ->
    cuotas_abonadas_antes c < total_cuotas c ->
    total_cuotas c - cuotas_abonadas_antes c < cuotas ->
    effects (run_workflow env row cuotas st)
    = (effects st
       ++ [Reply (has_callback_query env)
             (PaymentExceedsRemaining (articulo c) (codigo c) (nombre c)
                (apellido c) cuotas
                (total_cuotas c - cuotas_abonadas_antes c))])%list
    /\ sheet (run_workflow env row cuotas st) = sheet st
    /\ sheet_updates (effects (run_workflow env row cuotas st))
       = sheet_updates (effects st)
    /\ rendered_tickets (effects (run_workflow env row cuotas st))
       = rendered_tickets (effects st).
Proof.
  intros env st row cuotas c Hload Hlt Hex. unfold run_workflow.
  rewrite (exceeds_run env st row cuotas c Hload Hlt Hex). cbn [snd sheet effects].
  rewrite sheet_updates_app, rendered_tickets_app. cbn. rewrite !app_nil_r.
  repeat split; reflexivity.
Qed.

(** Ten installments asked for, nine remaining. *)
Lemma payment_exceeding_remaining_rejected_witness :
  effects (run_workflow sample_env 5 10 sample_state)
  = [Reply true (PaymentExceedsRemaining "Heladera" "H-1" "Ana" "Diaz" 10 9)]
  /\ sheet (run_workflow sample_env 5 10 sample_state) = sheet sample_state.
Proof.
  assert (Hload : get_credit_data (connection sample_env sample_state) 5
                  = Ok sample_credit) by (vm_compute; reflexivity).
  destruct (payment_exceeding_remaining_rejected sample_env sample_state 5 10
              sample_credit Hload)
    as (He & Hs & _); [vm_compute; reflexivity | vm_compute; reflexivity |].
  split; [exact He | exact Hs].
Defined.

(** ** C3: a credit already paid in full *)

(** C3.  The loader raises for four causes only, none of which is the
    installments-paid count: a non-empty master row with its item
    identifier and item code present, its per-installment amount above 0
    and its total installment count above 0 loads without raising when its
    installments-paid count equals or exceeds the total; and on every
    loaded record with paid >= total the workflow answers with the "credit
    fully paid" message and does nothing else: the sheet is the same, no
    [sheet.update] call, no ticket. *)
Theorem fully_paid_credit_outcome :
  (forall (ri : Z) (cell0 : string) (rest : list string),
      id_articulo (parsed_credit ri (cell0 :: rest)) <> "" ->
      id_articulo (parsed_credit ri (cell0 :: rest)) <> "N/A" ->
      codigo (parsed_credit ri (cell0 :: rest)) <> "" ->
      codigo (parsed_credit ri (cell0 :: rest)) <> "N/A" ->
      Py.float_le_0 (importe_cuota (parsed_credit ri (cell0 :: rest))) = false ->
      0 < total_cuotas (parsed_credit ri (cell0 :: rest)) ->
      total_cuotas (parsed_credit ri (cell0 :: rest))
      <= cuotas_abonadas_antes (parsed_credit ri (cell0 :: rest)) ->
      credit_of_row ri (cell0 :: rest) = Ok (parsed_credit ri (cell0 :: rest)))
  /\ (forall (env : Env) (st : State) (row cuotas : Z) (c : credit),
        get_credit_data (connection env st) row = Ok c ->
        total_cuotas c <= cuotas_abonadas_antes c ->
        effects (run_workflow env row cuotas st)
        = (effects st
           ++ [Reply (has_callback_query env)
                 (CreditFullyPaid (articulo c) (codigo c) (nombre c)
                    (apellido c) (total_cuotas c))])%list
        /\ sheet (run_workflow env row cuotas st) = sheet st
        /\ sheet_updates (effects (run_workflow env row cuotas st))
           = sheet_updates (effects st)
        /\ rendered_tickets (effects (run_workflow env row cuotas st))
           = rendered_tickets (effects st)).
Proof.
  split.
  - intros ri cell0 rest H1 H2 H3 H4 H5 H6 _.
    rewrite credit_of_row_spec.
    destruct (proj2 (validate_credit_spec (parsed_credit ri (cell0 :: rest))))
      as [Hbad|Hok]; [|exact Hok].
    destruct Hbad as [H|[H|[H|[H|[H|H]]]]]; try contradiction.
    + rewrite H in H5. discriminate H5.
    + lia.
  - intros env st row cuotas c Hload Hge. unfold run_workflow.
    rewrite (fully_paid_run env st row cuotas c Hload Hge).
    cbn [snd sheet effects].
    rewrite sheet_updates_app, rendered_tickets_app. cbn. rewrite !app_nil_r.
    repeat split; reflexivity.
Qed.

(** Twelve of twelve installments paid. *)
Lemma fully_paid_credit_outcome_witness :
  credit_of_row 5 paid_up_row = Ok (parsed_credit 5 paid_up_row)
  /\ effects (run_workflow sample_env 5 1 (state_with paid_up_row))
     = [Reply true (CreditFullyPaid "Heladera" "H-1" "Ana" "Diaz" 12)].
Proof.
  split.
  - apply (proj1 fully_paid_credit_outcome 5 "" (tl paid_up_row));
      vm_compute; congruence.
  - assert (Hload : get_credit_data
                      (connection sample_env (state_with paid_up_row)) 5
                    = Ok (parsed_credit 5 paid_up_row))
      by (vm_compute; reflexivity).
    destruct (proj2 fully_paid_credit_outcome sample_env
                (state_with paid_up_row) 5 1 (parsed_credit 5 paid_up_row) Hload)
      as (He & _); [vm_compute; discriminate|].
    exact He.
Defined.

(** ** C4: the amounts and the label of an accepted payment *)

(** C4, as the code has it.  For every accepted payment
    (0 < cuotas <= remaining) whose counts [paid + cuotas] and [cuotas]
    convert to a float, the workflow renders and sends a ticket with
    paid-to-date amount = per-installment amount * (paid + cuotas),
    amount due now = per-installment amount * cuotas, and the label
    "<start> to <end> of <total>" with start = paid + 1 and
    end = paid + cuotas, which collapses to "<start> of <total>" when
    cuotas = 1.  For total 12, paid 3, amount 1500.00 and cuotas 2 this
    is 7500.00, 3000.00 and "4 to 5 of 12". *)
Theorem accepted_payment_amounts :
  (forall (env : Env) (st : State) (row cuotas : Z) (c : credit) (fp fd : float),
      get_credit_data (connection env st) row = Ok c ->
      0 < cuotas <= total_cuotas c - cuotas_abonadas_antes c ->
      Py.float_of_int (cuotas_abonadas_antes c + cuotas) = Ok fp ->
      Py.float_of_int cuotas = Ok fd ->
      exists t : ticket,
        rendered_tickets (effects (run_workflow env row cuotas st))
        = (rendered_tickets (effects st) ++ [t])%list
        /\ Py.mul_float_int (importe_cuota c) (cuotas_abonadas_antes c + cuotas)
           = Ok (saldo_pagado_total_actualizado t)
        /\ saldo_pagado_total_actualizado t = PrimFloat.mul (importe_cuota c) fp
        /\ Py.mul_float_int (importe_cuota c) cuotas
           = Ok (total_monto_pago_actual t)
        /\ total_monto_pago_actual t = PrimFloat.mul (importe_cuota c) fd
        /\ rango_cuotas_pagadas_str t
           = (if cuotas =? 1
              then Py.str (cuotas_abonadas_antes c + 1) ++ " of "
                   ++ Py.str (total_cuotas c)
              else Py.str (cuotas_abonadas_antes c + 1) ++ " to "
                   ++ Py.str (cuotas_abonadas_antes c + cuotas) ++ " of "
                   ++ Py.str (total_cuotas c)))
  /\ (forall (env : Env) (st : State) (row : Z) (c : credit),
        get_credit_data (connection env st) row = Ok c ->
        total_cuotas c = 12 ->
        cuotas_abonadas_antes c = 3 ->
        importe_cuota c = 1500%float ->
        exists t : ticket,
          rendered_tickets (effects (run_workflow env row 2 st))
          = (rendered_tickets (effects st) ++ [t])%list
          /\ saldo_pagado_total_actualizado t = 7500%float
          /\ total_monto_pago_actual t = 3000%float
          /\ rango_cuotas_pagadas_str t = "4 to 5 of 12").
Proof.
  assert (General :
    forall (env : Env) (st : State) (row cuotas : Z) (c : credit) (fp fd : float),
      get_credit_data (connection env st) row = Ok c ->
      0 < cuotas <= total_cuotas c - cuotas_abonadas_antes c ->
      Py.float_of_int (cuotas_abonadas_antes c + cuotas) = Ok fp ->
      Py.float_of_int cuotas = Ok fd ->
      rendered_tickets (effects (run_workflow env row cuotas st))
      = (rendered_tickets (effects st)
         ++ [accepted_ticket env (sheet st) c cuotas fp fd])%list).
  { intros env st row cuotas c fp fd Hload Hacc Hfp Hfd. unfold run_workflow.
    rewrite (accepted_run env st row cuotas c fp fd Hload Hacc Hfp Hfd).
    cbn [snd effects]. rewrite rendered_tickets_app. reflexivity. }
  split.
  - intros env st row cuotas c fp fd Hload Hacc Hfp Hfd.
    exists (accepted_ticket env (sheet st) c cuotas fp fd).
    split; [apply General; assumption|].
    cbn [accepted_ticket ticket_data saldo_pagado_total_actualizado
         total_monto_pago_actual rango_cuotas_pagadas_str].
    unfold Py.mul_float_int. rewrite Hfp, Hfd.
    repeat split; reflexivity.
  - intros env st row c Hload Htotal Hpaid Himporte.
    exists (accepted_ticket env (sheet st) c 2 5%float 2%float).
    split.
    + apply General; [exact Hload | lia | rewrite Hpaid; reflexivity | reflexivity].
    + cbn [accepted_ticket ticket_data saldo_pagado_total_actualizado
           total_monto_pago_actual rango_cuotas_pagadas_str].
      rewrite Himporte, Htotal, Hpaid. repeat split; reflexivity.
Qed.

(** The example of the specification, run on the sample sheet. *)
Lemma accepted_payment_amounts_witness :
  exists t : ticket,
    rendered_tickets (effects (run_workflow sample_env 5 2 sample_state)) = [t]
    /\ saldo_pagado_total_actualizado t = 7500%float
    /\ total_monto_pago_actual t = 3000%float
    /\ rango_cuotas_pagadas_str t = "4 to 5 of 12".
Proof.
  assert (Hload : get_credit_data (connection sample_env sample_state) 5
                  = Ok sample_credit) by (vm_compute; reflexivity).
  destruct (proj2 accepted_payment_amounts sample_env sample_state 5
              sample_credit Hload)
    as (t & Ht & Hs & Hd & Hl); [reflexivity | reflexivity | reflexivity |].
  exists t. repeat split; assumption.
Defined.

(** C4 fails as stated: with total 10^400 and 10^400 - 1 paid, a payment
    of 1 is accepted, but [importe_cuota * (paid + 1)] raises
    [OverflowError]; the workflow renders nothing and answers with the
    "unexpected critical error" message. *)
Lemma accepted_payment_overflow :
  get_credit_data (connection sample_env (state_with huge_row)) 5
  = Ok (parsed_credit 5 huge_row)
  /\ 0 < 1
  /\ 1 <= total_cuotas (parsed_credit 5 huge_row)
          - cuotas_abonadas_antes (parsed_credit 5 huge_row)
  /\ Py.mul_float_int (importe_cuota (parsed_credit 5 huge_row))
       (cuotas_abonadas_antes (parsed_credit 5 huge_row) + 1)
     = Raise OverflowError
  /\ effects (run_workflow sample_env 5 1 (state_with huge_row))
     = [Reply true UnexpectedCriticalError].
Proof.
  split; [vm_compute; reflexivity|].
  split; [reflexivity|].
  split; [vm_compute; discriminate|].
  split; vm_compute; reflexivity.
Qed.

(** ** C5: the master table is never written *)

Lemma log_payment_frame (env : Env) (c : credit) (n : Z) (st : State)
                         (rr cc : Z) :
  col_to_index COL_LOG_CANT_CUOTAS_PAGADAS < cc ->
  cell (sheet (snd (log_payment_and_update_credit env c n st))) rr cc
  = cell (sheet st) rr cc.
Proof.
  intros Hcc. run_M. unfold connection.
  destruct (connected env); [|reflexivity].
  destruct (n <=? 0); [reflexivity|].
  cbv beta iota delta [find_first_empty_log_row find_first_empty_log_row_on Gspread.call rbind]. run_M. cbn [snd sheet].
  apply log_write_frame; [reflexivity | exact Hcc].
Qed.

(** C5. Every run of the payment workflow, whatever its outcome, either
    writes nothing (the sheet is the same and no [sheet.update] is among
    its effects) or makes exactly one [sheet.update], of one row of nine
    cells on the range A<r>:I<r> at the next log row.  Every cell right of
    column I keeps its text, so the master columns M to X, and with them
    the installments-paid counter in X, are never written; the same holds
    of [log_payment_and_update_credit] on its own.  The other operations
    ([find_client_credits], [get_credit_data], [find_first_empty_log_row])
    only read: they are functions of the sheet. *)
Theorem master_table_never_written :
  forall (env : Env) (row cuotas : Z) (st : State),
    (no_write st (run_workflow env row cuotas st)
     \/ one_log_write env cuotas st (run_workflow env row cuotas st))
    /\ (forall (c : credit) (r : Z),
          List.length (log_entry_data env c cuotas) = 9%nat
          /\ left_col (log_range_to_update r) = "A"
          /\ right_col (log_range_to_update r) = "I"
          /\ top_row (log_range_to_update r) = r
          /\ bottom_row (log_range_to_update r) = r)
    /\ (forall rr cc : Z,
          col_to_index COL_LOG_CANT_CUOTAS_PAGADAS < cc ->
          cell (sheet (run_workflow env row cuotas st)) rr cc
          = cell (sheet st) rr cc)
    /\ col_to_index COL_LOG_CANT_CUOTAS_PAGADAS < col_to_index COL_MASTER_NOMBRE
    /\ col_to_index COL_MASTER_NOMBRE < col_to_index COL_MASTER_CUOTAS_ABONADAS
    /\ (forall rr : Z,
          cell (sheet (run_workflow env row cuotas st)) rr
               (col_to_index COL_MASTER_CUOTAS_ABONADAS)
          = cell (sheet st) rr (col_to_index COL_MASTER_CUOTAS_ABONADAS))
    /\ (forall (c : credit) (rr cc : Z),
          col_to_index COL_LOG_CANT_CUOTAS_PAGADAS < cc ->
          cell (sheet (snd (log_payment_and_update_credit env c cuotas st))) rr cc
          = cell (sheet st) rr cc).
Proof.
  intros env row cuotas st.
  assert (Frame :
    forall rr cc : Z,
      col_to_index COL_LOG_CANT_CUOTAS_PAGADAS < cc ->
      cell (sheet (run_workflow env row cuotas st)) rr cc = cell (sheet st) rr cc).
  { intros rr cc Hcc.
    destruct (workflow_cases env row cuotas st) as [[Hs _]|(c & new & Hs & _)];
      rewrite Hs; [reflexivity|].
    apply log_write_frame; [reflexivity | exact Hcc]. }
  split; [apply workflow_cases|].
  split; [intros c r; repeat split; reflexivity|].
  split; [exact Frame|].
  split; [reflexivity|].
  split; [reflexivity|].
  split; [intros rr; apply Frame; reflexivity|].
  intros c rr cc Hcc. apply log_payment_frame, Hcc.
Qed.

(** ** C7: the next log row and the Remito number *)

(** *** The next log row, read on the sheet *)

Lemma blank_A_to_D_iff (sh : Sheet) (r : Z) :
  blank_A_to_D sh r = true
  <-> (forall c : Z, 0 <= c <= 3 -> Py.strip (cell sh r c) = "").
Proof.
  unfold blank_A_to_D. rewrite row_is_empty_iff. split.
  - intros H c Hc. apply H.
    assert (Hcases : c = 0 \/ c = 1 \/ c = 2 \/ c = 3) by lia.
    destruct Hcases as [E|[E|[E|E]]]; subst c; cbn; auto.
  - intros H x Hx. cbn in Hx.
    destruct Hx as [E|[E|[E|[E|E]]]]; try contradiction; subst x; apply H; lia.
Qed.

Lemma drop_leading_blank_in (l : list string) (x : string) :
  (In x (Gspread.drop_leading_blank l) -> In x l)
  /\ (In x l -> x = "" \/ In x (Gspread.drop_leading_blank l)).
Proof.
  induction l as [|v l [IH1 IH2]]; [cbn; tauto|].
  cbn [Gspread.drop_leading_blank]. unfold Gspread.is_blank.
  destruct (String.eqb_spec v "") as [->|Hv].
  - split; [intros H; right; auto|].
    intros [<-|H]; [left; reflexivity | auto].
  - split; [auto | intros H; right; exact H].
Qed.

Lemma row_is_empty_trim_row (l : list string) :
  row_is_empty (Gspread.trim_row l) = row_is_empty l.
Proof.
  apply eq_true_iff_eq. rewrite !row_is_empty_iff. unfold Gspread.trim_row.
  split; intros H x Hx.
  - apply in_rev in Hx.
    destruct (proj2 (drop_leading_blank_in (rev l) x) Hx) as [->|Hin];
      [apply strip_empty|].
    apply H. apply in_rev in Hin. exact Hin.
  - apply H. apply in_rev in Hx.
    apply (proj1 (drop_leading_blank_in (rev l) x)) in Hx.
    apply in_rev. exact Hx.
Qed.

Lemma row_cells_A_to_D_empty (sh : Sheet) (r : Z) :
  row_is_empty (Gspread.row_cells sh r 0 3) = blank_A_to_D sh r.
Proof. unfold Gspread.row_cells. apply row_is_empty_trim_row. Qed.

Lemma drop_leading_empty_skipn (l : list (list string)) :
  exists m : nat,
    (m <= List.length l)%nat
    /\ Gspread.drop_leading_empty l = skipn m l
    /\ (forall j : nat, (j < m)%nat -> nth j l [] = []).
Proof.
  induction l as [|row l (m & Hm & E & Hb)].
  - exists 0%nat. split; [cbn; lia|]. split; [reflexivity|].
    intros j Hj. lia.
  - destruct row as [|v row].
    + exists (S m). cbn [Gspread.drop_leading_empty List.length skipn].
      split; [lia|]. split; [exact E|].
      intros [|j] Hj; [reflexivity|]. cbn [nth]. apply Hb. lia.
    + exists 0%nat. cbn [List.length skipn].
      split; [lia|]. split; [reflexivity|]. intros j Hj. lia.
Qed.

(** The trimmed rows are a prefix of the rows, and every row cut off is
    empty. *)
Lemma trim_rows_prefix (l : list (list string)) :
  exists n : nat,
    (n <= List.length l)%nat
    /\ Gspread.trim_rows l = firstn n l
    /\ (forall j : nat, (n <= j < List.length l)%nat -> nth j l [] = []).
Proof.
  unfold Gspread.trim_rows.
  destruct (drop_leading_empty_skipn (rev l)) as (m & Hm & E & Hb).
  rewrite length_rev in Hm. exists (List.length l - m)%nat.
  split; [lia|]. split.
  - rewrite E, skipn_rev, rev_involutive. reflexivity.
  - intros j Hj. specialize (Hb (List.length l - S j)%nat ltac:(lia)).
    rewrite rev_nth in Hb by lia.
    replace (List.length l - S (List.length l - S j))%nat with j in Hb by lia.
    exact Hb.
Qed.

Lemma log_rows_length (sh : Sheet) : List.length (log_rows sh) = Z.to_nat 999.
Proof.
  unfold log_rows, Gspread.zrange. rewrite !length_map, length_seq. reflexivity.
Qed.

Lemma log_rows_nth (sh : Sheet) (j : nat) :
  (j < Z.to_nat 999)%nat ->
  nth j (log_rows sh) [] = Gspread.row_cells sh (2 + Z.of_nat j) 0 3.
Proof.
  intros Hj. unfold log_rows, Gspread.zrange.
  rewrite (nth_indep _ [] (Gspread.row_cells sh (2 + Z.of_nat 0) 0 3))
    by (rewrite !length_map, length_seq; exact Hj).
  rewrite (map_nth (fun r => Gspread.row_cells sh r 0 3)).
  f_equal.
  rewrite (map_nth (fun k => 2 + Z.of_nat k)).
  rewrite seq_nth by exact Hj. reflexivity.
Qed.

Lemma get_values_log_rows (sh : Sheet) :
  Gspread.get_values col_to_index sh log_range_to_check
  = Gspread.fill_gaps (Gspread.trim_rows (log_rows sh)).
Proof. reflexivity. Qed.

(** The padding of [get_values] adds blank cells only. *)
Lemma row_is_empty_rightpad (row : list string) (n : nat) :
  row_is_empty (Gspread.rightpad row n) = row_is_empty row.
Proof.
  unfold Gspread.rightpad, row_is_empty. rewrite forallb_app.
  replace (forallb (fun cell => String.eqb (Py.strip cell) "")
             (repeat "" (n - List.length row))) with true.
  - apply andb_true_r.
  - symmetry. apply forallb_forall. intros cell Hc.
    apply repeat_spec in Hc. subst cell. reflexivity.
Qed.

Lemma cell_at_rightpad (row : list string) (n j : nat) :
  cell_at (Gspread.rightpad row n) j = cell_at row j.
Proof.
  unfold cell_at, Gspread.rightpad.
  destruct (Nat.lt_ge_cases j (List.length row)) as [Hj|Hj].
  - apply app_nth1. exact Hj.
  - rewrite app_nth2 by exact Hj. rewrite (nth_overflow row) by exact Hj.
    destruct (Nat.lt_ge_cases (j - List.length row) (n - List.length row))
      as [Hk|Hk].
    + apply nth_repeat_lt. exact Hk.
    + apply nth_overflow. rewrite repeat_length. exact Hk.
Qed.

Lemma fill_gaps_length (l : list (list string)) :
  List.length (Gspread.fill_gaps l) = List.length l.
Proof. unfold Gspread.fill_gaps. apply length_map. Qed.

Lemma first_empty_from_rightpad (n : nat) (l : list (list string)) :
  forall i : Z,
    first_empty_from i (map (fun row => Gspread.rightpad row n) l)
    = first_empty_from i l.
Proof.
  induction l as [|row l IH]; intros i; [reflexivity|].
  cbn [map first_empty_from]. rewrite row_is_empty_rightpad, IH. reflexivity.
Qed.

Lemma first_empty_log_row_scan_fill_gaps (l : list (list string)) :
  first_empty_log_row_scan (Gspread.fill_gaps l) = first_empty_log_row_scan l.
Proof.
  unfold first_empty_log_row_scan, Py.len.
  rewrite fill_gaps_length. unfold Gspread.fill_gaps.
  rewrite first_empty_from_rightpad. reflexivity.
Qed.

Lemma fill_gaps_nth_error (l : list (list string)) (k : nat) (row : list string) :
  nth_error (Gspread.fill_gaps l) k = Some row ->
  exists row0 : list string,
    nth_error l k = Some row0
    /\ forall j : nat, cell_at row j = cell_at row0 j.
Proof.
  unfold Gspread.fill_gaps. rewrite nth_error_map.
  destruct (nth_error l k) as [row0|]; [|discriminate].
  cbn [option_map]. intros H. injection H as <-.
  exists row0. split; [reflexivity|]. intros j. apply cell_at_rightpad.
Qed.

(** On the sheet: every row from 2 up to the next log row has something in
    A to D, and the next log row, when it lies in the window, is blank
    there. *)
Lemma next_log_row_on_sheet (sh : Sheet) :
  (forall r' : Z, 2 <= r' < next_log_row sh -> blank_A_to_D sh r' = false)
  /\ (next_log_row sh <= 1000 -> blank_A_to_D sh (next_log_row sh) = true).
Proof.
  unfold next_log_row.
  rewrite get_values_log_rows, first_empty_log_row_scan_fill_gaps.
  destruct (trim_rows_prefix (log_rows sh)) as (n & Hn & -> & Hcut).
  rewrite log_rows_length in Hn, Hcut.
  assert (Hlen : List.length (firstn n (log_rows sh)) = n)
    by (rewrite length_firstn, log_rows_length; lia).
  assert (Hnth : forall (j : nat) (row : list string),
             nth_error (firstn n (log_rows sh)) j = Some row ->
             (j < n)%nat /\ row = Gspread.row_cells sh (2 + Z.of_nat j) 0 3).
  { intros j row H.
    assert (Hj : (j < n)%nat)
      by (rewrite <- Hlen; apply nth_error_Some; rewrite H; discriminate).
    split; [exact Hj|].
    rewrite nth_error_firstn in H.
    replace (j <? n)%nat with true in H by (symmetry; apply Nat.ltb_lt; exact Hj).
    rewrite (nth_error_nth' (log_rows sh) [])
      in H by (rewrite log_rows_length; lia).
    injection H as <-. apply log_rows_nth. lia. }
  assert (Hbefore : forall (k : nat),
             (k <= n)%nat ->
             (forall (j : nat) (row' : list string),
                 (j < k)%nat -> nth_error (firstn n (log_rows sh)) j = Some row' ->
                 row_is_empty row' = false) ->
             forall r' : Z, 2 <= r' < Z.of_nat k + 2 -> blank_A_to_D sh r' = false).
  { intros k Hk Hrows r' Hr'.
    assert (Hj : (Z.to_nat (r' - 2) < List.length (firstn n (log_rows sh)))%nat)
      by (rewrite Hlen; lia).
    pose proof (nth_error_nth' _ [] Hj) as Hrow.
    destruct (Hnth _ _ Hrow) as [_ Erow].
    pose proof (Hrows (Z.to_nat (r' - 2)) _ ltac:(lia) Hrow) as He.
    rewrite Erow, row_cells_A_to_D_empty in He.
    replace (2 + Z.of_nat (Z.to_nat (r' - 2))) with r' in He by lia. exact He. }
  unfold first_empty_log_row_scan.
  pose proof (first_empty_from_spec (firstn n (log_rows sh)) 0) as H.
  destruct (first_empty_from 0 (firstn n (log_rows sh))) as [r|].
  - destruct H as (k & row & Hk & He & Hb & ->).
    destruct (Hnth _ _ Hk) as [Hkn ->].
    rewrite row_cells_A_to_D_empty in He. split.
    + intros r' Hr'. apply (Hbefore k); [lia | exact Hb | lia].
    + intros _. replace (0 + Z.of_nat k + 2) with (2 + Z.of_nat k) by lia.
      exact He.
  - unfold Py.len. rewrite Hlen. split.
    + intros r' Hr'. apply (Hbefore n); [lia | | lia].
      intros j row' _ Hrow. apply H. apply (nth_error_In _ _ Hrow).
    + intros Hwin.
      specialize (Hcut n ltac:(lia)).
      rewrite log_rows_nth in Hcut by lia.
      rewrite <- row_cells_A_to_D_empty.
      replace (Z.of_nat n + 2) with (2 + Z.of_nat n) by lia.
      rewrite Hcut. reflexivity.
Qed.

Lemma three_digits_below_1000 :
  forallb three_digits (Gspread.zrange 0 (Z.to_nat 1000)) = true.
Proof. vm_compute. reflexivity. Qed.

Lemma four_digits_of_log_rows :
  forallb four_digits (Gspread.zrange 2 (Z.to_nat 1000)) = true.
Proof. vm_compute. reflexivity. Qed.

Lemma drop_leading_empty_length (l : list (list string)) :
  (List.length (Gspread.drop_leading_empty l) <= List.length l)%nat.
Proof.
  induction l as [|row l IH]; [reflexivity|].
  destruct row; cbn [Gspread.drop_leading_empty List.length]; lia.
Qed.

Lemma get_values_length (sh : Sheet) (rg : a1_range) :
  Py.len (Gspread.get_values col_to_index sh rg)
  <= Z.max 0 (bottom_row rg - top_row rg + 1).
Proof.
  unfold Py.len, Gspread.get_values. rewrite fill_gaps_length.
  unfold Gspread.get, Gspread.trim_rows, Gspread.zrange.
  rewrite length_rev.
  pose proof (drop_leading_empty_length
                (rev (map (fun r => Gspread.row_cells sh r
                                      (col_to_index (left_col rg))
                                      (col_to_index (right_col rg)))
                        (map (fun k => top_row rg + Z.of_nat k)
                           (seq 0 (Z.to_nat (bottom_row rg - top_row rg + 1)))))))
    as H.
  rewrite length_rev, !length_map, length_seq in H. lia.
Qed.

Lemma first_empty_log_row_scan_le (preview : list (list string)) :
  first_empty_log_row_scan preview <= Py.len preview + 2.
Proof.
  unfold first_empty_log_row_scan.
  pose proof (first_empty_from_spec preview 0) as H.
  destruct (first_empty_from 0 preview) as [r|]; [|lia].
  destruct H as (k & row & Hk & _ & _ & ->).
  assert (k < List.length preview)%nat
    by (apply nth_error_Some; rewrite Hk; discriminate).
  unfold Py.len. lia.
Qed.

Lemma next_log_row_bounds (sh : Sheet) : 2 <= next_log_row sh <= 1001.
Proof.
  split; [apply next_log_row_ge_2|].
  unfold next_log_row.
  pose proof (first_empty_log_row_scan_le
                (Gspread.get_values col_to_index sh log_range_to_check)) as H1.
  pose proof (get_values_length sh log_range_to_check) as H2.
  cbn [log_range_to_check bottom_row top_row] in H2. lia.
Qed.

Lemma identifier_three_digits (n : Z) :
  0 <= n <= 999 -> String.length (Py.format_0d 3 n) = 3%nat.
Proof.
  intros Hn.
  assert (Hin : In n (Gspread.zrange 0 (Z.to_nat 1000)))
    by (apply in_zrange; rewrite Z2Nat.id; lia).
  pose proof (proj1 (forallb_forall _ _) three_digits_below_1000 n Hin) as H.
  unfold three_digits in H. apply Nat.eqb_eq in H. exact H.
Qed.

Lemma log_row_four_digits (r : Z) :
  2 <= r <= 1001 -> String.length (Py.format_0d 4 r) = 4%nat.
Proof.
  intros Hr.
  assert (Hin : In r (Gspread.zrange 2 (Z.to_nat 1000)))
    by (apply in_zrange; rewrite Z2Nat.id; lia).
  pose proof (proj1 (forallb_forall _ _) four_digits_of_log_rows r Hin) as H.
  unfold four_digits in H. apply Nat.eqb_eq in H. exact H.
Qed.

Lemma find_first_empty_log_row_connected (sh : Sheet) :
  find_first_empty_log_row (Some sh) = Ok (next_log_row sh).
Proof. unfold next_log_row. reflexivity. Qed.

(** C7. The scan of the fetched log rows returns the sheet row (the scan
    starts at row 2) of the first fetched row whose cells are all blank
    after stripping, or one past the last fetched row when there is none.
    On the sheet, every row from 2 up to the next log row has something in
    A to D, and the next log row is blank there unless the window of rows
    2 to 1000 is full, when it is 1001.
    In a completed payment that one row is the row of the range written,
    A<row>:I<row>, so that afterwards the cells A to I of that row hold
    the entry and every other row is as it was, and it is the row in the
    Remito number, which is the item identifier as an integer padded to
    three digits, a slash, and the row padded to four digits (identifiers
    up to 999 give three digits, and the next log row, which lies between
    2 and 1001, gives four); when the identifier is no integer the Remito
    number is the marker "Error/Format" and the payment is completed all
    the same. *)
Theorem next_log_row_and_receipt_number :
  (forall preview : list (list string),
      (exists (k : nat) (row : list string),
          nth_error preview k = Some row
          /\ row_is_empty row = true
          /\ (forall (j : nat) (row' : list string),
                (j < k)%nat -> nth_error preview j = Some row' ->
                row_is_empty row' = false)
          /\ first_empty_log_row_scan preview = Z.of_nat k + 2)
      \/ ((forall row, In row preview -> row_is_empty row = false)
          /\ first_empty_log_row_scan preview = Py.len preview + 2))
  /\ (forall row : list string,
        row_is_empty row = true
        <-> (forall cell, In cell row -> Py.strip cell = ""))
  /\ (forall sh : Sheet, find_first_empty_log_row (Some sh) = Ok (next_log_row sh))
  /\ (forall sh : Sheet,
        (forall r' : Z, 2 <= r' < next_log_row sh -> blank_A_to_D sh r' = false)
        /\ (next_log_row sh <= 1000 -> blank_A_to_D sh (next_log_row sh) = true))
  /\ (forall (sh : Sheet) (r : Z),
        blank_A_to_D sh r = true
        <-> (forall c : Z, 0 <= c <= 3 -> Py.strip (cell sh r c) = ""))
  /\ (forall (env : Env) (st : State) (row cuotas : Z) (c : credit)
             (fp fd : float),
        get_credit_data (connection env st) row = Ok c ->
        0 < cuotas <= total_cuotas c - cuotas_abonadas_antes c ->
        Py.float_of_int (cuotas_abonadas_antes c + cuotas) = Ok fp ->
        Py.float_of_int cuotas = Ok fd ->
        exists t : ticket,
          effects (run_workflow env row cuotas st)
          = (effects st
             ++ [RenderTicket t; SendPhoto t;
                 SheetUpdate (log_range_to_update (next_log_row (sheet st)))
                   [log_entry_data env c cuotas];
                 Reply (has_callback_query env)
                   (PaymentRegistered cuotas (articulo c))])%list
          /\ sheet (run_workflow env row cuotas st)
             = Gspread.update col_to_index (sheet st)
                 (log_range_to_update (next_log_row (sheet st)))
                 [log_entry_data env c cuotas]
          /\ remito_number_str t
             = match Py.parse_int (id_articulo c) with
               | Some n =>
                   Py.format_0d 3 n ++ "/"
                   ++ Py.format_0d 4 (next_log_row (sheet st))
               | None => "Error/Format"
               end
          /\ log_range_to_update (next_log_row (sheet st))
             = {| left_col := "A"; top_row := next_log_row (sheet st);
                  right_col := "I"; bottom_row := next_log_row (sheet st) |}
          /\ (forall j : nat,
                (j < 9)%nat ->
                cell (sheet (run_workflow env row cuotas st))
                     (next_log_row (sheet st)) (Z.of_nat j)
                = nth j (log_entry_data env c cuotas) "")
          /\ (forall rr cc : Z,
                rr <> next_log_row (sheet st) ->
                cell (sheet (run_workflow env row cuotas st)) rr cc
                = cell (sheet st) rr cc))
  /\ (forall n : Z, 0 <= n <= 999 -> String.length (Py.format_0d 3 n) = 3%nat)
  /\ (forall sh : Sheet,
        2 <= next_log_row sh <= 1001
        /\ String.length (Py.format_0d 4 (next_log_row sh)) = 4%nat).
Proof.
  split.
  { intros preview. unfold first_empty_log_row_scan.
    pose proof (first_empty_from_spec preview 0) as H.
    destruct (first_empty_from 0 preview) as [r|].
    - left. destruct H as (k & row & Hk & He & Hb & ->).
      exists k, row.
      split; [exact Hk | split; [exact He | split; [exact Hb | lia]]].
    - right. split; [exact H | reflexivity]. }
  split; [exact row_is_empty_iff|].
  split; [exact find_first_empty_log_row_connected|].
  split; [exact next_log_row_on_sheet|].
  split; [exact blank_A_to_D_iff|].
  split.
  { intros env st row cuotas c fp fd Hload Hacc Hfp Hfd.
    exists (accepted_ticket env (sheet st) c cuotas fp fd). unfold run_workflow.
    rewrite (accepted_run env st row cuotas c fp fd Hload Hacc Hfp Hfd).
    cbn [snd sheet effects].
    split; [reflexivity|]. split; [reflexivity|].
    split.
    { cbn [accepted_ticket ticket_data remito_number_str].
      apply (remito_of_loaded _ _ _ _ Hload). }
    split; [reflexivity|]. split.
    - intros j Hj. apply log_write_read_back. exact Hj.
    - intros rr cc Hrr. apply log_write_other. left. exact Hrr. }
  split.
  - exact identifier_three_digits.
  - intros sh. split; [apply next_log_row_bounds|].
    apply log_row_four_digits, next_log_row_bounds.
Qed.

(** Two completed payments on a sheet whose next log row is 3: with the
    identifier 7, and with an identifier that is no integer. *)
Lemma next_log_row_and_receipt_number_witness :
  next_log_row (sheet sample_state) = 3
  /\ (exists t : ticket,
        effects (run_workflow sample_env 5 2 sample_state)
        = [RenderTicket t; SendPhoto t;
           SheetUpdate
             {| left_col := "A"; top_row := 3;
                right_col := "I"; bottom_row := 3 |}
             [["02/01/2025"; "Ana"; "Diaz"; "Heladera"; "7"; "Casa"; "Calle 1";
               "1500,00"; "2"]];
           Reply true (PaymentRegistered 2 "Heladera")]
        /\ remito_number_str t = "007/0003"
        /\ cell (sheet (run_workflow sample_env 5 2 sample_state)) 3 1 = "Ana"
        /\ cell (sheet (run_workflow sample_env 5 2 sample_state)) 3 8 = "2")
  /\ (exists t : ticket,
        effects (run_workflow sample_env 5 2 (state_with lettered_id_row))
        = [RenderTicket t; SendPhoto t;
           SheetUpdate
             {| left_col := "A"; top_row := 3;
                right_col := "I"; bottom_row := 3 |}
             [["02/01/2025"; "Ana"; "Diaz"; "Heladera"; "A-7"; "Casa";
               "Calle 1"; "1500,00"; "2"]];
           Reply true (PaymentRegistered 2 "Heladera")]
        /\ remito_number_str t = "Error/Format").
Proof.
  assert (Hrow : next_log_row (sheet sample_state) = 3)
    by (vm_compute; reflexivity).
  split; [exact Hrow|]. split.
  - assert (Hload : get_credit_data (connection sample_env sample_state) 5
                    = Ok sample_credit) by (vm_compute; reflexivity).
    destruct (proj1 (proj2 (proj2 (proj2 (proj2 (proj2 next_log_row_and_receipt_number)))))
                sample_env sample_state 5 2 sample_credit 5%float 2%float Hload)
      as (t & He & _ & Hr & _ & Hcells & _);
      [vm_compute; split; [reflexivity | discriminate]
      | vm_compute; reflexivity | vm_compute; reflexivity |].
    exists t. split; [|split; [|split]].
    + rewrite He. vm_compute. reflexivity.
    + rewrite Hr. vm_compute. reflexivity.
    + pose proof (Hcells 1%nat ltac:(lia)) as H1. rewrite Hrow in H1.
      change (Z.of_nat 1) with 1 in H1. rewrite H1. vm_compute. reflexivity.
    + pose proof (Hcells 8%nat ltac:(lia)) as H8. rewrite Hrow in H8.
      change (Z.of_nat 8) with 8 in H8. rewrite H8. vm_compute. reflexivity.
  - assert (Hload : get_credit_data
                      (connection sample_env (state_with lettered_id_row)) 5
                    = Ok (parsed_credit 5 lettered_id_row))
      by (vm_compute; reflexivity).
    destruct (proj1 (proj2 (proj2 (proj2 (proj2 (proj2 next_log_row_and_receipt_number)))))
                sample_env (state_with lettered_id_row) 5 2
                (parsed_credit 5 lettered_id_row) 5%float 2%float Hload)
      as (t & He & _ & Hr & _);
      [vm_compute; split; [reflexivity | discriminate]
      | vm_compute; reflexivity | vm_compute; reflexivity |].
    exists t. split.
    + rewrite He. vm_compute. reflexivity.
    + rewrite Hr. vm_compute. reflexivity.
Defined.

(** * Further properties *)

(** ** Texts and numerals *)

Lemma strip_as_chars (s : string) : Py.strip s = Py.text (strip_chars (Py.chars s)).
Proof. reflexivity. Qed.

Lemma lstrip_chars_head (l : list ascii) (c : ascii) (r : list ascii) :
  Py.lstrip_chars l = c :: r -> Py.is_space c = false.
Proof.
  induction l as [|x l IH]; cbn [Py.lstrip_chars]; [discriminate|].
  destruct (Py.is_space x) eqn:E; [exact IH|].
  intros H. injection H as <- _. exact E.
Qed.

Lemma lstrip_chars_suffix (l : list ascii) :
  exists p, l = (p ++ Py.lstrip_chars l)%list.
Proof.
  induction l as [|x l [p IH]]; [exists []; reflexivity|].
  cbn [Py.lstrip_chars]. destruct (Py.is_space x).
  - exists (x :: p). cbn. f_equal. exact IH.
  - exists []. reflexivity.
Qed.

Lemma lstrip_chars_fixed (l : list ascii) :
  match l with
  | [] => True
  | c :: _ => Py.is_space c = false
  end ->
  Py.lstrip_chars l = l.
Proof.
  destruct l as [|c l]; [reflexivity|]. cbn [Py.lstrip_chars].
  intros ->. reflexivity.
Qed.

Lemma lstrip_chars_idem (l : list ascii) :
  Py.lstrip_chars (Py.lstrip_chars l) = Py.lstrip_chars l.
Proof.
  apply lstrip_chars_fixed.
  destruct (Py.lstrip_chars l) as [|c r] eqn:E; [exact I|].
  apply (lstrip_chars_head l c r E).
Qed.

(** What [strip] returns has no white space at either end. *)
Lemma strip_chars_trimmed (l : list ascii) :
  Py.lstrip_chars (strip_chars l) = strip_chars l
  /\ Py.lstrip_chars (rev (strip_chars l)) = rev (strip_chars l).
Proof.
  unfold strip_chars. split.
  - apply lstrip_chars_fixed.
    destruct (lstrip_chars_suffix (rev (Py.lstrip_chars l))) as [p Hp].
    apply (f_equal (@rev ascii)) in Hp.
    rewrite rev_involutive, rev_app_distr in Hp.
    destruct (rev (Py.lstrip_chars (rev (Py.lstrip_chars l)))) as [|c r];
      [exact I|].
    cbn in Hp. apply (lstrip_chars_head l c _ Hp).
  - rewrite rev_involutive. apply lstrip_chars_idem.
Qed.

Lemma strip_chars_idem (l : list ascii) :
  strip_chars (strip_chars l) = strip_chars l.
Proof.
  destruct (strip_chars_trimmed l) as [H1 H2].
  unfold strip_chars at 1. rewrite H1, H2. apply rev_involutive.
Qed.

Lemma strip_idem (s : string) : Py.strip (Py.strip s) = Py.strip s.
Proof. rewrite !strip_as_chars, chars_text, strip_chars_idem. reflexivity. Qed.

Lemma strip_chars_no_space (l : list ascii) :
  Forall (fun c => Py.is_space c = false) l -> strip_chars l = l.
Proof.
  intros H. unfold strip_chars.
  rewrite (lstrip_chars_fixed l) by (destruct H; [exact I | assumption]).
  rewrite lstrip_chars_fixed; [apply rev_involutive|].
  apply List.Forall_rev in H. destruct H; [exact I | assumption].
Qed.

Lemma strip_no_space (s : string) : no_space s -> Py.strip s = s.
Proof.
  intros H. rewrite strip_as_chars, strip_chars_no_space by exact H.
  apply text_chars.
Qed.

Lemma lower_char_facts (c : ascii) :
  Py.lower_char (Py.lower_char c) = Py.lower_char c
  /\ Py.lower_char (Py.upper_char c) = Py.lower_char c
  /\ Py.upper_char (Py.lower_char c) = Py.upper_char c
  /\ Py.upper_char (Py.upper_char c) = Py.upper_char c.
Proof. destruct c as [[] [] [] [] [] [] [] []]; repeat split; reflexivity. Qed.

Lemma lower_idem (s : string) : Py.lower (Py.lower s) = Py.lower s.
Proof.
  unfold Py.lower. rewrite chars_text, map_map. f_equal.
  apply map_ext. intros c. apply lower_char_facts.
Qed.

Lemma lower_upper (s : string) : Py.lower (Py.upper s) = Py.lower s.
Proof.
  unfold Py.lower, Py.upper. rewrite chars_text, map_map. f_equal.
  apply map_ext. intros c. apply lower_char_facts.
Qed.

Lemma upper_lower (s : string) : Py.upper (Py.lower s) = Py.upper s.
Proof.
  unfold Py.lower, Py.upper. rewrite chars_text, map_map. f_equal.
  apply map_ext. intros c. apply lower_char_facts.
Qed.

Lemma upper_idem (s : string) : Py.upper (Py.upper s) = Py.upper s.
Proof.
  unfold Py.upper. rewrite chars_text, map_map. f_equal.
  apply map_ext. intros c. apply lower_char_facts.
Qed.

(** *** The numeral of an integer reads back *)

Lemma digitpart_numeral (d : Decimal.uint) :
  forall (acc : Z) (seen : bool),
    Py.digitpart acc seen (Py.chars (DecimalString.NilEmpty.string_of_uint d))
    = match d with
      | Decimal.Nil => if seen then Some acc else None
      | _ => Some (uint_value acc d)
      end.
Proof.
  induction d as [|d IH|d IH|d IH|d IH|d IH|d IH|d IH|d IH|d IH|d IH];
    intros acc seen; [reflexivity|..];
    cbn [DecimalString.NilEmpty.string_of_uint Py.chars list_ascii_of_string
         Py.digitpart];
    change (Py.chars ?s) with (list_ascii_of_string s) in IH;
    (let n := lazymatch goal with |- context [Py.is_digit ?c] => c end in
     change (Py.is_digit n) with true; cbv iota);
    rewrite IH; destruct d; reflexivity.
Qed.

Lemma of_uint_acc_value (d : Decimal.uint) :
  forall p : positive, Zpos (Pos.of_uint_acc d p) = uint_value (Zpos p) d.
Proof.
  induction d as [|d IH|d IH|d IH|d IH|d IH|d IH|d IH|d IH|d IH|d IH];
    intros p; [reflexivity|..];
    cbn [Pos.of_uint_acc uint_value]; rewrite IH; f_equal; lia.
Qed.

Lemma of_uint_value (d : Decimal.uint) :
  Z.of_N (Pos.of_uint d) = uint_value 0 d.
Proof.
  induction d as [|d IH|d IH|d IH|d IH|d IH|d IH|d IH|d IH|d IH|d IH];
    [reflexivity | exact IH | ..];
    cbn [Pos.of_uint uint_value Z.of_N]; rewrite of_uint_acc_value; reflexivity.
Qed.

Lemma numeral_value (p : positive) : uint_value 0 (Pos.to_uint p) = Zpos p.
Proof.
  rewrite <- of_uint_value, DecimalPos.Unsigned.of_to. reflexivity.
Qed.

Lemma numeral_chars (d : Decimal.uint) :
  Forall (fun c => Py.is_digit c = true)
         (Py.chars (DecimalString.NilEmpty.string_of_uint d)).
Proof.
  induction d; cbn [DecimalString.NilEmpty.string_of_uint Py.chars
                    list_ascii_of_string];
    constructor; solve [reflexivity | assumption].
Qed.

Lemma str_pos (p : positive) :
  Py.str (Zpos p) = DecimalString.NilEmpty.string_of_uint (Pos.to_uint p).
Proof.
  unfold Py.str. cbn [Z.to_int DecimalString.NilZero.string_of_int].
  unfold DecimalString.NilZero.string_of_uint.
  pose proof (DecimalPos.Unsigned.to_uint_nonnil p) as H.
  destruct (Pos.to_uint p); [contradiction|reflexivity..].
Qed.

Lemma str_neg (p : positive) :
  Py.str (Zneg p)
  = String "-" (DecimalString.NilEmpty.string_of_uint (Pos.to_uint p)).
Proof.
  unfold Py.str. cbn [Z.to_int DecimalString.NilZero.string_of_int].
  unfold DecimalString.NilZero.string_of_uint.
  pose proof (DecimalPos.Unsigned.to_uint_nonnil p) as H.
  destruct (Pos.to_uint p); [contradiction|reflexivity..].
Qed.

(** The characters of [str(n)] are digits, after a sign when [n < 0]. *)
Lemma str_chars (n : Z) :
  Forall (fun c => numeral_char c = true) (Py.chars (Py.str n)).
Proof.
  assert (D : forall d,
             Forall (fun c => numeral_char c = true)
                    (Py.chars (DecimalString.NilEmpty.string_of_uint d))).
  { intros d. eapply List.Forall_impl; [|apply numeral_chars].
    cbv beta. intros c Hc. unfold numeral_char. rewrite Hc. reflexivity. }
  destruct n as [|p|p].
  - repeat constructor.
  - rewrite str_pos. apply D.
  - rewrite str_neg. constructor; [reflexivity | apply D].
Qed.

Lemma numeral_char_plain (c : ascii) :
  numeral_char c = true ->
  Py.is_space c = false /\ Ascii.eqb c "_" = false /\ Ascii.eqb c "," = false
  /\ Ascii.eqb c "+" = false.
Proof.
  destruct c as [[] [] [] [] [] [] [] []]; cbv; intros H;
    first [discriminate H | repeat split].
Qed.

Lemma str_no_space (n : Z) : no_space (Py.str n).
Proof.
  eapply List.Forall_impl; [|apply str_chars].
  cbv beta. intros c Hc. apply numeral_char_plain, Hc.
Qed.

Lemma str_free_of_underscore (n : Z) : free_of "_" (Py.str n).
Proof.
  eapply List.Forall_impl; [|apply str_chars].
  cbv beta. intros c Hc. apply numeral_char_plain, Hc.
Qed.

Lemma parse_int_str (n : Z) : Py.parse_int (Py.str n) = Some n.
Proof.
  unfold Py.parse_int. rewrite (strip_no_space _ (str_no_space n)).
  destruct n as [|p|p].
  - reflexivity.
  - rewrite str_pos.
    pose proof (digitpart_numeral (Pos.to_uint p) 0 false) as H.
    pose proof (DecimalPos.Unsigned.to_uint_nonnil p) as Hnil.
    pose proof (numeral_value p) as Hv.
    destruct (Pos.to_uint p); [contradiction|..];
      cbn [DecimalString.NilEmpty.string_of_uint Py.chars list_ascii_of_string]
        in H |- *;
      rewrite H, Hv; reflexivity.
  - rewrite str_neg.
    cbn [Py.chars list_ascii_of_string].
    pose proof (digitpart_numeral (Pos.to_uint p) 0 false) as H.
    pose proof (DecimalPos.Unsigned.to_uint_nonnil p) as Hnil.
    pose proof (numeral_value p) as Hv.
    change (list_ascii_of_string ?s) with (Py.chars s).
    rewrite H. destruct (Pos.to_uint p); [contradiction|..];
      rewrite Hv; reflexivity.
Qed.

(** ** Splitting *)

Lemma chars_app (s t : string) : Py.chars (s ++ t) = (Py.chars s ++ Py.chars t)%list.
Proof.
  unfold Py.chars. induction s as [|c s IH]; [reflexivity|].
  change (String c s ++ t) with (String c (s ++ t)).
  cbn [list_ascii_of_string app]. f_equal. exact IH.
Qed.

Lemma split_max_zero (sep : ascii) (s : string) : PyStr.split_max sep s 0 = [s].
Proof. destruct s; reflexivity. Qed.

(** A part that has no separator is cut off at the separator after it. *)
Lemma split_max_cut (sep : ascii) (a rest : string) (k : nat) :
  free_of sep a ->
  PyStr.split_max sep (a ++ String sep rest) (S k)
  = a :: PyStr.split_max sep rest k.
Proof.
  unfold free_of. induction a as [|c a IH]; intros H.
  - change ("" ++ String sep rest) with (String sep rest).
    cbn [PyStr.split_max]. rewrite Ascii.eqb_refl. reflexivity.
  - cbn [Py.chars list_ascii_of_string] in H.
    apply List.Forall_cons_iff in H as [Hc Ha].
    change (String c a ++ String sep rest)
      with (String c (a ++ String sep rest)).
    cbn [PyStr.split_max]. rewrite Hc, (IH Ha). reflexivity.
Qed.

Lemma split_max_nonempty (sep : ascii) (s : string) (n : nat) :
  PyStr.split_max sep s n <> [].
Proof.
  revert n. induction s as [|c s IH]; intros [|n]; cbn [PyStr.split_max];
    try discriminate.
  destruct (Ascii.eqb c sep); [discriminate|].
  destruct (PyStr.split_max sep s (S n)); discriminate.
Qed.

Lemma join_cons (sep : ascii) (p q : string) (ps : list string) :
  join sep (p :: q :: ps) = p ++ String sep (join sep (q :: ps)).
Proof. reflexivity. Qed.

(** Joining the parts gives the text back. *)
Lemma join_split_max (sep : ascii) (s : string) :
  forall n : nat, join sep (PyStr.split_max sep s n) = s.
Proof.
  induction s as [|c s IH]; intros [|n]; cbn [PyStr.split_max];
    try reflexivity.
  destruct (Ascii.eqb_spec c sep) as [->|Hc].
  - pose proof (split_max_nonempty sep s n) as Hne.
    specialize (IH n).
    destruct (PyStr.split_max sep s n) as [|p ps]; [contradiction|].
    rewrite join_cons, IH. reflexivity.
  - specialize (IH (S n)).
    destruct (PyStr.split_max sep s (S n)) as [|p ps] eqn:E.
    + exfalso. exact (split_max_nonempty sep s (S n) E).
    + destruct ps as [|q ps].
      * cbn [join] in IH |- *. rewrite IH. reflexivity.
      * rewrite join_cons in IH |- *. rewrite <- IH. reflexivity.
Qed.

Lemma split_free (sep : ascii) (a : string) :
  free_of sep a -> PyStr.split sep a = [a].
Proof.
  unfold free_of. induction a as [|c a IH]; intros H; [reflexivity|].
  cbn [Py.chars list_ascii_of_string] in H.
  apply List.Forall_cons_iff in H as [Hc Ha].
  cbn [PyStr.split]. rewrite Hc, (IH Ha). reflexivity.
Qed.

Lemma split_cut (sep : ascii) (a rest : string) :
  free_of sep a ->
  PyStr.split sep (a ++ String sep rest) = a :: PyStr.split sep rest.
Proof.
  unfold free_of. induction a as [|c a IH]; intros H.
  - change ("" ++ String sep rest) with (String sep rest).
    cbn [PyStr.split]. rewrite Ascii.eqb_refl. reflexivity.
  - cbn [Py.chars list_ascii_of_string] in H.
    apply List.Forall_cons_iff in H as [Hc Ha].
    change (String c a ++ String sep rest)
      with (String c (a ++ String sep rest)).
    cbn [PyStr.split]. rewrite Hc, (IH Ha). reflexivity.
Qed.

Lemma split_join (sep : ascii) (parts : list string) :
  Forall (free_of sep) parts -> parts <> [] ->
  PyStr.split sep (join sep parts) = parts.
Proof.
  induction parts as [|p parts IH]; intros H Hne; [contradiction|].
  apply List.Forall_cons_iff in H as [Hp Hparts].
  destruct parts as [|q parts].
  - cbn [join]. apply split_free, Hp.
  - rewrite join_cons, split_cut by exact Hp.
    rewrite IH by (auto; discriminate). reflexivity.
Qed.

(** ** The selection carried by a button *)

Lemma selection_data_parts (row_index num_cuotas : Z) (codigo : string) :
  PyStr.split_max "_" (selection_data row_index num_cuotas codigo) 3
  = ["select"; Py.str row_index; Py.str num_cuotas; codigo].
Proof.
  unfold selection_data.
  change ("select_" ++ Py.str row_index ++ "_" ++ Py.str num_cuotas ++ "_" ++ codigo)
    with ("select" ++ String "_" (Py.str row_index
            ++ String "_" (Py.str num_cuotas ++ String "_" codigo))).
  rewrite split_max_cut
    by (repeat constructor).
  rewrite split_max_cut by apply str_free_of_underscore.
  rewrite split_max_cut by apply str_free_of_underscore.
  rewrite split_max_zero. reflexivity.
Qed.

Lemma parse_selection_selection_data (row_index num_cuotas : Z) (codigo : string) :
  parse_selection (selection_data row_index num_cuotas codigo)
  = if (1 <? row_index) && (0 <? num_cuotas)
    then Ok (row_index, num_cuotas, codigo)
    else Raise (ValueError
                  "Invalid row index or number of installments from callback.").
Proof.
  unfold parse_selection. rewrite selection_data_parts, !parse_int_str.
  cbn [String.eqb Ascii.eqb Bool.eqb negb].
  destruct ((1 <? row_index) && (0 <? num_cuotas)); reflexivity.
Qed.

Lemma parse_selection_ok (d : string) (r k : Z) (code : string) :
  parse_selection d = Ok (r, k, code) ->
  1 < r /\ 0 < k
  /\ exists rs ks : string,
       d = "select_" ++ rs ++ "_" ++ ks ++ "_" ++ code
       /\ Py.parse_int rs = Some r /\ Py.parse_int ks = Some k.
Proof.
  unfold parse_selection. intros H.
  pose proof (join_split_max "_" d 3) as J.
  destruct (PyStr.split_max "_" d 3) as [|a [|rs [|ks [|c [|x l]]]]];
    try discriminate H.
  destruct (String.eqb_spec a "select") as [->|]; [|discriminate H].
  cbn [negb] in H.
  destruct (Py.parse_int rs) as [r'|] eqn:Er; [|discriminate H].
  destruct (Py.parse_int ks) as [k'|] eqn:Ek; [|discriminate H].
  destruct ((1 <? r') && (0 <? k')) eqn:G; [|discriminate H].
  cbn [negb] in H. injection H as -> -> ->.
  apply andb_true_iff in G as [G1 G2].
  apply Z.ltb_lt in G1, G2.
  split; [exact G1|]. split; [exact G2|].
  exists rs, ks. split; [|split; [exact Er | exact Ek]].
  rewrite <- J. reflexivity.
Qed.

(** The first part of a split that cuts has no separator, and the other
    parts are the split of what follows the separator after it. *)
Lemma split_max_uncut (sep : ascii) (s : string) :
  forall (k : nat) (p q : string) (ps : list string),
    PyStr.split_max sep s (S k) = p :: q :: ps ->
    free_of sep p
    /\ exists s' : string,
         s = p ++ String sep s' /\ PyStr.split_max sep s' k = q :: ps.
Proof.
  induction s as [|c s IH]; intros k p q ps H; [discriminate H|].
  cbn [PyStr.split_max] in H.
  destruct (Ascii.eqb_spec c sep) as [->|Hc].
  - injection H as <- H. split; [constructor|].
    exists s. split; [reflexivity|exact H].
  - destruct (PyStr.split_max sep s (S k)) as [|p' ps'] eqn:E;
      [discriminate H|].
    injection H as <- ->.
    destruct (IH k p' q ps E) as (Hfree & s' & -> & Hs').
    split.
    + unfold free_of. cbn [Py.chars list_ascii_of_string].
      constructor; [apply Ascii.eqb_neq; exact Hc | exact Hfree].
    + exists s'. split; [reflexivity|exact Hs'].
Qed.

Lemma parse_selection_parts (d : string) (r k : Z) (code : string) :
  parse_selection d = Ok (r, k, code) ->
  exists rs ks : string,
    d = "select_" ++ rs ++ "_" ++ ks ++ "_" ++ code
    /\ free_of "_" rs /\ free_of "_" ks
    /\ Py.parse_int rs = Some r /\ Py.parse_int ks = Some k
    /\ 1 < r /\ 0 < k.
Proof.
  unfold parse_selection. intros H.
  destruct (PyStr.split_max "_" d 3) as [|a [|rs [|ks [|c [|x l]]]]] eqn:E;
    try discriminate H.
  destruct (String.eqb_spec a "select") as [->|]; [|discriminate H].
  cbn [negb] in H.
  destruct (Py.parse_int rs) as [r'|] eqn:Er; [|discriminate H].
  destruct (Py.parse_int ks) as [k'|] eqn:Ek; [|discriminate H].
  destruct ((1 <? r') && (0 <? k')) eqn:G; [|discriminate H].
  cbn [negb] in H. injection H as -> -> ->.
  apply andb_true_iff in G as [G1 G2].
  apply Z.ltb_lt in G1, G2.
  destruct (split_max_uncut _ _ _ _ _ _ E) as (_ & s1 & -> & E1).
  destruct (split_max_uncut _ _ _ _ _ _ E1) as (Hrs & s2 & -> & E2).
  destruct (split_max_uncut _ _ _ _ _ _ E2) as (Hks & s3 & -> & E3).
  rewrite split_max_zero in E3. injection E3 as ->.
  exists rs, ks. repeat (split; [first [reflexivity | assumption]|]).
  exact G2.
Qed.

Lemma parse_selection_of_parts (rs ks code : string) (r k : Z) :
  free_of "_" rs -> free_of "_" ks ->
  Py.parse_int rs = Some r -> Py.parse_int ks = Some k ->
  1 < r -> 0 < k ->
  parse_selection ("select_" ++ rs ++ "_" ++ ks ++ "_" ++ code)
  = Ok (r, k, code).
Proof.
  intros Hrs Hks Er Ek Hr Hk. unfold parse_selection.
  change ("select_" ++ rs ++ "_" ++ ks ++ "_" ++ code)
    with ("select" ++ String "_" (rs ++ String "_" (ks ++ String "_" code))).
  rewrite split_max_cut by (repeat constructor).
  rewrite split_max_cut by exact Hrs.
  rewrite split_max_cut by exact Hks.
  rewrite split_max_zero, Er, Ek.
  cbn [String.eqb Ascii.eqb Bool.eqb negb].
  replace (1 <? r) with true by (symmetry; apply Z.ltb_lt; exact Hr).
  replace (0 <? k) with true by (symmetry; apply Z.ltb_lt; exact Hk).
  reflexivity.
Qed.

(** ** The effects of a run *)

Lemma replies_app (l1 l2 : list effect) :
  replies (l1 ++ l2) = (replies l1 ++ replies l2)%list.
Proof. apply flat_map_app. Qed.


Ltac close_reply_only :=
  cbn [snd effects]; rewrite <- ?app_assoc; cbn [app];
  exists []; eexists; split; [reflexivity|]; split; [reflexivity|];
  left; reflexivity.

(** The workflow returns normally; its last effect is its one answer,
    and before it come the ticket and its photo, or these and the log
    write, or nothing. *)
Lemma workflow_shape (env : Env) (row cuotas : Z) (st : State) :
  exists (before : list effect) (msg : reply),
    generate_and_send_receipt env row cuotas st
    = (Ok tt, run_workflow env row cuotas st)
    /\ effects (run_workflow env row cuotas st)
       = (effects st ++ before ++ [Reply (has_callback_query env) msg])%list
    /\ (before = []
        \/ (exists t : ticket,
              before = [RenderTicket t; SendPhoto t] /\ cuotas <= 0)
        \/ (exists (t : ticket) (rg : a1_range) (values : list (list string)),
              before = [RenderTicket t; SendPhoto t; SheetUpdate rg values]
              /\ 0 < cuotas)).
Proof.
  unfold run_workflow. run_M. unfold connection.
  destruct (connected env) eqn:Hconn.
  - cbv beta iota delta [find_first_empty_log_row find_first_empty_log_row_on Gspread.call rbind]. run_M.
    destruct (get_credit_data (Some (sheet st)) row) as [e|c] eqn:Hload.
    { destruct e; run_M; close_reply_only. }
    run_M.
    destruct (total_cuotas c <=? cuotas_abonadas_antes c);
      [close_reply_only|].
    destruct (total_cuotas c - cuotas_abonadas_antes c <? cuotas);
      [close_reply_only|].
    destruct (Py.mul_float_int (importe_cuota c) (cuotas_abonadas_antes c + cuotas))
      as [e|saldo]; [destruct e; close_reply_only|].
    destruct (Py.mul_float_int (importe_cuota c) cuotas)
      as [e|total_monto]; [destruct e; close_reply_only|].
    run_M.
    destruct (Z.leb_spec cuotas 0) as [Hle|Hgt].
    + cbn [snd effects]. rewrite <- !app_assoc. cbn [app].
      eexists [_; _]. eexists. split; [reflexivity|]. split; [reflexivity|].
      right. left. eexists. split; [reflexivity|exact Hle].
    + cbv beta iota delta [find_first_empty_log_row find_first_empty_log_row_on Gspread.call rbind]. run_M. cbn [snd effects].
      rewrite <- !app_assoc. cbn [app].
      eexists [_; _; _]. eexists. split; [reflexivity|]. split; [reflexivity|].
      right. right. eexists. eexists. eexists. split; [reflexivity|exact Hgt].
  - cbv beta iota delta [find_first_empty_log_row find_first_empty_log_row_on get_credit_data get_credit_data_on Gspread.call rbind]. run_M.
    close_reply_only.
Qed.





(** ** From the request to the selection *)

Lemma match_row_from_2 (conn : option Sheet) (n a : string)
                       (matches : list credit_match) (warnings : list string)
                       (m : credit_match) :
  find_client_credits conn n a = Ok (matches, warnings) ->
  In m matches -> 2 <= match_row_index m.
Proof.
  destruct conn as [sh|]; [|discriminate].
  unfold find_client_credits.
  rewrite (find_client_credits_connected Py.lower Py.strip).
  generalize (Gspread.get_values col_to_index sh master_range_to_read).
  intros data E Hin. injection E as <- _.
  apply surviving_matches_iff in Hin as (k & row & _ & _ & ->).
  cbn [project match_row_index]. lia.
Qed.

Lemma handler_on_selection (allowed : list Z) (env : Env) (user : option Z)
                           (d : string) (st : State) (r k : Z) (code : string) :
  is_allowed_user allowed user = true ->
  parse_selection d = Ok (r, k, code) ->
  handle_item_selection_callback allowed env user d st
  = ([ProcessingPayment code k], run_workflow (callback_env env) r k st).
Proof.
  intros Hu Hp. unfold handle_item_selection_callback.
  rewrite Hu. cbn [negb]. unfold Ok in Hp. rewrite Hp.
  destruct (workflow_shape (callback_env env) r k st) as (b & msg & E & _).
  rewrite E. reflexivity.
Qed.

(** ** Splitting at white space *)

Lemma lstrip_spaces (p x : list ascii) :
  Forall (fun c => Py.is_space c = true) p ->
  Py.lstrip_chars (p ++ x) = Py.lstrip_chars x.
Proof.
  induction 1 as [|c p Hc _ IH]; [reflexivity|].
  cbn [app Py.lstrip_chars]. rewrite Hc. exact IH.
Qed.

Lemma starts_word_fixed (l : list ascii) :
  starts_word l -> Py.lstrip_chars l = l.
Proof.
  intros H. apply lstrip_chars_fixed. destruct l; [exact I | exact H].
Qed.

Lemma starts_word_app (l x : list ascii) :
  starts_word l -> starts_word (l ++ x).
Proof. destruct l; [intros []|intros H; exact H]. Qed.

Lemma strip_chars_padded (p body q : list ascii) :
  Forall (fun c => Py.is_space c = true) p ->
  Forall (fun c => Py.is_space c = true) q ->
  starts_word body -> starts_word (rev body) ->
  strip_chars (p ++ body ++ q) = body.
Proof.
  intros Hp Hq Hb Hr. unfold strip_chars.
  rewrite lstrip_spaces by exact Hp.
  rewrite (starts_word_fixed (body ++ q)%list) by (apply starts_word_app, Hb).
  rewrite rev_app_distr.
  rewrite lstrip_spaces by (apply List.Forall_rev, Hq).
  rewrite (starts_word_fixed _ Hr). apply rev_involutive.
Qed.

Lemma take_word_app (w x : list ascii) :
  Forall (fun c => Py.is_space c = false) w ->
  match x with
  | [] => True
  | c :: _ => Py.is_space c = true
  end ->
  PyStr.take_word (w ++ x) = (w, x).
Proof.
  intros Hw Hx. induction Hw as [|c w Hc _ IH].
  - destruct x as [|c x]; [reflexivity|].
    cbn [app PyStr.take_word]. rewrite Hx. reflexivity.
  - cbn [app PyStr.take_word]. rewrite Hc, IH. reflexivity.
Qed.

Lemma split_ws_spaces (n : nat) (p x : list ascii) :
  Forall (fun c => Py.is_space c = true) p ->
  PyStr.split_whitespace_chars n (p ++ x) = PyStr.split_whitespace_chars n x.
Proof.
  intros Hp. destruct n; cbn [PyStr.split_whitespace_chars];
    rewrite lstrip_spaces by exact Hp; reflexivity.
Qed.

Lemma split_ws_nil (n : nat) : PyStr.split_whitespace_chars n [] = [].
Proof. destruct n; reflexivity. Qed.

Lemma split_ws_word (n : nat) (w x : list ascii) :
  Forall (fun c => Py.is_space c = false) w -> w <> [] ->
  match x with
  | [] => True
  | c :: _ => Py.is_space c = true
  end ->
  PyStr.split_whitespace_chars (S n) (w ++ x)
  = w :: PyStr.split_whitespace_chars n x.
Proof.
  intros Hw Hne Hx. cbn [PyStr.split_whitespace_chars].
  rewrite starts_word_fixed.
  - pose proof (take_word_app w x Hw Hx) as T.
    destruct (w ++ x)%list as [|c l] eqn:E.
    + destruct w; [contradiction|discriminate E].
    + rewrite T. reflexivity.
  - apply starts_word_app. destruct Hw as [|c w Hc _]; [contradiction|exact Hc].
Qed.

Lemma split_ws_last (r : list ascii) :
  starts_word r -> PyStr.split_whitespace_chars 0 r = [r].
Proof.
  intros H. cbn [PyStr.split_whitespace_chars].
  rewrite (starts_word_fixed _ H). destruct r; [destruct H|reflexivity].
Qed.

Lemma spaces_then (s : list ascii) (x : list ascii) :
  Forall (fun c => Py.is_space c = true) s -> s <> [] ->
  match (s ++ x)%list with
  | [] => True
  | c :: _ => Py.is_space c = true
  end.
Proof. intros [|c s' Hc _] Hne; [contradiction|exact Hc]. Qed.

Lemma chars_nonempty (s : string) : s <> "" -> Py.chars s <> [].
Proof. destruct s; [contradiction|discriminate]. Qed.

Lemma stripped_starts_word (s : string) :
  Py.strip s = s -> s <> "" ->
  starts_word (Py.chars s) /\ starts_word (rev (Py.chars s)).
Proof.
  intros Hs Hne.
  assert (E : strip_chars (Py.chars s) = Py.chars s).
  { rewrite <- Hs at 2. rewrite strip_as_chars, chars_text. reflexivity. }
  destruct (strip_chars_trimmed (Py.chars s)) as [H1 H2].
  rewrite E in H1, H2. apply chars_nonempty in Hne.
  split.
  - destruct (Py.chars s) as [|c l] eqn:C; [contradiction|].
    exact (lstrip_chars_head _ _ _ H1).
  - destruct (rev (Py.chars s)) as [|c l] eqn:C.
    + apply (f_equal (@rev ascii)) in C. rewrite rev_involutive in C.
      contradiction.
    + exact (lstrip_chars_head _ _ _ H2).
Qed.

(** The three parts of a payment message. *)
Lemma message_parts (pre nombre sep1 apellido sep2 rest post : string) :
  all_space pre -> all_space post ->
  all_space sep1 -> sep1 <> "" -> all_space sep2 -> sep2 <> "" ->
  no_space nombre -> nombre <> "" -> no_space apellido -> apellido <> "" ->
  Py.strip rest = rest -> rest <> "" ->
  PyStr.split_whitespace
    (Py.strip (pre ++ nombre ++ sep1 ++ apellido ++ sep2 ++ rest ++ post)) 2
  = [nombre; apellido; rest].
Proof.
  unfold all_space, no_space.
  intros Hpre Hpost Hs1 Hn1 Hs2 Hn2 Hnom Hnn Hape Hna Hrest Hnr.
  destruct (stripped_starts_word rest Hrest Hnr) as [Hr1 Hr2].
  apply chars_nonempty in Hn1, Hn2, Hnn, Hna.
  rewrite strip_as_chars, !chars_app.
  set (P := Py.chars pre) in *. set (N := Py.chars nombre) in *.
  set (S1 := Py.chars sep1) in *. set (A := Py.chars apellido) in *.
  set (S2 := Py.chars sep2) in *. set (R := Py.chars rest) in *.
  set (Q := Py.chars post) in *.
  replace (P ++ N ++ S1 ++ A ++ S2 ++ R ++ Q)%list
    with (P ++ (N ++ S1 ++ A ++ S2 ++ R) ++ Q)%list
    by (rewrite <- !app_assoc; reflexivity).
  rewrite strip_chars_padded; try assumption.
  - unfold PyStr.split_whitespace. rewrite chars_text.
    rewrite split_ws_word by (try assumption; apply spaces_then; assumption).
    rewrite split_ws_spaces by assumption.
    rewrite split_ws_word by (try assumption; apply spaces_then; assumption).
    rewrite split_ws_spaces by assumption.
    rewrite split_ws_last by assumption.
    cbn [map]. unfold N, A, R. rewrite !text_chars. reflexivity.
  - apply starts_word_app.
    destruct Hnom as [|c w Hc _]; [contradiction|exact Hc].
  - rewrite !rev_app_distr, <- !app_assoc. apply starts_word_app, Hr2.
Qed.

Lemma message_two_parts (pre nombre sep1 apellido post : string) :
  all_space pre -> all_space post -> all_space sep1 -> sep1 <> "" ->
  no_space nombre -> nombre <> "" -> no_space apellido -> apellido <> "" ->
  PyStr.split_whitespace
    (Py.strip (pre ++ nombre ++ sep1 ++ apellido ++ post)) 2
  = [nombre; apellido].
Proof.
  unfold all_space, no_space.
  intros Hpre Hpost Hs1 Hn1 Hnom Hnn Hape Hna.
  apply chars_nonempty in Hn1, Hnn, Hna.
  rewrite strip_as_chars, !chars_app.
  set (P := Py.chars pre) in *. set (N := Py.chars nombre) in *.
  set (S1 := Py.chars sep1) in *. set (A := Py.chars apellido) in *.
  set (Q := Py.chars post) in *.
  replace (P ++ N ++ S1 ++ A ++ Q)%list
    with (P ++ (N ++ S1 ++ A) ++ Q)%list
    by (rewrite <- !app_assoc; reflexivity).
  rewrite strip_chars_padded; try assumption.
  - unfold PyStr.split_whitespace. rewrite chars_text.
    rewrite split_ws_word by (try assumption; apply spaces_then; assumption).
    rewrite split_ws_spaces by assumption.
    rewrite <- (app_nil_r A).
    rewrite split_ws_word by (try assumption; exact I).
    rewrite split_ws_nil.
    cbn [map]. unfold N, A. rewrite !text_chars. reflexivity.
  - apply starts_word_app.
    destruct Hnom as [|c w Hc _]; [contradiction|exact Hc].
  - rewrite !rev_app_distr, <- !app_assoc. apply starts_word_app.
    destruct (rev A) as [|c l] eqn:C.
    + apply (f_equal (@rev ascii)) in C. rewrite rev_involutive in C.
      contradiction.
    + assert (Hin : In c A) by (apply in_rev; rewrite C; left; reflexivity).
      exact (proj1 (List.Forall_forall _ _) Hape c Hin).
Qed.

(** ** Cells of fetched rows *)

Lemma drop_leading_blank_skipn (l : list string) :
  exists m : nat,
    (m <= List.length l)%nat
    /\ Gspread.drop_leading_blank l = skipn m l
    /\ (forall j : nat, (j < m)%nat -> nth j l "" = "").
Proof.
  induction l as [|v l (m & Hm & E & Hb)].
  - exists 0%nat. split; [cbn; lia|]. split; [reflexivity|].
    intros j Hj. lia.
  - cbn [Gspread.drop_leading_blank]. unfold Gspread.is_blank.
    destruct (String.eqb_spec v "") as [->|Hv].
    + exists (S m). cbn [List.length skipn].
      split; [lia|]. split; [exact E|].
      intros [|j] Hj; [reflexivity|]. cbn [nth]. apply Hb. lia.
    + exists 0%nat. cbn [List.length skipn].
      split; [lia|]. split; [reflexivity|]. intros j Hj. lia.
Qed.

(** The cells that the service omits read as blank ones. *)
Lemma trim_row_nth (l : list string) (j : nat) :
  nth j (Gspread.trim_row l) "" = nth j l "".
Proof.
  unfold Gspread.trim_row.
  destruct (drop_leading_blank_skipn (rev l)) as (m & Hm & E & Hb).
  rewrite length_rev in Hm. rewrite E, skipn_rev, rev_involutive.
  destruct (Nat.lt_ge_cases j (List.length l - m)) as [Hj|Hj].
  - rewrite nth_firstn.
    replace (j <? List.length l - m)%nat with true
      by (symmetry; apply Nat.ltb_lt; exact Hj).
    reflexivity.
  - rewrite nth_firstn.
    replace (j <? List.length l - m)%nat with false
      by (symmetry; apply Nat.ltb_ge; exact Hj).
    destruct (Nat.lt_ge_cases j (List.length l)) as [Hl|Hl].
    + specialize (Hb (List.length l - S j)%nat ltac:(lia)).
      rewrite rev_nth in Hb by lia.
      replace (List.length l - S (List.length l - S j))%nat with j in Hb by lia.
      symmetry. exact Hb.
    + symmetry. apply nth_overflow. exact Hl.
Qed.

Lemma zrange_nth (a : Z) (n j : nat) :
  (j < n)%nat -> nth j (Gspread.zrange a n) 0 = a + Z.of_nat j.
Proof.
  intros Hj. unfold Gspread.zrange.
  rewrite (nth_indep _ 0 (a + Z.of_nat 0)) by (rewrite length_map, length_seq; exact Hj).
  rewrite (map_nth (fun k => a + Z.of_nat k)), seq_nth by exact Hj.
  reflexivity.
Qed.

Lemma zrange_length (a : Z) (n : nat) : List.length (Gspread.zrange a n) = n.
Proof. unfold Gspread.zrange. rewrite length_map, length_seq. reflexivity. Qed.

Lemma row_cells_cell_at (sh : Sheet) (r c1 c2 : Z) (j : nat) :
  cell_at (Gspread.row_cells sh r c1 c2) j
  = if (j <? Z.to_nat (c2 - c1 + 1))%nat then cell sh r (c1 + Z.of_nat j) else "".
Proof.
  unfold cell_at, Gspread.row_cells. rewrite trim_row_nth.
  destruct (Nat.ltb_spec j (Z.to_nat (c2 - c1 + 1))) as [Hj|Hj].
  - rewrite (nth_indep _ "" (cell sh r 0))
      by (rewrite length_map, zrange_length; exact Hj).
    rewrite map_nth, zrange_nth by exact Hj. reflexivity.
  - apply nth_overflow. rewrite length_map, zrange_length. exact Hj.
Qed.

Lemma get_values_master (sh : Sheet) :
  Gspread.get_values col_to_index sh master_range_to_read
  = Gspread.fill_gaps
      (Gspread.trim_rows
         (map (fun r => Gspread.row_cells sh r 12 17)
              (Gspread.zrange 2 (Z.to_nat 499)))).
Proof. reflexivity. Qed.

Lemma trim_rows_nth_error (l : list (list string)) (k : nat) (row : list string) :
  nth_error (Gspread.trim_rows l) k = Some row -> nth_error l k = Some row.
Proof.
  destruct (trim_rows_prefix l) as (n & Hn & -> & _).
  rewrite nth_error_firstn.
  destruct (k <? n)%nat; [auto|discriminate].
Qed.

Lemma map_zrange_nth_error {A : Type} (f : Z -> A) (a : Z) (n k : nat) (x : A) :
  nth_error (map f (Gspread.zrange a n)) k = Some x ->
  (k < n)%nat /\ x = f (a + Z.of_nat k).
Proof.
  intros H.
  assert (Hk : (k < n)%nat).
  { rewrite <- (zrange_length a n), <- (length_map f).
    apply nth_error_Some. rewrite H. discriminate. }
  split; [exact Hk|].
  rewrite nth_error_map in H.
  rewrite (nth_error_nth' _ 0) in H by (rewrite zrange_length; exact Hk).
  rewrite zrange_nth in H by exact Hk.
  cbn [option_map] in H. injection H as <-. reflexivity.
Qed.

Lemma master_rows_nth (sh : Sheet) (k : nat) (row : list string) :
  nth_error (Gspread.get_values col_to_index sh master_range_to_read) k
  = Some row ->
  (k < Z.to_nat 499)%nat
  /\ forall j : nat,
       cell_at row j = cell_at (Gspread.row_cells sh (2 + Z.of_nat k) 12 17) j.
Proof.
  rewrite get_values_master. intros H.
  apply fill_gaps_nth_error in H as (row0 & H & Hcells).
  apply trim_rows_nth_error in H.
  destruct (map_zrange_nth_error (fun r => Gspread.row_cells sh r 12 17) _ _ _ _ H)
    as [Hk ->].
  split; [exact Hk | exact Hcells].
Qed.

(** ** Written cells *)

Lemma blank_A_to_D_other_row (sh : Sheet) (r : Z) (entry : list string) (rr : Z) :
  rr <> r ->
  blank_A_to_D (Gspread.update col_to_index sh (log_range_to_update r) [entry]) rr
  = blank_A_to_D sh rr.
Proof.
  intros H. unfold blank_A_to_D.
  rewrite !log_write_other by (left; exact H). reflexivity.
Qed.

(** ** The conversation handlers *)

(** X1. The callback data that [process_payment_request] puts on a button
    is read back by [handle_item_selection_callback] as the same row,
    count and item code, whatever the code is (underscores included),
    when the row is above 1 and the count above 0; otherwise the data is
    rejected as invalid. *)
Theorem selection_data_round_trip :
  forall (row_index num_cuotas : Z) (codigo : string),
    parse_selection (selection_data row_index num_cuotas codigo)
    = if (1 <? row_index) && (0 <? num_cuotas)
      then Ok (row_index, num_cuotas, codigo)
      else Raise (ValueError
                    "Invalid row index or number of installments from callback.").
Proof.
  intros row_index num_cuotas codigo. unfold parse_selection.
  rewrite selection_data_parts, !parse_int_str.
  cbn [String.eqb Ascii.eqb Bool.eqb negb].
  destruct ((1 <? row_index) && (0 <? num_cuotas)); reflexivity.
Qed.

(** X2. Callback data is accepted exactly when it has the form
    [select_<row>_<count>_<code>], where <row> and <count> hold no
    underscore, <row> reads as an integer above 1 and <count> as an
    integer above 0; the three cuts are at the first three underscores, so
    that the accepted code is everything after the third underscore and
    may hold underscores itself. *)
Theorem parse_selection_sound :
  forall (d : string) (r k : Z) (code : string),
    parse_selection d = Ok (r, k, code)
    <-> exists rs ks : string,
          d = "select_" ++ rs ++ "_" ++ ks ++ "_" ++ code
          /\ free_of "_" rs /\ free_of "_" ks
          /\ Py.parse_int rs = Some r /\ Py.parse_int ks = Some k
          /\ 1 < r /\ 0 < k.
Proof.
  intros d r k code. split; [apply parse_selection_parts|].
  intros (rs & ks & -> & Hrs & Hks & Er & Ek & Hr & Hk).
  apply parse_selection_of_parts; assumption.
Qed.

(** Row 5, one installment: the code is "0_x", not "x" with the count
    "1_0". *)
Lemma parse_selection_sound_witness :
  parse_selection "select_5_1_0_x" = Ok (5, 1, "0_x")
  /\ exists rs ks : string,
       "select_5_1_0_x" = "select_" ++ rs ++ "_" ++ ks ++ "_" ++ "0_x"
       /\ free_of "_" rs /\ free_of "_" ks
       /\ Py.parse_int rs = Some 5 /\ Py.parse_int ks = Some 1.
Proof.
  assert (H : parse_selection "select_5_1_0_x" = Ok (5, 1, "0_x")).
  { apply (proj2 (parse_selection_sound "select_5_1_0_x" 5 1 "0_x")).
    exists "5", "1". split; [reflexivity|].
    split; [repeat constructor|]. split; [repeat constructor|].
    split; [reflexivity|]. split; [reflexivity|]. split; reflexivity. }
  split; [exact H|].
  destruct (proj1 (parse_selection_sound "select_5_1_0_x" 5 1 "0_x") H)
    as (rs & ks & E & Hrs & Hks & Er & Ek & _).
  exists rs, ks. repeat (split; [assumption|]). exact Ek.
Defined.

(** X3. [handle_item_selection_callback] writes exactly one notice and
    never the "critical error" one.  A user who is not allowed and callback
    data that does not parse leave the state as it is; otherwise the
    handler runs the payment workflow once, on a row above 1 with a count
    above 0. *)
Theorem handle_item_selection_callback_outcomes :
  forall (allowed : list Z) (env : Env) (user : option Z) (d : string)
         (st : State),
    (is_allowed_user allowed user = false
     /\ handle_item_selection_callback allowed env user d st
        = ([AccessDenied], st))
    \/ (is_allowed_user allowed user = true
        /\ (exists e, parse_selection d = Raise e)
        /\ handle_item_selection_callback allowed env user d st
           = ([InvalidSelectionData], st))
    \/ (is_allowed_user allowed user = true
        /\ exists (r k : Z) (code : string),
             parse_selection d = Ok (r, k, code)
             /\ 1 < r /\ 0 < k
             /\ handle_item_selection_callback allowed env user d st
                = ([ProcessingPayment code k],
                   run_workflow (callback_env env) r k st)).
Proof.
  intros allowed env user d st.
  destruct (is_allowed_user allowed user) eqn:Hu.
  - right. destruct (parse_selection d) as [e|[[r k] code]] eqn:Hp.
    + left. split; [reflexivity|]. split; [exists e; reflexivity|].
      unfold handle_item_selection_callback. rewrite Hu, Hp. reflexivity.
    + right. split; [reflexivity|]. exists r, k, code.
      destruct (parse_selection_ok d r k code Hp) as (Hr & Hk & _).
      split; [reflexivity|]. split; [exact Hr|]. split; [exact Hk|].
      apply handler_on_selection; assumption.
  - left. split; [reflexivity|].
    unfold handle_item_selection_callback. rewrite Hu. reflexivity.
Qed.

(** X4. Every button that [process_payment_request] offers belongs to a
    match of the lookup for the names of the message, and pressing it
    makes [handle_item_selection_callback] run the payment workflow on
    the master row of that match with the count of the message. *)
Theorem offered_button_runs_workflow :
  forall (allowed : list Z) (conn : option Sheet) (user : option Z)
         (text nombre apellido : string) (num_cuotas : Z)
         (buttons : list button) (b : button) (env : Env) (st : State),
    process_payment_request allowed conn user text
    = SelectItem nombre apellido num_cuotas buttons ->
    In b buttons ->
    exists (m : credit_match) (matches : list credit_match)
           (warnings : list string),
      find_client_credits conn nombre apellido = Ok (matches, warnings)
      /\ In m matches
      /\ b = button_of num_cuotas m
      /\ handle_item_selection_callback allowed env user (callback_data b) st
         = ([ProcessingPayment (match_codigo m) num_cuotas],
            run_workflow (callback_env env) (match_row_index m) num_cuotas st).
Proof.
  intros allowed conn user text nombre apellido k buttons b env st.
  unfold process_payment_request.
  destruct (is_allowed_user allowed user) eqn:Hu; [|discriminate].
  cbn [negb].
  destruct (PyStr.split_whitespace (Py.strip text) 2)
    as [|n [|a [|cs [|x parts]]]]; try discriminate.
  destruct (Py.parse_int cs) as [k'|]; [|discriminate].
  destruct (Z.leb_spec k' 0) as [|Hk]; [discriminate|].
  destruct (find_client_credits conn n a) as [e|[matches warnings]] eqn:Hf.
  { destruct e; discriminate. }
  destruct matches as [|m0 ms]; [discriminate|].
  intros E Hin. injection E as -> -> -> <-.
  change (In b (map (button_of k) (m0 :: ms))) in Hin.
  apply in_map_iff in Hin as (m & <- & Hm).
  exists m, (m0 :: ms), warnings.
  split; [exact Hf|]. split; [exact Hm|]. split; [reflexivity|].
  apply handler_on_selection; [exact Hu|].
  cbn [button_of callback_data]. rewrite parse_selection_selection_data.
  pose proof (match_row_from_2 conn nombre apellido _ _ m Hf Hm) as Hrow.
  replace (1 <? match_row_index m) with true by (symmetry; apply Z.ltb_lt; lia).
  replace (0 <? k) with true by (symmetry; apply Z.ltb_lt; lia).
  reflexivity.
Qed.

(** The message "ana DIAZ 2" on the sample sheet, and its one button. *)
Lemma offered_button_runs_workflow_witness :
  process_payment_request [7] (Some (sheet_with sample_row)) (Some 7)
    "  ana DIAZ 2 "
  = SelectItem "ana" "DIAZ" 2
      [{| button_label := "Heladera (Code: H-1)";
          callback_data := "select_5_2_H-1" |}]
  /\ fst (handle_item_selection_callback [7] sample_env (Some 7)
            "select_5_2_H-1" sample_state)
     = [ProcessingPayment "H-1" 2].
Proof.
  assert (H : process_payment_request [7] (Some (sheet_with sample_row)) (Some 7)
                "  ana DIAZ 2 "
              = SelectItem "ana" "DIAZ" 2
                  [{| button_label := "Heladera (Code: H-1)";
                      callback_data := "select_5_2_H-1" |}])
    by (vm_compute; reflexivity).
  split; [exact H|].
  destruct (offered_button_runs_workflow _ _ _ _ _ _ _ _ _ sample_env
              sample_state H (or_introl eq_refl))
    as (m & matches & warnings & Hf & Hm & Hb & Hh).
  cbn [callback_data] in Hh. rewrite Hh. cbn [fst].
  apply (f_equal callback_data) in Hb. cbn [callback_data button_of] in Hb.
  pose proof (parse_selection_selection_data (match_row_index m) 2
                (match_codigo m)) as P.
  rewrite <- Hb in P.
  change (parse_selection "select_5_2_H-1") with (Ok (5, 2, "H-1")) in P.
  destruct ((1 <? match_row_index m) && (0 <? 2)); [|discriminate P].
  injection P as _ <-. reflexivity.
Defined.

(** X5. A message of an allowed user that consists of a first name, a last
    name and a rest, with any white space around and between them, is
    read as these three parts: the rest must be an integer above 0, or the
    answer is the "invalid installments" one, and the lookup is made with
    the two names as typed.  A message of two words is ignored. *)
Theorem process_payment_request_parts :
  forall (allowed : list Z) (conn : option Sheet) (id : Z)
         (pre nombre sep1 apellido sep2 rest post : string),
    id_in id allowed = true ->
    all_space pre -> all_space post ->
    all_space sep1 -> sep1 <> "" -> all_space sep2 -> sep2 <> "" ->
    no_space nombre -> nombre <> "" -> no_space apellido -> apellido <> "" ->
    Py.strip rest = rest -> rest <> "" ->
    process_payment_request allowed conn (Some id)
      (pre ++ nombre ++ sep1 ++ apellido ++ sep2 ++ rest ++ post)
    = match Py.parse_int rest with
      | Some num_cuotas =>
          if 0 <? num_cuotas then
            match find_client_credits conn nombre apellido with
            | inr ([], _) => NoActiveCredits nombre apellido
            | inr (client_credits, _) =>
                SelectItem nombre apellido num_cuotas
                  (map (button_of num_cuotas) client_credits)
            | inl (ConnectionError _) => SearchConnectionError
            | inl APIError => SearchApiError
            | inl _ => SearchUnexpectedError
            end
          else InvalidInstallments
      | None => InvalidInstallments
      end
    /\ process_payment_request allowed conn (Some id)
         (pre ++ nombre ++ sep1 ++ apellido ++ post)
       = Ignored.
Proof.
  intros allowed conn id pre nombre sep1 apellido sep2 rest post Hid
         Hpre Hpost Hs1 Hn1 Hs2 Hn2 Hnom Hnn Hape Hna Hrest Hnr.
  unfold process_payment_request. cbn [is_allowed_user]. rewrite Hid.
  cbn [negb]. split.
  - rewrite message_parts by assumption.
    destruct (Py.parse_int rest) as [k|]; [|reflexivity].
    rewrite Z.leb_antisym. destruct (0 <? k); reflexivity.
  - rewrite message_two_parts by assumption. reflexivity.
Qed.

(** Tabs and blanks around "ana", "DIAZ" and "2". *)
Lemma process_payment_request_parts_witness :
  process_payment_request [7] None (Some 7) "  ana DIAZ  2 "
  = SearchConnectionError
  /\ process_payment_request [7] None (Some 7) "  ana DIAZ " = Ignored.
Proof.
  apply (process_payment_request_parts [7] None 7
           "  " "ana" " " "DIAZ" "  " "2" " ");
    try reflexivity; try discriminate; repeat constructor.
Defined.

(** ** Authorized users *)

Lemma id_in_In (id : Z) (ids : list Z) : id_in id ids = true <-> In id ids.
Proof.
  induction ids as [|x ids IH]; cbn [id_in In].
  - split; [discriminate|intros []].
  - rewrite orb_true_iff, Z.eqb_eq, IH. reflexivity.
Qed.

Lemma int_of_each_some (parts : list string) :
  forall ids : list Z,
    int_of_each parts = Some ids
    <-> Forall2 (fun part id => Py.parse_int (Py.strip part) = Some id) parts ids.
Proof.
  induction parts as [|p parts IH]; intros ids; cbn [int_of_each].
  - split.
    + intros E. injection E as <-. constructor.
    + intros H. inversion H. reflexivity.
  - destruct (Py.parse_int (Py.strip p)) as [n|] eqn:Ep.
    + destruct (int_of_each parts) as [l|] eqn:El.
      * split.
        -- intros E. injection E as <-. constructor; [exact Ep|].
           apply IH. reflexivity.
        -- intros H. inversion H as [|? id ? ids' Hp Hrest]; subst.
           apply IH in Hrest. congruence.
      * split; [discriminate|].
        intros H. inversion H as [|? id ? ids' Hp Hrest]; subst.
        apply IH in Hrest. discriminate Hrest.
    + split; [discriminate|].
      intros H. inversion H as [|? id ? ids' Hp Hrest]; subst. congruence.
Qed.

Lemma forall2_left {A B : Type} (P : A -> B -> Prop) (l : list A) (l' : list B) :
  Forall2 P l l' -> forall x, In x l -> exists y, In y l' /\ P x y.
Proof.
  induction 1 as [|a b l l' Hab _ IH]; intros x Hx; [destruct Hx|].
  destruct Hx as [<-|Hx].
  - exists b. split; [left; reflexivity|exact Hab].
  - destruct (IH x Hx) as (y & Hy & Hp). exists y. split; [right|]; assumption.
Qed.

Lemma forall2_right {A B : Type} (P : A -> B -> Prop) (l : list A) (l' : list B) :
  Forall2 P l l' -> forall y, In y l' -> exists x, In x l /\ P x y.
Proof.
  induction 1 as [|a b l l' Hab _ IH]; intros y Hy; [destruct Hy|].
  destruct Hy as [<-|Hy].
  - exists a. split; [left; reflexivity|exact Hab].
  - destruct (IH y Hy) as (x & Hx & Hp). exists x. split; [right|]; assumption.
Qed.

Lemma int_of_each_none (parts : list string) :
  int_of_each parts = None
  <-> exists part, In part parts /\ Py.parse_int (Py.strip part) = None.
Proof.
  induction parts as [|p parts IH]; cbn [int_of_each In].
  - split; [discriminate|intros (part & [] & _)].
  - destruct (Py.parse_int (Py.strip p)) as [n|] eqn:Ep.
    + destruct (int_of_each parts) as [l|].
      * split; [discriminate|].
        intros (part & [<-|Hin] & Hn); [congruence|].
        assert (C : Some l = None) by (apply IH; exists part; auto).
        discriminate C.
      * split; [|reflexivity]. intros _.
        destruct (proj1 IH eq_refl) as (part & Hin & Hn).
        exists part. auto.
    + split; [|reflexivity]. intros _. exists p. auto.
Qed.

Lemma int_of_each_str (ids : list Z) :
  int_of_each (map Py.str ids) = Some ids.
Proof.
  induction ids as [|n ids IH]; [reflexivity|].
  cbn [map int_of_each].
  rewrite (strip_no_space _ (str_no_space n)), parse_int_str, IH. reflexivity.
Qed.

Lemma str_free_of_comma (n : Z) : free_of "," (Py.str n).
Proof.
  unfold free_of. eapply List.Forall_impl; [|apply str_chars].
  intros c Hc. apply (numeral_char_plain c Hc).
Qed.

Lemma str_nonempty (n : Z) : Py.str n <> "".
Proof.
  intros E. pose proof (parse_int_str n) as P. rewrite E in P. discriminate P.
Qed.

Lemma join_nonempty (sep : ascii) (p : string) (parts : list string) :
  p <> "" -> join sep (p :: parts) <> "".
Proof.
  intros Hp. destruct parts as [|q parts]; [exact Hp|].
  rewrite join_cons. destruct p; [contradiction|discriminate].
Qed.

(** X6. The list of authorized users is all or nothing: it holds the
    integers of the comma-separated entries of [ALLOWED_USER_IDS], white
    space around an entry aside, when every entry is an integer, and is
    empty as soon as one entry is none (an empty entry, as after a
    trailing comma, included) and when the variable is unset or empty.
    So a user is authorized exactly if every entry is an integer and one
    of them is the user's id; an update without a user is never
    authorized.  The list [ids] written as [id,id,...] is read back as
    [ids]. *)
Theorem ALLOWED_USER_IDS_all_or_nothing :
  (forall (s : string) (id : Z),
     is_allowed_user (ALLOWED_USER_IDS (Some s)) (Some id) = true
     <-> (forall part, In part (PyStr.split "," s) ->
                       Py.parse_int (Py.strip part) <> None)
         /\ (exists part, In part (PyStr.split "," s)
                          /\ Py.parse_int (Py.strip part) = Some id))
  /\ (forall (user : option Z), is_allowed_user (ALLOWED_USER_IDS None) user = false)
  /\ (forall (allowed : list Z), is_allowed_user allowed None = false)
  /\ (forall ids : list Z,
        ALLOWED_USER_IDS (Some (join "," (map Py.str ids))) = ids).
Proof.
  split; [|split; [|split]].
  - intros s id. cbn [is_allowed_user]. rewrite id_in_In.
    unfold ALLOWED_USER_IDS.
    destruct (String.eqb_spec s "") as [->|Hs].
    { split; [intros []|].
      intros (Hall & _). exfalso. apply (Hall ""); [left; reflexivity|].
      reflexivity. }
    destruct (int_of_each (PyStr.split "," s)) as [ids|] eqn:E.
    + apply int_of_each_some in E. split.
      * intros Hin. split.
        -- intros part Hp.
           destruct (forall2_left _ _ _ E part Hp) as (n & _ & Hn). congruence.
        -- destruct (forall2_right _ _ _ E id Hin) as (part & Hp & Hn).
           exists part. auto.
      * intros (_ & part & Hp & Hn).
        destruct (forall2_left _ _ _ E part Hp) as (n & Hin & Hn').
        congruence.
    + apply int_of_each_none in E as (part & Hp & Hn). split; [intros []|].
      intros (Hall & _). exfalso. exact (Hall part Hp Hn).
  - intros [id|]; reflexivity.
  - reflexivity.
  - intros [|n ids]; [reflexivity|].
    unfold ALLOWED_USER_IDS.
    destruct (String.eqb_spec (join "," (map Py.str (n :: ids))) "") as [E|_].
    { exfalso. exact (join_nonempty "," _ _ (str_nonempty n) E). }
    rewrite split_join.
    + rewrite int_of_each_str. reflexivity.
    + apply List.Forall_forall. intros p Hp.
      apply in_map_iff in Hp as (m & <- & _). apply str_free_of_comma.
    + discriminate.
Qed.

(** Two ids with blanks, and the same with a trailing comma. *)
Lemma ALLOWED_USER_IDS_all_or_nothing_witness :
  is_allowed_user (ALLOWED_USER_IDS (Some "7, 42")) (Some 42) = true
  /\ is_allowed_user (ALLOWED_USER_IDS (Some "7, 42,")) (Some 42) = false.
Proof.
  split.
  - apply (proj1 ALLOWED_USER_IDS_all_or_nothing "7, 42" 42). split.
    + intros part [<-|[<-|[]]]; vm_compute; discriminate.
    + exists " 42". split; [right; left; reflexivity | vm_compute; reflexivity].
  - destruct (is_allowed_user (ALLOWED_USER_IDS (Some "7, 42,")) (Some 42))
      eqn:E; [|reflexivity].
    apply (proj1 ALLOWED_USER_IDS_all_or_nothing "7, 42," 42) in E as [Hall _].
    exfalso. apply (Hall ""); [right; right; left; reflexivity|].
    vm_compute. reflexivity.
Defined.

(** ** Column letters of any length *)

Lemma letter_weight_alpha (c : ascii) :
  Py.is_alpha c = true -> 1 <= letter_weight c <= 26.
Proof.
  destruct c as [[] [] [] [] [] [] [] []]; intros H; vm_compute in H;
    try discriminate H; vm_compute; split; intros G; discriminate G.
Qed.

Lemma ord_inj (c c' : ascii) : Py.ord c = Py.ord c' -> c = c'.
Proof.
  unfold Py.ord. intros H. apply N2Z.inj in H.
  rewrite <- (ascii_N_embedding c), <- (ascii_N_embedding c'), H. reflexivity.
Qed.

Lemma letter_weight_inj (c c' : ascii) :
  letter_weight c = letter_weight c' -> Py.upper_char c = Py.upper_char c'.
Proof. unfold letter_weight. intros H. apply ord_inj. lia. Qed.

Lemma positional_snoc (l : list ascii) (c : ascii) :
  positional (l ++ [c]) = 26 * positional l + letter_weight c.
Proof.
  induction l as [|d l IH]; cbn [app positional List.length].
  - cbn. lia.
  - rewrite IH, length_app. cbn [List.length].
    replace (Z.of_nat (List.length l + 1)) with (Z.succ (Z.of_nat (List.length l)))
      by lia.
    rewrite Z.pow_succ_r by lia. lia.
Qed.

Lemma positional_nonneg (l : list ascii) :
  Forall (fun c => Py.is_alpha c = true) l -> 0 <= positional l.
Proof.
  induction l as [|c l IH] using rev_ind; intros H; [cbn; lia|].
  apply Forall_app in H as [Hl Hc]. apply List.Forall_cons_iff in Hc as [Hc _].
  rewrite positional_snoc. pose proof (letter_weight_alpha c Hc).
  specialize (IH Hl). lia.
Qed.

Lemma positional_inj (l : list ascii) :
  forall l' : list ascii,
    Forall (fun c => Py.is_alpha c = true) l ->
    Forall (fun c => Py.is_alpha c = true) l' ->
    positional l = positional l' ->
    map Py.upper_char l = map Py.upper_char l'.
Proof.
  induction l as [|c l IH] using rev_ind; intros l' Hl Hl' E.
  - destruct l' as [|c' l'] using rev_ind; [reflexivity|].
    apply Forall_app in Hl' as [Hl' Hc'].
    apply List.Forall_cons_iff in Hc' as [Hc' _].
    rewrite positional_snoc in E. cbn [positional] in E.
    pose proof (letter_weight_alpha c' Hc').
    pose proof (positional_nonneg l' Hl'). lia.
  - apply Forall_app in Hl as [Hl Hc].
    apply List.Forall_cons_iff in Hc as [Hc _].
    pose proof (letter_weight_alpha c Hc).
    pose proof (positional_nonneg l Hl).
    rewrite positional_snoc in E.
    destruct l' as [|c' l' _] using rev_ind.
    + cbn [positional] in E. lia.
    + apply Forall_app in Hl' as [Hl' Hc'].
      apply List.Forall_cons_iff in Hc' as [Hc' _].
      pose proof (letter_weight_alpha c' Hc').
      rewrite positional_snoc in E.
      assert (Ew : letter_weight c = letter_weight c') by lia.
      assert (Ep : positional l = positional l') by lia.
      rewrite !map_app, (IH l' Hl Hl' Ep). cbn [map].
      rewrite (letter_weight_inj _ _ Ew). reflexivity.
Qed.

(** X7. [col_to_index] reads column letters of any length and ignores
    their letter case; on texts of letters it is never negative, except
    for the empty text, and two texts have the same index only if they
    are the same up to letter case, so no two columns share an index. *)
Theorem col_to_index_injective :
  (forall s : string,
     col_to_index (Py.lower s) = col_to_index s
     /\ col_to_index (Py.upper s) = col_to_index s)
  /\ (forall s : string, letters s -> s <> "" -> 0 <= col_to_index s)
  /\ (forall s t : string,
        letters s -> letters t ->
        col_to_index s = col_to_index t -> Py.upper s = Py.upper t).
Proof.
  split; [|split].
  - intros s. unfold col_to_index. rewrite upper_lower, upper_idem. auto.
  - intros s Hs Hne. rewrite col_to_index_positional.
    unfold letters in Hs. apply chars_nonempty in Hne.
    destruct (Py.chars s) as [|c l] using rev_ind; [contradiction|].
    apply Forall_app in Hs as [Hl Hc].
    apply List.Forall_cons_iff in Hc as [Hc _].
    rewrite positional_snoc.
    pose proof (letter_weight_alpha c Hc). pose proof (positional_nonneg l Hl).
    lia.
  - intros s t Hs Ht E. rewrite !col_to_index_positional in E.
    unfold Py.upper. f_equal. apply positional_inj; [exact Hs|exact Ht|lia].
Qed.

(** The column "aab", of three letters, in either letter case. *)
Lemma col_to_index_injective_witness :
  col_to_index "aab" = 703 /\ col_to_index "AAB" = 703
  /\ Py.upper "aab" = Py.upper "AAB".
Proof.
  split; [reflexivity|]. split; [reflexivity|].
  apply (proj2 (proj2 col_to_index_injective) "aab" "AAB").
  - repeat constructor.
  - repeat constructor.
  - reflexivity.
Defined.

(** ** Letter case of the query *)

Lemma find_step_case (lower strip : string -> string) (n a n' a' : string)
                     (st : list credit_match * list string)
                     (i : Z) (row : list string) :
  lower n' = lower n -> lower a' = lower a ->
  find_step_with lower strip n' a' st i row
  = find_step_with lower strip n a st i row.
Proof. intros Hn Ha. unfold find_step_with. rewrite Hn, Ha. reflexivity. Qed.

Lemma find_loop_case (lower strip : string -> string) (n a n' a' : string)
                     (all_data : list (list string)) :
  lower n' = lower n -> lower a' = lower a ->
  forall (i : Z) (st : list credit_match * list string),
    find_loop_with lower strip n' a' i all_data st
    = find_loop_with lower strip n a i all_data st.
Proof.
  intros Hn Ha. induction all_data as [|row rest IH]; intros i st;
    [reflexivity|].
  cbn [find_loop_with].
  rewrite (find_step_case lower strip n a n' a' st i row Hn Ha).
  destruct (find_step_with lower strip n a st i row) as [e|st'];
    cbn [rbind]; [reflexivity|].
  apply IH.
Qed.

(** X8. [find_client_credits] depends on the names it is asked for only
    through their lower-case forms: two queries that are equal after
    [str.lower] give the same matches and the same warnings, on every
    sheet and without a connection.  This holds whatever [str.lower] and
    [str.strip] do on a text: it is proved for any two functions in their
    place. *)
Theorem find_client_credits_ignores_case :
  forall (lower strip : string -> string) (conn : option Sheet)
         (n a n' a' : string),
    lower n' = lower n -> lower a' = lower a ->
    find_client_credits_with lower strip conn n' a'
    = find_client_credits_with lower strip conn n a.
Proof.
  intros lower strip conn n a n' a' Hn Ha.
  destruct conn as [sh|]; [|reflexivity].
  unfold find_client_credits_with, find_client_credits_scan_with. cbv zeta.
  apply find_loop_case; assumption.
Qed.

(** "ANA diaz" and "Ana Diaz" on the sample sheet. *)
Lemma find_client_credits_ignores_case_witness :
  find_client_credits (Some (sheet_with sample_row)) "ANA" "diaz"
  = find_client_credits (Some (sheet_with sample_row)) "Ana" "Diaz".
Proof.
  exact (find_client_credits_ignores_case Py.lower Py.strip
           (Some (sheet_with sample_row)) "Ana" "Diaz" "ANA" "diaz"
           eq_refl eq_refl).
Defined.

(** ** From the lookup to the loader *)

Lemma field_value_str (rv : list string) (j : nat) :
  field_value rv j "N/A" as_str
  = if String.eqb (Py.strip (cell_at rv j)) "" then "N/A"
    else Py.strip (cell_at rv j).
Proof. reflexivity. Qed.

Lemma present_field (rv : list string) (j : nat) :
  present (Py.strip (cell_at rv j)) = true ->
  field_value rv j "N/A" as_str = Py.strip (cell_at rv j).
Proof.
  unfold present. intros H. apply andb_true_iff in H as [H _].
  rewrite field_value_str. destruct (String.eqb _ ""); [discriminate H|reflexivity].
Qed.

Lemma validate_credit_cases (c : credit) :
  validate_credit c = Ok c
  \/ exists msg, validate_credit c = Raise (ValueError msg).
Proof.
  unfold validate_credit.
  destruct (_ || _); [right; eexists; reflexivity|].
  destruct (_ || _); [right; eexists; reflexivity|].
  destruct (Py.float_le_0 _); [right; eexists; reflexivity|].
  destruct (_ <=? _); [right; eexists; reflexivity|].
  left. reflexivity.
Qed.

Lemma get_credit_data_found (sh : Sheet) (row : Z) (c0 : string)
                            (rest : list string) :
  1 <= row ->
  Gspread.row_cells sh row 0 (Z.of_nat (col_count sh) - 1) = c0 :: rest ->
  get_credit_data (Some sh) row
  = validate_credit (parsed_credit row (c0 :: rest)).
Proof.
  intros Hrow Hrv. unfold get_credit_data, get_credit_data_on, Gspread.call, Gspread.row_values.
  replace (row <? 1) with false by (symmetry; apply Z.ltb_ge; exact Hrow).
  unfold Ok, rbind. rewrite Hrv, credit_of_row_spec.
  destruct (validate_credit_cases (parsed_credit row (c0 :: rest)))
    as [->|(msg & ->)]; reflexivity.
Qed.

Lemma get_credit_data_loaded (sh : Sheet) (row : Z) (c : credit) :
  get_credit_data (Some sh) row = Ok c ->
  1 <= row
  /\ validate_credit
       (parsed_credit row
          (Gspread.row_cells sh row 0 (Z.of_nat (col_count sh) - 1)))
     = Ok c.
Proof.
  unfold get_credit_data, get_credit_data_on, Gspread.call, Gspread.row_values.
  destruct (Z.ltb_spec row 1) as [|Hrow]; [discriminate|].
  unfold Ok at 1. unfold rbind.
  destruct (Gspread.row_cells sh row 0 (Z.of_nat (col_count sh) - 1))
    as [|c0 rest]; [discriminate|].
  rewrite credit_of_row_spec. intros H. split; [exact Hrow|].
  destruct (validate_credit_cases (parsed_credit row (c0 :: rest)))
    as [E|(msg & E)]; rewrite E in H |- *; [exact H|discriminate H].
Qed.

Lemma parsed_credit_ext (ri : Z) (rv rv' : list string) :
  (forall j : nat, (12 <= j <= 23)%nat -> cell_at rv j = cell_at rv' j) ->
  parsed_credit ri rv = parsed_credit ri rv'.
Proof.
  intros H. unfold parsed_credit, field_value.
  rewrite (H 12%nat), (H 13%nat), (H 15%nat), (H 16%nat), (H 17%nat),
          (H 18%nat), (H 19%nat), (H 20%nat), (H 21%nat), (H 22%nat),
          (H 23%nat) by lia.
  reflexivity.
Qed.

Lemma present_not_blank (s : string) : present (Py.strip s) = true -> s <> "".
Proof. intros H ->. discriminate H. Qed.

(** X9. Every match that [find_client_credits] returns lies at a master
    row from 2 to 500, and on a sheet whose grid reaches column R
    [get_credit_data] finds the same item at that row: the record it
    builds has the item code and the item identifier of the match, and
    the only way the load can fail is the [ValueError] for an
    installment amount or a total count that is not above 0. *)
Theorem found_credit_loads :
  forall (sh : Sheet) (n a : string) (matches : list credit_match)
         (warnings : list string) (m : credit_match),
    (18 <= col_count sh)%nat ->
    find_client_credits (Some sh) n a = Ok (matches, warnings) ->
    In m matches ->
    2 <= match_row_index m <= 500
    /\ exists rv : list string,
         Gspread.row_values sh (match_row_index m) = Ok rv
         /\ codigo (parsed_credit (match_row_index m) rv) = match_codigo m
         /\ id_articulo (parsed_credit (match_row_index m) rv)
            = match_id_articulo m
         /\ (get_credit_data (Some sh) (match_row_index m)
             = Ok (parsed_credit (match_row_index m) rv)
             \/ (exists msg, get_credit_data (Some sh) (match_row_index m)
                             = Raise (ValueError msg))
                /\ (Py.float_le_0
                      (importe_cuota (parsed_credit (match_row_index m) rv)) = true
                    \/ total_cuotas (parsed_credit (match_row_index m) rv) <= 0)).
Proof.
  intros sh n a matches warnings m Hcols.
  unfold find_client_credits.
  rewrite (find_client_credits_connected Py.lower Py.strip).
  generalize (eq_refl (Gspread.get_values col_to_index sh master_range_to_read)).
  generalize (Gspread.get_values col_to_index sh master_range_to_read) at 1 3 4.
  intros data Hdata E Hin. injection E as <- _.
  apply surviving_matches_iff in Hin as (k & row & Hk & Hs & ->).
  rewrite Hdata in Hk. apply master_rows_nth in Hk as [Hk Hrow].
  cbn [project match_row_index match_codigo match_id_articulo].
  replace (Z.of_nat k + 2) with (2 + Z.of_nat k) by lia.
  set (r := 2 + Z.of_nat k) in *.
  split; [lia|].
  unfold row_survives in Hs.
  apply andb_true_iff in Hs as [Hs Hcod]. apply andb_true_iff in Hs as [_ Hid].
  set (rv := Gspread.row_cells sh r 0 (Z.of_nat (col_count sh) - 1)).
  assert (Hcell : forall j : nat,
             (j < 6)%nat -> cell_at row j = cell_at rv (12 + j)).
  { intros j Hj. rewrite Hrow. unfold rv. rewrite !row_cells_cell_at.
    replace (j <? Z.to_nat (17 - 12 + 1))%nat with true
      by (symmetry; apply Nat.ltb_lt; lia).
    replace (12 + j <? Z.to_nat (Z.of_nat (col_count sh) - 1 - 0 + 1))%nat with true
      by (symmetry; apply Nat.ltb_lt; lia).
    f_equal. lia. }
  rewrite (Hcell 4%nat), (Hcell 5%nat) in * by lia.
  cbn [Nat.add] in Hid, Hcod |- *.
  exists rv. split.
  { unfold Gspread.row_values.
    replace (r <? 1) with false by (symmetry; apply Z.ltb_ge; lia).
    reflexivity. }
  assert (Ecod : codigo (parsed_credit r rv) = Py.strip (cell_at rv 16))
    by (apply present_field, Hcod).
  assert (Eid : id_articulo (parsed_credit r rv) = Py.strip (cell_at rv 17))
    by (apply present_field, Hid).
  split; [exact Ecod|]. split; [exact Eid|].
  destruct rv as [|c0 rest] eqn:Erv.
  { exfalso. discriminate Hid. }
  rewrite (get_credit_data_found sh r c0 rest) by (try lia; exact Erv).
  unfold validate_credit. rewrite Ecod, Eid.
  unfold present in Hid, Hcod.
  apply andb_true_iff in Hid as [Hid1 Hid2].
  apply andb_true_iff in Hcod as [Hcod1 Hcod2].
  apply negb_true_iff in Hid1, Hid2, Hcod1, Hcod2.
  rewrite Hid1, Hid2, Hcod1, Hcod2. cbn [orb].
  destruct (Py.float_le_0 _) eqn:Hf.
  { right. split; [eexists; reflexivity|]. left. reflexivity. }
  destruct (Z.leb_spec (total_cuotas (parsed_credit r (c0 :: rest))) 0) as [Ht|Ht].
  { right. split; [eexists; reflexivity|]. right. exact Ht. }
  left. reflexivity.
Qed.

(** The one credit of Ana Diaz on the sample sheet. *)
Lemma found_credit_loads_witness :
  find_client_credits (Some (sheet_with sample_row)) "ana" "diaz"
  = Ok ([{| match_row_index := 5; match_articulo := "Heladera";
            match_id_articulo := "7"; match_codigo := "H-1" |}], [])
  /\ exists rv : list string,
       Gspread.row_values (sheet_with sample_row) 5 = Ok rv
       /\ codigo (parsed_credit 5 rv) = "H-1"
       /\ id_articulo (parsed_credit 5 rv) = "7".
Proof.
  assert (H : find_client_credits (Some (sheet_with sample_row)) "ana" "diaz"
              = Ok ([{| match_row_index := 5; match_articulo := "Heladera";
                        match_id_articulo := "7"; match_codigo := "H-1" |}], []))
    by (vm_compute; reflexivity).
  split; [exact H|].
  destruct (found_credit_loads (sheet_with sample_row) "ana" "diaz" _ _ _
              ltac:(cbn; lia) H (or_introl eq_refl))
    as (_ & rv & Hrv & Hc & Hi & _).
  exists rv. split; [exact Hrv|]. split; [exact Hc | exact Hi].
Defined.

(** ** The log write, read back *)

Lemma loaded_credit_parsed (sh : Sheet) (row : Z) (c : credit) :
  get_credit_data (Some sh) row = Ok c ->
  c = parsed_credit row
        (Gspread.row_cells sh row 0 (Z.of_nat (col_count sh) - 1)).
Proof.
  intros H. apply get_credit_data_loaded in H as [_ H].
  apply validate_credit_ok in H as [H _]. exact H.
Qed.

Lemma field_value_str_clean (rv : list string) (j : nat) :
  field_value rv j "N/A" as_str <> ""
  /\ Py.strip (field_value rv j "N/A" as_str) = field_value rv j "N/A" as_str.
Proof.
  rewrite field_value_str.
  destruct (String.eqb_spec (Py.strip (cell_at rv j)) "") as [E|E].
  - split; [discriminate|reflexivity].
  - split; [exact E|apply strip_idem].
Qed.

(** X10. [log_payment_and_update_credit] has six outcomes.  Without a
    connection it raises a [ConnectionError], and for a count that is not
    above 0 a [ValueError].  When the service fails at the scan for the
    next log row, it raises a [RuntimeError]; when the service fails at
    the [update], it raises a [ConnectionError] for an [APIError] and a
    [RuntimeError] for any other exception.  In all these cases the sheet
    and the effects are as they were.  Otherwise it returns normally after
    one write: the nine cells A to I of the next log row then hold the
    entry (date, names, item, item identifier, merchant, address, amount,
    count), and every other cell of the sheet keeps its text. *)
Theorem log_payment_and_update_credit_outcomes :
  forall (f : faults) (env : Env) (c : credit) (n : Z) (st : State),
    (connected env = false
     /\ log_payment_and_update_credit_on f env c n st
        = (Raise (ConnectionError "Google Sheet connection not available."), st))
    \/ (connected env = true /\ n <= 0
        /\ log_payment_and_update_credit_on f env c n st
           = (Raise (ValueError "Invalid cantidad_cuotas_pagadas provided."), st))
    \/ (connected env = true /\ 0 < n
        /\ (exists e : exn, log_scan_fault f = Some e)
        /\ log_payment_and_update_credit_on f env c n st
           = (Raise (RuntimeError "Unexpected error during payment logging"), st))
    \/ (connected env = true /\ 0 < n /\ log_scan_fault f = None
        /\ update_fault f = Some APIError
        /\ log_payment_and_update_credit_on f env c n st
           = (Raise (ConnectionError
                       "Google Sheets API Error during payment logging"), st))
    \/ (connected env = true /\ 0 < n /\ log_scan_fault f = None
        /\ (exists e : exn, update_fault f = Some e /\ e <> APIError)
        /\ log_payment_and_update_credit_on f env c n st
           = (Raise (RuntimeError "Unexpected error during payment logging"), st))
    \/ (connected env = true /\ 0 < n /\ log_scan_fault f = None
        /\ update_fault f = None
        /\ fst (log_payment_and_update_credit_on f env c n st) = Ok tt
        /\ effects (snd (log_payment_and_update_credit_on f env c n st))
           = (effects st
              ++ [SheetUpdate (log_range_to_update (next_log_row (sheet st)))
                    [log_entry_data env c n]])%list
        /\ (forall j : nat,
              (j < 9)%nat ->
              cell (sheet (snd (log_payment_and_update_credit_on f env c n st)))
                   (next_log_row (sheet st)) (Z.of_nat j)
              = nth j (log_entry_data env c n) "")
        /\ (forall rr cc : Z,
              rr <> next_log_row (sheet st) \/ cc < 0 \/ 9 <= cc ->
              cell (sheet (snd (log_payment_and_update_credit_on f env c n st)))
                   rr cc
              = cell (sheet st) rr cc)).
Proof.
  intros [f1 f2 f3 f4] env c n st. run_M. unfold connection.
  destruct (connected env) eqn:Hconn; [|left; split; reflexivity].
  right. destruct (Z.leb_spec n 0) as [Hle|Hgt].
  { left. split; [reflexivity|]. split; [exact Hle|reflexivity]. }
  right. destruct f3 as [e3|].
  { left. split; [reflexivity|]. split; [exact Hgt|].
    split; [exists e3; reflexivity|].
    cbv beta iota delta [find_first_empty_log_row_on Gspread.call rbind Raise].
    destruct e3; reflexivity. }
  right.
  cbv beta iota delta [find_first_empty_log_row find_first_empty_log_row_on
                       Gspread.call rbind].
  run_M. destruct f4 as [e4|].
  { assert (D : e4 = APIError \/ e4 <> APIError)
      by (destruct e4; first [left; reflexivity | right; discriminate]).
    destruct D as [->|Hne].
    - left. repeat (split; [first [reflexivity | exact Hgt]|]). reflexivity.
    - right. left. split; [reflexivity|]. split; [exact Hgt|].
      split; [reflexivity|]. split; [exists e4; split; [reflexivity|exact Hne]|].
      destruct e4; first [reflexivity | contradiction]. }
  right. right. cbn [fst snd sheet effects]. unfold next_log_row.
  split; [reflexivity|]. split; [exact Hgt|]. split; [reflexivity|].
  split; [reflexivity|]. split; [reflexivity|]. split; [reflexivity|]. split.
  - intros j Hj. apply log_write_read_back. exact Hj.
  - intros rr cc H. apply log_write_other. exact H.
Qed.

(** The [update] fails with an [APIError] on the sample sheet. *)
Lemma log_payment_and_update_credit_outcomes_witness :
  log_payment_and_update_credit_on update_fails sample_env sample_credit 2
    sample_state
  = (Raise (ConnectionError "Google Sheets API Error during payment logging"),
     sample_state).
Proof.
  destruct (log_payment_and_update_credit_outcomes update_fails sample_env
              sample_credit 2 sample_state)
    as [[H _]|[(_ & H & _)|[(_ & _ & [e H] & _)|[(_ & _ & _ & _ & H)
       |[(_ & _ & _ & [e [H Hne]] & _)|(_ & _ & _ & H & _)]]]]].
  - discriminate H.
  - exfalso. apply H. reflexivity.
  - discriminate H.
  - exact H.
  - exfalso. apply Hne. injection H as <-. reflexivity.
  - discriminate H.
Defined.

(** ** The next log row after a payment *)

Lemma blank_A_to_D_written (sh : Sheet) (r : Z) (entry : list string) :
  (2 <= List.length entry)%nat ->
  Py.strip (nth 1 entry "") <> "" ->
  blank_A_to_D (Gspread.update col_to_index sh (log_range_to_update r) [entry]) r
  = false.
Proof.
  intros Hlen Hne.
  destruct (blank_A_to_D _ r) eqn:E; [|reflexivity].
  exfalso. apply Hne.
  rewrite <- (log_write_read_back sh r entry 1) by lia.
  exact (proj1 (blank_A_to_D_iff _ r) E 1 ltac:(lia)).
Qed.

Lemma next_log_row_least (sh : Sheet) (r : Z) :
  2 <= r <= 1000 -> blank_A_to_D sh r = true -> next_log_row sh <= r.
Proof.
  intros Hr Hblank. destruct (next_log_row_on_sheet sh) as [Hfull _].
  destruct (Z.le_gt_cases (next_log_row sh) r) as [|Hgt]; [assumption|].
  rewrite Hfull in Hblank by lia. discriminate Hblank.
Qed.

Lemma next_log_row_eq (sh sh' : Sheet) :
  (forall r : Z, 2 <= r <= 1000 -> blank_A_to_D sh' r = blank_A_to_D sh r) ->
  next_log_row sh' = next_log_row sh.
Proof.
  intros H.
  pose proof (next_log_row_bounds sh) as Hb.
  pose proof (next_log_row_bounds sh') as Hb'.
  destruct (next_log_row_on_sheet sh) as [Hfull Hfree].
  destruct (next_log_row_on_sheet sh') as [Hfull' Hfree'].
  revert Hb Hb' Hfull Hfree Hfull' Hfree'.
  generalize (next_log_row sh') as r'. generalize (next_log_row sh) as r.
  intros r r' Hb Hb' Hfull Hfree Hfull' Hfree'.
  destruct (Z.lt_trichotomy r' r) as [Hlt|[Heq|Hgt]]; [|exact Heq|].
  - exfalso. specialize (Hfree' ltac:(lia)).
    rewrite H, Hfull in Hfree' by lia. discriminate Hfree'.
  - exfalso. specialize (Hfree ltac:(lia)).
    rewrite <- H, Hfull' in Hfree by lia. discriminate Hfree.
Qed.

Lemma next_log_row_after_write (sh : Sheet) (entry : list string) :
  (2 <= List.length entry)%nat ->
  Py.strip (nth 1 entry "") <> "" ->
  forall sh' : Sheet,
    sh' = Gspread.update col_to_index sh
            (log_range_to_update (next_log_row sh)) [entry] ->
    next_log_row sh <= 1000 -> next_log_row sh < next_log_row sh'.
Proof.
  intros Hlen Hne sh' Hsh'.
  pose proof (next_log_row_bounds sh) as Hb.
  pose proof (next_log_row_bounds sh') as Hb'.
  destruct (next_log_row_on_sheet sh) as [Hfull Hfree].
  destruct (next_log_row_on_sheet sh') as [Hfull' Hfree'].
  revert Hb Hb' Hfull Hfree Hfull' Hfree'.
  generalize (next_log_row sh') as r'.
  revert Hsh'. generalize (next_log_row sh) as r.
  intros r Hsh' r' Hb Hb' Hfull Hfree Hfull' Hfree'.
  assert (Hw : blank_A_to_D sh' r = false)
    by (rewrite Hsh'; apply blank_A_to_D_written; assumption).
  assert (Ho : forall rr, rr <> r -> blank_A_to_D sh' rr = blank_A_to_D sh rr)
    by (intros rr Hrr; rewrite Hsh'; apply blank_A_to_D_other_row, Hrr).
  intros Hr. destruct (Z.lt_ge_cases r r') as [|Hge]; [assumption|].
  exfalso. specialize (Hfree' ltac:(lia)).
  destruct (Z.eq_dec r' r) as [->|Hneq]; [congruence|].
  rewrite (Ho r' Hneq), (Hfull r') in Hfree' by lia. discriminate Hfree'.
Qed.

(** X11. After an accepted payment whose entry went to one of the rows 2
    to 1000, the next log row lies further down: the entry is not
    overwritten by the next payment, which is logged on a later row and
    gets another Remito number. *)
Theorem next_log_row_after_payment :
  forall (env : Env) (st : State) (row cuotas : Z) (c : credit) (fp fd : float),
    get_credit_data (connection env st) row = Ok c ->
    0 < cuotas <= total_cuotas c - cuotas_abonadas_antes c ->
    Py.float_of_int (cuotas_abonadas_antes c + cuotas) = Ok fp ->
    Py.float_of_int cuotas = Ok fd ->
    next_log_row (sheet st) <= 1000 ->
    next_log_row (sheet st)
    < next_log_row (sheet (run_workflow env row cuotas st)).
Proof.
  intros env st row cuotas c fp fd Hload Hc Hfp Hfd.
  apply (next_log_row_after_write (sheet st) (log_entry_data env c cuotas)).
  - cbn. lia.
  - cbn [log_entry_data nth].
    unfold connection in Hload.
    destruct (connected env); [|discriminate Hload].
    rewrite (loaded_credit_parsed _ _ _ Hload). cbn [parsed_credit nombre].
    destruct (field_value_str_clean
                (Gspread.row_cells (sheet st) row 0
                   (Z.of_nat (col_count (sheet st)) - 1)) 12) as [Hne Hs].
    rewrite Hs. exact Hne.
  - unfold run_workflow.
    rewrite (accepted_run env st row cuotas c fp fd Hload Hc Hfp Hfd).
    reflexivity.
Qed.

(** Two installments on the sample sheet: the log row moves from 3 to 4. *)
Lemma next_log_row_after_payment_witness :
  next_log_row (sheet sample_state) = 3
  /\ next_log_row (sheet sample_state)
     < next_log_row (sheet (run_workflow sample_env 5 2 sample_state)).
Proof.
  assert (Hrow : next_log_row (sheet sample_state) = 3)
    by (vm_compute; reflexivity).
  split; [exact Hrow|].
  apply (next_log_row_after_payment sample_env sample_state 5 2 sample_credit
           5%float 2%float).
  - vm_compute. reflexivity.
  - vm_compute. split; [reflexivity | discriminate].
  - vm_compute. reflexivity.
  - vm_compute. reflexivity.
  - rewrite Hrow. lia.
Defined.

(** X16. [find_first_empty_log_row] looks at nothing but the cells A to D
    of the rows 2 to 1000, and of these only at whether they are blank:
    on two sheets whose rows 2 to 1000 are blank in A to D at the same
    places it returns the same row.  So what the columns E to I of a
    row hold does not keep the row from being taken for a free one. *)
Theorem find_first_empty_log_row_reads_A_to_D :
  forall sh sh' : Sheet,
    (forall r : Z, 2 <= r <= 1000 -> blank_A_to_D sh' r = blank_A_to_D sh r) ->
    find_first_empty_log_row (Some sh') = find_first_empty_log_row (Some sh).
Proof.
  intros sh sh' H. rewrite !find_first_empty_log_row_connected.
  f_equal. apply next_log_row_eq, H.
Qed.

(** A text in F3 does not keep row 3 from being the next log row. *)
Lemma find_first_empty_log_row_reads_A_to_D_witness :
  cell sheet_with_leftover 3 5 = "old"
  /\ find_first_empty_log_row (Some sheet_with_leftover) = Ok 3.
Proof.
  split; [reflexivity|].
  rewrite (find_first_empty_log_row_reads_A_to_D
             (sheet_with sample_row) sheet_with_leftover).
  - vm_compute. reflexivity.
  - intros r Hr. unfold blank_A_to_D, cell, sheet_with_leftover. cbn [cells].
    rewrite !lookup_insert_ne by (intros E; injection E as _ E; discriminate E).
    reflexivity.
Defined.

(** ** The master rows after a run *)

Lemma get_credit_data_ext (sh sh' : Sheet) (row : Z) (c : credit) :
  col_count sh' = col_count sh ->
  (forall cc : Z, 12 <= cc <= 23 -> cell sh' row cc = cell sh row cc) ->
  get_credit_data (Some sh) row = Ok c ->
  get_credit_data (Some sh') row = Ok c.
Proof.
  intros Hcols Hcells Hload.
  pose proof (loaded_credit_valid _ _ _ Hload) as (_ & Hid & _).
  pose proof (loaded_credit_parsed _ _ _ Hload) as Hc.
  apply get_credit_data_loaded in Hload as [Hrow Hv].
  assert (E : parsed_credit row
                (Gspread.row_cells sh' row 0 (Z.of_nat (col_count sh') - 1))
              = parsed_credit row
                  (Gspread.row_cells sh row 0 (Z.of_nat (col_count sh) - 1))).
  { apply parsed_credit_ext. intros j Hj. rewrite !row_cells_cell_at, Hcols.
    destruct (_ <? _)%nat; [|reflexivity].
    apply Hcells. lia. }
  destruct (Gspread.row_cells sh' row 0 (Z.of_nat (col_count sh') - 1))
    as [|c0 rest] eqn:Erv.
  - exfalso. rewrite <- Hc in E. rewrite <- E in Hid. discriminate Hid.
  - rewrite (get_credit_data_found sh' row c0 rest Hrow Erv), E. exact Hv.
Qed.

(** X12. No run of the payment workflow changes what the loader reads: a
    credit that [get_credit_data] loads from a master row before the run
    is loaded as the same record after it, whatever the outcome of the
    run.  In particular the count of installments paid is the same, so
    that a payment that was accepted is accepted again. *)
Theorem loaded_credit_survives_run :
  forall (env : Env) (row cuotas : Z) (st : State) (row' : Z) (c : credit),
    get_credit_data (Some (sheet st)) row' = Ok c ->
    get_credit_data (Some (sheet (run_workflow env row cuotas st))) row' = Ok c.
Proof.
  intros env row cuotas st row' c Hload.
  destruct (workflow_cases env row cuotas st) as [[Hs _]|(c' & new & Hs & _)];
    rewrite Hs; [exact Hload|].
  apply (get_credit_data_ext (sheet st)); [reflexivity| |exact Hload].
  intros cc Hcc. apply log_write_other. right. right. cbn. lia.
Qed.

(** The sample credit, after two installments were paid on it. *)
Lemma loaded_credit_survives_run_witness :
  get_credit_data (Some (sheet (run_workflow sample_env 5 2 sample_state))) 5
  = Ok sample_credit.
Proof.
  apply (loaded_credit_survives_run sample_env 5 2 sample_state 5 sample_credit).
  vm_compute. reflexivity.
Defined.

(** ** What a run sends *)

(** X13. [generate_and_send_receipt] never raises, whatever the row, the
    count and the sheet: it returns normally, and it answers exactly
    once, with an edited message or a new one as the update asks, as the
    last thing it does. *)
Theorem workflow_answers_once :
  forall (env : Env) (row cuotas : Z) (st : State),
    fst (generate_and_send_receipt env row cuotas st) = Ok tt
    /\ exists (before : list effect) (msg : reply),
         effects (run_workflow env row cuotas st)
         = (effects st ++ before ++ [Reply (has_callback_query env) msg])%list
         /\ replies before = [].
Proof.
  intros env row cuotas st.
  destruct (workflow_shape env row cuotas st) as (before & msg & E & He & Hb).
  split; [rewrite E; reflexivity|].
  exists before, msg. split; [exact He|].
  destruct Hb as [->|[(t & -> & _)|(t & rg & values & -> & _)]]; reflexivity.
Qed.



(** ** The loaded record *)

(** X15. A record that [get_credit_data] returns carries the row number
    it was asked for, which is 1 or more, and its seven text fields are
    stripped and not empty: a blank cell reads as "N/A". *)
Theorem loaded_credit_fields :
  forall (conn : option Sheet) (row : Z) (c : credit),
    get_credit_data conn row = Ok c ->
    1 <= row /\ row_index c = row
    /\ Forall (fun field => field <> "" /\ Py.strip field = field)
         [nombre c; apellido c; articulo c; codigo c; id_articulo c;
          local_comercial c; direccion c].
Proof.
  intros conn row c Hload. destruct conn as [sh|]; [|discriminate Hload].
  pose proof (loaded_credit_parsed _ _ _ Hload) as ->.
  apply get_credit_data_loaded in Hload as [Hrow _].
  split; [exact Hrow|]. split; [reflexivity|].
  cbn [parsed_credit nombre apellido articulo codigo id_articulo
       local_comercial direccion].
  repeat (apply List.Forall_cons; [apply field_value_str_clean|]).
  apply List.Forall_nil.
Qed.

(** The sample credit. *)
Lemma loaded_credit_fields_witness :
  get_credit_data (Some (sheet_with sample_row)) 5 = Ok sample_credit
  /\ row_index sample_credit = 5.
Proof.
  assert (H : get_credit_data (Some (sheet_with sample_row)) 5 = Ok sample_credit)
    by (vm_compute; reflexivity).
  split; [exact H|].
  exact (proj1 (proj2 (loaded_credit_fields _ 5 sample_credit H))).
Defined.

(** ** Integer cells *)

Lemma numeral_char_no_mark (c : ascii) :
  numeral_char c = true ->
  Ascii.eqb c "$" = false /\ Ascii.eqb c "." = false.
Proof.
  destruct c as [[] [] [] [] [] [] [] []]; intros H; vm_compute in H;
    try discriminate H; split; reflexivity.
Qed.

Lemma str_free_of (c : ascii) (n : Z) :
  numeral_char c = false -> free_of c (Py.str n).
Proof.
  intros Hc. unfold free_of. eapply List.Forall_impl; [|apply str_chars].
  intros d Hd. cbv beta in Hd. destruct (Ascii.eqb_spec d c) as [->|]; [|reflexivity].
  congruence.
Qed.

Lemma replace_free (c : ascii) (new s : string) :
  free_of c s -> Py.replace c new s = s.
Proof.
  unfold free_of. induction s as [|d s IH]; intros H; [reflexivity|].
  cbn [Py.chars list_ascii_of_string] in H.
  apply List.Forall_cons_iff in H as [Hd Hs].
  cbn [Py.replace]. rewrite Hd, (IH Hs). reflexivity.
Qed.

Lemma replace_drop_app (c : ascii) (a b : string) :
  free_of c a -> Py.replace c "" (a ++ b) = a ++ Py.replace c "" b.
Proof.
  unfold free_of. induction a as [|d a IH]; intros H; [reflexivity|].
  cbn [Py.chars list_ascii_of_string] in H.
  apply List.Forall_cons_iff in H as [Hd Ha].
  change (String d a ++ b) with (String d (a ++ b)).
  cbn [Py.replace]. rewrite Hd, (IH Ha). reflexivity.
Qed.

Lemma split_head_cut (sep : ascii) (a rest : string) :
  free_of sep a -> Py.split_head sep (a ++ String sep rest) = a.
Proof.
  unfold free_of. induction a as [|d a IH]; intros H.
  - change ("" ++ String sep rest) with (String sep rest).
    cbn [Py.split_head]. rewrite Ascii.eqb_refl. reflexivity.
  - cbn [Py.chars list_ascii_of_string] in H.
    apply List.Forall_cons_iff in H as [Hd Ha].
    change (String d a ++ String sep rest) with (String d (a ++ String sep rest)).
    cbn [Py.split_head]. rewrite Hd, (IH Ha). reflexivity.
Qed.

Lemma split_head_free (sep : ascii) (a : string) :
  free_of sep a -> Py.split_head sep a = a.
Proof.
  unfold free_of. induction a as [|d a IH]; intros H; [reflexivity|].
  cbn [Py.chars list_ascii_of_string] in H.
  apply List.Forall_cons_iff in H as [Hd Ha].
  cbn [Py.split_head]. rewrite Hd, (IH Ha). reflexivity.
Qed.

(** X17. The integer reading of a cell gives back every integer of at
    most 4300 digits written in plain decimal (the numerals that Python's
    [int] reads whatever their length in the sheet), and it drops a
    currency sign in front and whatever follows the first comma: "$12,50"
    reads as 12. *)
Theorem convert_int_reads_numerals :
  forall (n : Z) (decimals : string),
    Z.abs n < 10 ^ Py.int_max_str_digits ->
    convert as_int (Py.str n) = Some n
    /\ convert as_int ("$" ++ Py.str n ++ "," ++ decimals) = Some n.
Proof.
  intros n d _. cbn [convert]. split.
  - rewrite (replace_free "$" "" (Py.str n)) by (apply str_free_of; reflexivity).
    rewrite (replace_free "." "" (Py.str n)) by (apply str_free_of; reflexivity).
    rewrite split_head_free by (apply str_free_of; reflexivity).
    apply parse_int_str.
  - change ("$" ++ Py.str n ++ "," ++ d) with (String "$" (Py.str n ++ String "," d)).
    cbn [Py.replace Ascii.eqb Bool.eqb].
    change ("" ++ Py.replace "$" "" (Py.str n ++ String "," d))
      with (Py.replace "$" "" (Py.str n ++ String "," d)).
    rewrite (replace_drop_app "$" (Py.str n)) by (apply str_free_of; reflexivity).
    cbn [Py.replace Ascii.eqb Bool.eqb].
    rewrite (replace_drop_app "." (Py.str n)) by (apply str_free_of; reflexivity).
    cbn [Py.replace Ascii.eqb Bool.eqb].
    rewrite split_head_cut by (apply str_free_of; reflexivity).
    apply parse_int_str.
Qed.

(** A count of 12 and an amount of 12,50 read as an integer. *)
Lemma convert_int_reads_numerals_witness :
  Z.abs 12 < 10 ^ Py.int_max_str_digits
  /\ convert as_int "12" = Some 12
  /\ convert as_int "$12,50" = Some 12.
Proof.
  assert (H : Z.abs 12 < 10 ^ Py.int_max_str_digits)
    by (vm_compute; reflexivity).
  split; [exact H|].
  exact (convert_int_reads_numerals 12 "50" H).
Defined.
